(** * S2RTool frontend: page controllers of the planning and planning-detail pages

    A shallow embedding of [frontend/planning-detail-script.js],
    [frontend/planning-script.js] and the image optimiser of [frontend/utils.js].

    - JavaScript strings are byte strings (UTF-8); [trim] removes the
      white space and line terminators of ECMAScript.
    - The document is a finite map from element ids to elements, so that
      [document.getElementById] is a lookup and a dereference of [null]
      throws a [TypeError].
    - Handlers run in a state-and-exception monad; an [async] handler is cut
      at each [await] into segments, and the event loop resumes the suspended
      invocation when the awaited promise settles. *)

From Stdlib Require Import QArith Qround Qminmax Ascii String Floats.
From stdpp Require Import gmap strings list fin_maps pretty.
Close Scope Q_scope.
Close Scope float_scope.
Open Scope string_scope.

(** ** JavaScript strings and exceptions *)

Module Js.

Definition byte (a : ascii) : N := N_of_ascii a.

(** One-byte white space: TAB, LF, VT, FF, CR, SP. *)
Definition ws1 (a : ascii) : bool :=
  let n := byte a in bool_decide (9 ≤ n ≤ 13)%N || bool_decide (n = 32)%N.

(** Two-byte white space: U+00A0. *)
Definition ws2 (a b : ascii) : bool :=
  bool_decide (byte a = 194)%N && bool_decide (byte b = 160)%N.

(** Three-byte white space: U+1680, U+2000..U+200A, U+2028, U+2029, U+202F,
    U+205F, U+3000, U+FEFF. *)
Definition ws3 (a b c : ascii) : bool :=
  let '(x, y, z) := (byte a, byte b, byte c) in
  (bool_decide (x = 225) && bool_decide (y = 154) && bool_decide (z = 128))%N
  || (bool_decide (x = 226) && bool_decide (y = 128) &&
      (bool_decide (128 ≤ z ≤ 138) || bool_decide (z = 168)
       || bool_decide (z = 169) || bool_decide (z = 175)))%N
  || (bool_decide (x = 226) && bool_decide (y = 129) && bool_decide (z = 159))%N
  || (bool_decide (x = 227) && bool_decide (y = 128) && bool_decide (z = 128))%N
  || (bool_decide (x = 239) && bool_decide (y = 187) && bool_decide (z = 191))%N.

(** Removes the white space at the front of [s]; [w2] and [w3] recognise
    the two- and three-byte characters in the direction of travel. *)
Fixpoint strip (w2 : ascii → ascii → bool) (w3 : ascii → ascii → ascii → bool)
    (s : string) : string :=
  match s with
  | EmptyString => EmptyString
  | String a s1 =>
      if ws1 a then strip w2 w3 s1 else
      match s1 with
      | EmptyString => s
      | String b s2 =>
          if w2 a b then strip w2 w3 s2 else
          match s2 with
          | EmptyString => s
          | String c s3 => if w3 a b c then strip w2 w3 s3 else s
          end
      end
  end.

(** [s] starts with white space. *)
Definition dirty (w2 : ascii → ascii → bool) (w3 : ascii → ascii → ascii → bool)
    (s : string) : bool :=
  match s with
  | String a s1 =>
      ws1 a ||
      match s1 with
      | String b s2 =>
          w2 a b || match s2 with String c _ => w3 a b c | EmptyString => false end
      | EmptyString => false
      end
  | EmptyString => false
  end.

Definition trimStart (s : string) : string := strip ws2 ws3 s.

Definition trimEnd (s : string) : string :=
  String.rev (strip (λ a b, ws2 b a) (λ a b c, ws3 c b a) (String.rev s)).

(** [String.prototype.trim] *)
Definition trim (s : string) : string := trimEnd (trimStart s).

(** A string is truthy when it is not empty. *)
Definition truthy (s : string) : bool :=
  match s with EmptyString => false | String _ _ => true end.

(** [a || b] on strings. *)
Definition or_else (a b : string) : string := if truthy a then a else b.

(** The double quote, and an attribute [ name="v"] of markup. *)
Definition quote : string := String (ascii_of_nat 34) EmptyString.
Definition attr (name v : string) : string :=
  " " +:+ name +:+ "=" +:+ quote +:+ v +:+ quote.

(** [Array.prototype.push] *)
Definition push {A} (xs : list A) (x : A) : list A := app xs [x].

(** [Array.prototype.join] *)
Fixpoint join (sep : string) (parts : list string) : string :=
  match parts with
  | [] => ""
  | [p] => p
  | p :: rest => p +:+ sep +:+ join sep rest
  end.

(** A property that may be absent from a parsed JSON object; an absent
    property interpolates as [undefined]. *)
Definition interpolate (v : option string) : string := default "undefined" v.

Record Error := { name : string; message : string }.

(** [new Error(message)] *)
Definition mkError (msg : string) : Error := {| name := "Error"; message := msg |}.

(** Reading or writing property [prop] of [null] (V8's wording). *)
Definition nullDeref (access prop : string) : Error :=
  {| name := "TypeError";
     message := "Cannot " +:+ access +:+ " properties of null (" +:+
                (if String.eqb access "read" then "reading" else "setting") +:+
                " '" +:+ prop +:+ "')" |}.

(** Reading property [prop] of [undefined]. *)
Definition undefinedRead (prop : string) : Error :=
  {| name := "TypeError";
     message := "Cannot read properties of undefined (reading '" +:+ prop +:+ "')" |}.

(** A number obtained by [parseFloat] on the text of a form control, kept as
    the text it is parsed from. *)
Inductive Number := ParseFloat (raw : string).

End Js.

(** ** Completions and the handler monad *)

Inductive Completion (A : Type) : Type :=
| Normal (a : A)
| Throw (e : Js.Error).
Arguments Normal {A} a.
Arguments Throw {A} e.

Definition Eff (S A : Type) : Type := S → Completion A * S.

Section Eff.
Context {S : Type}.

Definition ret {A} (a : A) : Eff S A := λ s, (Normal a, s).

Definition bind {A B} (m : Eff S A) (k : A → Eff S B) : Eff S B :=
  λ s, match m s with
       | (Normal a, s') => k a s'
       | (Throw e, s') => (Throw e, s')
       end.

Definition throw {A} (e : Js.Error) : Eff S A := λ s, (Throw e, s).

Definition gets {A} (f : S → A) : Eff S A := λ s, (Normal (f s), s).

Definition modify (f : S → S) : Eff S unit := λ s, (Normal tt, f s).

(** [try { body } catch (e) { handler e }] *)
Definition try_catch {A} (body : Eff S A) (handler : Js.Error → Eff S A) : Eff S A :=
  λ s, match body s with
       | (Normal a, s') => (Normal a, s')
       | (Throw e, s') => handler e s'
       end.

(** [try { body } finally { fin }]: [fin] always runs, and an exception
    of [fin] replaces the completion of [body]. *)
Definition try_finally {A} (body : Eff S A) (fin : Eff S unit) : Eff S A :=
  λ s, let '(r, s') := body s in
       match fin s' with
       | (Normal _, s'') => (r, s'')
       | (Throw e, s'') => (Throw e, s'')
       end.

(** The state a handler leaves behind, whatever its completion. *)
Definition exec {A} (m : Eff S A) (s : S) : S := (m s).2.

(** Handlers that leave the state as it is. *)
Definition readonly {A} (m : Eff S A) : Prop := ∀ s, (m s).2 = s.

(** [m] returns from [s] without changing it. *)
Definition returns {A} (m : Eff S A) (s : S) : Prop := ∃ a, m s = (Normal a, s).

(** Whatever [m] does, the state it leaves is related by [R] to the state
    it started from. *)
Definition keeps {A} (R : relation S) (m : Eff S A) : Prop := ∀ s, R s (m s).2.
End Eff.

#[global] Instance Eff_ret {S} : MRet (Eff S) := λ A, @ret S A.
#[global] Instance Eff_bind {S} : MBind (Eff S) := λ A B k m, @bind S A B m k.
#[global] Instance Eff_fmap {S} : FMap (Eff S) := λ A B f m, @bind S A B m (λ a, ret (f a)).

(** What a segment of an [async] handler leaves to the event loop. *)
Inductive Step (T : Type) : Type :=
| Finished
| Await (t : T).
Arguments Finished {T}.
Arguments Await {T} t.

Section Protect.
Context {S T : Type}.

(** A segment of the body of [try { ... await ... } catch { } finally { }]:
    when the segment reaches another [await] the handler stays suspended
    inside the [try]; when it finishes, [fin] runs; when it throws, [handler]
    runs and then [fin]. *)
Definition protect (handler : Js.Error → Eff S unit) (fin : Eff S unit)
    (segment : Eff S (Step T)) : Eff S (Step T) :=
  λ s, match segment s with
       | (Normal (Await t), s') => (Normal (Await t), s')
       | (Normal Finished, s') => (fin ;; mret Finished) s'
       | (Throw e, s') => (try_finally (handler e) fin ;; mret Finished) s'
       end.
End Protect.

(** ** What the browser hands to the scripts *)

Module Browser.

(** A file chosen by the user; [natural_size] is the pixel size of the image
    it decodes to, [None] when the browser cannot decode it. *)
Record File := {
  file_name : string;
  file_size : N;
  natural_size : option (N * N)
}.

Inductive Blob :=
| FileBlob (f : File)                      (* a [File] is a [Blob] *)
| CanvasPng (f : File) (width height : N). (* [f] redrawn and encoded as PNG *)

(** The value of a [src] or [href]: a literal string, or the data URL a
    [FileReader] produces for a blob. *)
Inductive Url :=
| NoUrl
| Literal (s : string)
| DataUrl (b : Blob).

(** [canvas.toBlob(callback, 'image/png')] calls back with [null] when the
    canvas has no pixels. *)
Definition toBlob (f : File) (width height : N) : option Blob :=
  if (width =? 0)%N || (height =? 0)%N then None else Some (CanvasPng f width height).

(** How a promise ends. *)
Inductive Settled (A : Type) : Type :=
| Fulfilled (a : A)
| Rejected (e : Js.Error).
Arguments Fulfilled {A} a.
Arguments Rejected {A} e.

(** What is known of a promise ahead of time: how it settles, or that
    nothing ever settles it. *)
Inductive Promise (A : Type) : Type :=
| Settles (r : Settled A)
| Forever.
Arguments Settles {A} r.
Arguments Forever {A}.

(** The part of a [Response] the scripts look at. *)
Record Response := { ok : bool; status : Z; statusText : string }.

(** The JSON bodies of the render endpoints. *)
Record ErrorBody := { error : option string }.
Record RenderBody := {
  generated_image_base64 : option string;
  mime_type : option string
}.

(** The message of a response as it is: the [error] of the body when there
    is one, the status text otherwise. *)
Definition verbatim (response : Response) (errorData : ErrorBody) : string :=
  default (statusText response) (error errorData).

End Browser.
Export Browser.

(** ** The document *)

Record Img := {
  img_src : Url;
  img_alt : string;
  img_style : list (string * string)
}.

(** A lot card of the planning page: its [data-lot-index] and the values of
    its [.lot-number-input] and [.lot-description-input], when it has them. *)
Record LotCard := {
  lotIndex : Z;
  numberInput : option string;
  descriptionInput : option string
}.

Inductive Node :=
| ImgNode (i : Img)
| LotCardNode (c : LotCard)
| InfoBox
| OtherNode.

Record Element := {
  textContent : string;
  innerHTML : string;
  classList : gset string;
  disabled : bool;
  value : string;
  checked : bool;
  src : Url;
  options : list string;     (* the text of each [option] of a [select] *)
  selectedIndex : Z;
  children : list Node;
  uploadText : option string; (* text of a [.planning-upload-text] descendant *)
  onclick : option string     (* the payload captured by an [onclick] closure *)
}.

Definition set_textContent (v : string) (e : Element) : Element :=
  {| textContent := v; innerHTML := innerHTML e; classList := classList e;
     disabled := disabled e; value := value e; checked := checked e; src := src e;
     options := options e; selectedIndex := selectedIndex e; children := children e;
     uploadText := uploadText e; onclick := onclick e |}.

(** Assigning [innerHTML] replaces the children by the parsed markup, which
    is kept as text. *)
Definition set_innerHTML (v : string) (e : Element) : Element :=
  {| textContent := textContent e; innerHTML := v; classList := classList e;
     disabled := disabled e; value := value e; checked := checked e; src := src e;
     options := options e; selectedIndex := selectedIndex e; children := [];
     uploadText := uploadText e; onclick := onclick e |}.

Definition set_classList (v : gset string) (e : Element) : Element :=
  {| textContent := textContent e; innerHTML := innerHTML e; classList := v;
     disabled := disabled e; value := value e; checked := checked e; src := src e;
     options := options e; selectedIndex := selectedIndex e; children := children e;
     uploadText := uploadText e; onclick := onclick e |}.

Definition set_disabled (v : bool) (e : Element) : Element :=
  {| textContent := textContent e; innerHTML := innerHTML e; classList := classList e;
     disabled := v; value := value e; checked := checked e; src := src e;
     options := options e; selectedIndex := selectedIndex e; children := children e;
     uploadText := uploadText e; onclick := onclick e |}.

Definition set_value (v : string) (e : Element) : Element :=
  {| textContent := textContent e; innerHTML := innerHTML e; classList := classList e;
     disabled := disabled e; value := v; checked := checked e; src := src e;
     options := options e; selectedIndex := selectedIndex e; children := children e;
     uploadText := uploadText e; onclick := onclick e |}.

Definition set_checked (v : bool) (e : Element) : Element :=
  {| textContent := textContent e; innerHTML := innerHTML e; classList := classList e;
     disabled := disabled e; value := value e; checked := v; src := src e;
     options := options e; selectedIndex := selectedIndex e; children := children e;
     uploadText := uploadText e; onclick := onclick e |}.

Definition set_src (v : Url) (e : Element) : Element :=
  {| textContent := textContent e; innerHTML := innerHTML e; classList := classList e;
     disabled := disabled e; value := value e; checked := checked e; src := v;
     options := options e; selectedIndex := selectedIndex e; children := children e;
     uploadText := uploadText e; onclick := onclick e |}.

Definition set_selectedIndex (v : Z) (e : Element) : Element :=
  {| textContent := textContent e; innerHTML := innerHTML e; classList := classList e;
     disabled := disabled e; value := value e; checked := checked e; src := src e;
     options := options e; selectedIndex := v; children := children e;
     uploadText := uploadText e; onclick := onclick e |}.

Definition set_children (v : list Node) (e : Element) : Element :=
  {| textContent := textContent e; innerHTML := innerHTML e; classList := classList e;
     disabled := disabled e; value := value e; checked := checked e; src := src e;
     options := options e; selectedIndex := selectedIndex e; children := v;
     uploadText := uploadText e; onclick := onclick e |}.

Definition set_uploadText (v : option string) (e : Element) : Element :=
  {| textContent := textContent e; innerHTML := innerHTML e; classList := classList e;
     disabled := disabled e; value := value e; checked := checked e; src := src e;
     options := options e; selectedIndex := selectedIndex e; children := children e;
     uploadText := v; onclick := onclick e |}.

Definition set_onclick (v : option string) (e : Element) : Element :=
  {| textContent := textContent e; innerHTML := innerHTML e; classList := classList e;
     disabled := disabled e; value := value e; checked := checked e; src := src e;
     options := options e; selectedIndex := selectedIndex e; children := children e;
     uploadText := uploadText e; onclick := v |}.

(** [el.classList.add(c)] and [el.classList.remove(c)] *)
Definition classList_add (c : string) (e : Element) : Element :=
  set_classList ({[c]} ∪ classList e) e.
Definition classList_remove (c : string) (e : Element) : Element :=
  set_classList (classList e ∖ {[c]}) e.

Definition hidden (e : Element) : bool := bool_decide ("hidden" ∈ classList e).

(** The element is visible and reads [text]. *)
Definition shows (text : string) (e : Element) : Prop :=
  textContent e = text ∧ hidden e = false.

(** [el.appendChild(n)] *)
Definition appendChild (n : Node) (e : Element) : Element :=
  set_children (Js.push (children e) n) e.

(** An element with nothing set. *)
Definition blank : Element :=
  {| textContent := ""; innerHTML := ""; classList := ∅; disabled := false;
     value := ""; checked := false; src := NoUrl; options := []; selectedIndex := (-1)%Z;
     children := []; uploadText := None; onclick := None |}.

(** Page states that hold a document. *)
Class HasDocument (S : Type) := {
  document : S → gmap string Element;
  set_document : gmap string Element → S → S
}.

Section Dom.
Context {St : Type} `{!HasDocument St}.

(** [document.getElementById(id)], [null] when there is none. *)
Definition getElementById (id : string) : Eff St (option Element) :=
  gets (λ s, document s !! id).

(** [document.getElementById(id).prop]: reading a property of [null] throws. *)
Definition read {A} (id prop : string) (get : Element → A) : Eff St A :=
  λ s, match document s !! id with
       | Some e => (Normal (get e), s)
       | None => (Throw (Js.nullDeref "read" prop), s)
       end.

(** [document.getElementById(id).prop = v]: writing a property of [null]
    throws. *)
Definition write (id prop : string) (set : Element → Element) : Eff St unit :=
  λ s, match document s !! id with
       | Some e => (Normal tt, set_document (<[id := set e]> (document s)) s)
       | None => (Throw (Js.nullDeref "set" prop), s)
       end.

(** [const el = document.getElementById(id); if (el) { ... }] *)
Definition whenPresent (id : string) (set : Element → Element) : Eff St unit :=
  modify (λ s, set_document (alter set id (document s)) s).
End Dom.


(** ** The event loop *)

Module Loop.

Record World (P T : Type) : Type := {
  page : P;
  tasks : list T   (* the suspended handlers and pending reads *)
}.
Arguments page {P T} w.
Arguments tasks {P T} w.

Section Loop.
Context {P T : Type}.

(** A handler called by the browser: what it returns or throws is
    dropped, a suspended handler is queued. *)
Definition dispatch (h : Eff P (Step T)) (w : World P T) : World P T :=
  match h (page w) with
  | (Normal (Await t), p) => {| page := p; tasks := Js.push (tasks w) t |}
  | (_, p) => {| page := p; tasks := tasks w |}
  end.

(** Task [i] continues with [k] when [k] is defined for it. *)
Definition resume (i : nat) (k : T → option (Eff P (Step T))) (w : World P T)
    : World P T :=
  match tasks w !! i with
  | None => w
  | Some t =>
      match k t with
      | None => w
      | Some h =>
          match h (page w) with
          | (Normal (Await t'), p) => {| page := p; tasks := <[i := t']> (tasks w) |}
          | (_, p) => {| page := p; tasks := delete i (tasks w) |}
          end
      end
  end.

(** How many of the tasks satisfy [P]. *)
Fixpoint count (P : T → bool) (ts : list T) : nat :=
  match ts with
  | [] => 0
  | t :: rest => (if P t then 1 else 0) + count P rest
  end.
End Loop.

(** *** Renders in flight

    [flag] is the page's in-flight flag, [sent] the requests it has issued,
    [isRender] tells the suspended render handlers among the tasks, [ok]
    says that the page has the submit control the handler writes to, and
    [good] relates a page to the requests a submit may send from it. *)
Section Render.
Context {P T Rq : Type} (flag : P → bool) (sent : P → list Rq) (isRender : T → bool)
  (ok : P → Prop) (good : P → Rq → Prop).

(** The render requests that are in flight: one for each suspended render
    handler. *)
Definition inFlight (w : World P T) : nat := count isRender (tasks w).

(** The flag and the requests issued are the same in both states. *)
Definition sameRender (s s' : P) : Prop := flag s' = flag s ∧ sent s' = sent s.

(** What one event does to the renders. *)
Inductive Effect (w w' : World P T) : Prop :=
| Untouched :
    sameRender (page w) (page w') → inFlight w' = inFlight w → Effect w w'
| Started (req : Rq) :
    good (page w) req →
    flag (page w) = false → flag (page w') = true →
    sent (page w') = Js.push (sent (page w)) req →
    inFlight w' = inFlight w + 1 → Effect w w'
| Ended :
    (ok (page w) → flag (page w') = false) → sent (page w') = sent (page w) →
    inFlight w' + 1 = inFlight w → Effect w w'
| Aborted :
    flag (page w) = false → sent (page w') = sent (page w) →
    inFlight w' = inFlight w → Effect w w'.

(** At most one render is in flight, and the flag is set while it is. *)
Definition guarded (w : World P T) : Prop :=
  (inFlight w ≤ 1)%nat ∧ (inFlight w = 1 → flag (page w) = true).
End Render.

End Loop.
Export Loop.

(** ** The planning-detail page ([planning-detail-script.js]) *)

Module Detail.

Definition API_BASE_URL : string := "http://localhost:5001/api".

(** *** The request body *)

Record QualityPresets := {
  global_illumination : bool;
  soft_shadows : bool;
  hdri_sky : bool;
  reflections : bool;
  depth_of_field : bool;
  bloom : bool;
  color_correction : bool;
  desaturate : bool
}.

Record HighriseZone := {
  hr_count : string;
  hr_floors : string;
  hr_style : string;
  hr_colors : string;
  hr_features : string
}.

Record LowriseZone := {
  lr_exists : bool;
  lr_floors : string;
  lr_style : string;
  lr_colors : string
}.

Record Context := {
  people : bool;
  vehicles : bool;
  skyline : bool;
  water : bool
}.

Record Landscape := {
  green_spaces : string;
  tree_type : string;
  road_pattern : string;
  context : Context
}.

Record StructuredData := {
  scale : string;
  project_type : string;
  overall_description : string;
  highrise_zone : HighriseZone;
  lowrise_zone : LowriseZone;
  landscape : Landscape
}.

Record FormData := {
  planning_description : string;
  camera_angle : string;
  time_of_day : string;
  weather : string;
  quality_level : string;
  quality_presets : QualityPresets;
  sketch_adherence : Js.Number;
  aspect_ratio : string;
  structured_data : StructuredData
}.

Record RequestData := {
  image_base64 : option Url;
  planning_data : FormData
}.

Record Request := {
  url : string;
  method : string;
  body : RequestData   (* the argument of [JSON.stringify] *)
}.

(** *** State *)

Record Page := {
  currentSketchImage : option Url;
  currentRenderedImage : option string;
  isRendering : bool;
  dom : gmap string Element;
  network : list Request   (* every [fetch] of a render issued so far *)
}.

Definition set_currentSketchImage (v : option Url) (p : Page) : Page :=
  {| currentSketchImage := v; currentRenderedImage := currentRenderedImage p;
     isRendering := isRendering p; dom := dom p; network := network p |}.
Definition set_currentRenderedImage (v : option string) (p : Page) : Page :=
  {| currentSketchImage := currentSketchImage p; currentRenderedImage := v;
     isRendering := isRendering p; dom := dom p; network := network p |}.
Definition set_isRendering (v : bool) (p : Page) : Page :=
  {| currentSketchImage := currentSketchImage p;
     currentRenderedImage := currentRenderedImage p;
     isRendering := v; dom := dom p; network := network p |}.
Definition set_dom (v : gmap string Element) (p : Page) : Page :=
  {| currentSketchImage := currentSketchImage p;
     currentRenderedImage := currentRenderedImage p;
     isRendering := isRendering p; dom := v; network := network p |}.

#[global] Instance Page_document : HasDocument Page :=
  {| document := dom; set_document := set_dom |}.

(** [fetch(url, {method: 'POST', ..., body: JSON.stringify(data)})] *)
Definition fetch (r : Request) : Eff Page unit :=
  modify (λ p, {| currentSketchImage := currentSketchImage p;
                  currentRenderedImage := currentRenderedImage p;
                  isRendering := isRendering p; dom := dom p;
                  network := Js.push (network p) r |}).

(** *** UI helpers *)

Definition showError (elementId message : string) : Eff Page unit :=
  whenPresent elementId (λ el, classList_remove "hidden" (set_textContent message el)).

Definition hideError (elementId : string) : Eff Page unit :=
  whenPresent elementId (classList_add "hidden").

Definition showSuccess (elementId message : string) : Eff Page unit :=
  whenPresent elementId (λ el, classList_remove "hidden" (set_textContent message el)).

Definition hideSuccess (elementId : string) : Eff Page unit :=
  whenPresent elementId (classList_add "hidden").

Definition showSpinner (spinnerId : string) (show : bool) : Eff Page unit :=
  whenPresent spinnerId
    (if show then classList_remove "hidden" else classList_add "hidden").

(** *** Quality presets *)

Definition presets (level : string) : QualityPresets :=
  let standard :=
    {| global_illumination := true; soft_shadows := true; hdri_sky := false;
       reflections := true; depth_of_field := false; bloom := false;
       color_correction := true; desaturate := false |} in
  let high_fidelity :=
    {| global_illumination := true; soft_shadows := true; hdri_sky := true;
       reflections := true; depth_of_field := true; bloom := true;
       color_correction := true; desaturate := true |} in
  let ultra_realism := high_fidelity in
  if String.eqb level "standard" then standard
  else if String.eqb level "high_fidelity" then high_fidelity
  else if String.eqb level "ultra_realism" then ultra_realism
  else high_fidelity.

Definition applyQualityPreset (level : string) : Eff Page unit :=
  let preset := presets level in
  write "quality_gi" "checked" (set_checked (global_illumination preset)) ;;
  write "quality_shadows" "checked" (set_checked (soft_shadows preset)) ;;
  write "quality_hdri" "checked" (set_checked (hdri_sky preset)) ;;
  write "quality_reflection" "checked" (set_checked (reflections preset)) ;;
  write "quality_dof" "checked" (set_checked (depth_of_field preset)) ;;
  write "quality_bloom" "checked" (set_checked (bloom preset)) ;;
  write "quality_color_correction" "checked" (set_checked (color_correction preset)) ;;
  write "quality_desaturate" "checked" (set_checked (desaturate preset)).

(** *** Reading the form *)

(** [document.getElementById(id).options[document.getElementById(id).selectedIndex].text] *)
Definition selectedText (id : string) : Eff Page string :=
  opts ← read id "options" options;
  idx ← read id "selectedIndex" selectedIndex;
  match (if (idx <? 0)%Z then None else opts !! Z.to_nat idx) with
  | Some text => mret text
  | None => throw (Js.undefinedRead "text")
  end.

Definition trimmedValue (id : string) : Eff Page string :=
  Js.trim <$> read id "value" value.

Definition buildDescriptionFromFields : Eff Page string :=
  (* Scale and type *)
  scale ← read "scale" "value" value;
  projectType ← selectedText "project_type";
  let parts := ["Quy hoạch " +:+ scale +:+ " " +:+ projectType] in
  (* Overall description *)
  overall ← trimmedValue "overall_description";
  let parts := if Js.truthy overall then Js.push parts overall else parts in
  (* High-rise zone *)
  hrCount ← trimmedValue "highrise_count";
  hrFloors ← trimmedValue "highrise_floors";
  hrStyle ← selectedText "highrise_style";
  hrColors ← trimmedValue "highrise_colors";
  hrFeatures ← trimmedValue "highrise_features";
  let parts :=
    if Js.truthy hrCount || Js.truthy hrFloors then
      let hrPart := "Phân khu cao tầng:" in
      let hrPart := if Js.truthy hrCount then hrPart +:+ " " +:+ hrCount +:+ " tòa" else hrPart in
      let hrPart := if Js.truthy hrFloors
                    then hrPart +:+ ", mỗi tòa " +:+ hrFloors +:+ " tầng" else hrPart in
      let hrPart := hrPart +:+ ". " +:+ hrStyle in
      let hrPart := if Js.truthy hrColors then hrPart +:+ ", màu sắc: " +:+ hrColors else hrPart in
      let hrPart := if Js.truthy hrFeatures
                    then hrPart +:+ ". Đặc điểm: " +:+ hrFeatures else hrPart in
      Js.push parts hrPart
    else parts in
  (* Low-rise zone *)
  hasLowrise ← read "has_lowrise" "checked" checked;
  parts ← (if hasLowrise : bool then
             lrFloors ← trimmedValue "lowrise_floors";
             lrStyle ← selectedText "lowrise_style";
             lrColors ← trimmedValue "lowrise_colors";
             let lrPart := "Phân khu thấp tầng:" in
             let lrPart := if Js.truthy lrFloors
                           then lrPart +:+ " " +:+ lrFloors +:+ " tầng" else lrPart in
             let lrPart := lrPart +:+ ". " +:+ lrStyle in
             let lrPart := if Js.truthy lrColors then lrPart +:+ ", " +:+ lrColors else lrPart in
             mret (Js.push parts lrPart)
           else mret parts);
  (* Landscape *)
  greenSpaces ← trimmedValue "green_spaces";
  treeType ← selectedText "tree_type";
  roadPattern ← selectedText "road_pattern";
  let landPart := "Cảnh quan:" in
  let landPart := if Js.truthy greenSpaces then landPart +:+ " " +:+ greenSpaces +:+ "." else landPart in
  let landPart := landPart +:+ " Cây xanh: " +:+ treeType +:+ ". Giao thông: " +:+ roadPattern in
  let parts := Js.push parts landPart in
  (* Context *)
  cPeople ← read "context_people" "checked" checked;
  cVehicles ← read "context_vehicles" "checked" checked;
  cSkyline ← read "context_skyline" "checked" checked;
  cWater ← read "context_water" "checked" checked;
  let contextParts :=
    let contextParts := [] in
    let contextParts := if cPeople : bool
                        then Js.push contextParts "người đi bộ (motion blur)" else contextParts in
    let contextParts := if cVehicles : bool
                        then Js.push contextParts "xe hơi (motion blur)" else contextParts in
    let contextParts := if cSkyline : bool
                        then Js.push contextParts "city skyline phía xa" else contextParts in
    if cWater : bool then Js.push contextParts "water features" else contextParts in
  let parts := if (0 <? length contextParts)%nat
               then Js.push parts ("Context: " +:+ Js.join ", " contextParts) else parts in
  mret (Js.join ". " parts +:+ ".").

Definition collectFormData : Eff Page FormData :=
  gi ← read "quality_gi" "checked" checked;
  shadows ← read "quality_shadows" "checked" checked;
  hdri ← read "quality_hdri" "checked" checked;
  reflection ← read "quality_reflection" "checked" checked;
  dof ← read "quality_dof" "checked" checked;
  qbloom ← read "quality_bloom" "checked" checked;
  cc ← read "quality_color_correction" "checked" checked;
  desat ← read "quality_desaturate" "checked" checked;
  let qualityPresets :=
    {| global_illumination := gi; soft_shadows := shadows; hdri_sky := hdri;
       reflections := reflection; depth_of_field := dof; bloom := qbloom;
       color_correction := cc; desaturate := desat |} in
  (* Check if custom description is provided (overrides structured) *)
  customDescription ← trimmedValue "custom_description";
  description ← (if Js.truthy customDescription
                 then mret customDescription      (* use custom description directly *)
                 else buildDescriptionFromFields); (* build from structured fields *)
  cameraAngle ← read "camera_angle" "value" value;
  timeOfDay ← read "time_of_day" "value" value;
  weather_ ← read "weather" "value" value;
  qualityLevel ← read "quality_level" "value" value;
  adherence ← read "sketch_adherence" "value" value;
  aspectRatio ← read "aspect_ratio" "value" value;
  scale_ ← read "scale" "value" value;
  projectType ← read "project_type" "value" value;
  overall ← read "overall_description" "value" value;
  hrCount ← read "highrise_count" "value" value;
  hrFloors ← read "highrise_floors" "value" value;
  hrStyle ← read "highrise_style" "value" value;
  hrColors ← read "highrise_colors" "value" value;
  hrFeatures ← read "highrise_features" "value" value;
  lrExists ← read "has_lowrise" "checked" checked;
  lrFloors ← read "lowrise_floors" "value" value;
  lrStyle ← read "lowrise_style" "value" value;
  lrColors ← read "lowrise_colors" "value" value;
  greenSpaces ← read "green_spaces" "value" value;
  treeType ← read "tree_type" "value" value;
  roadPattern ← read "road_pattern" "value" value;
  cPeople ← read "context_people" "checked" checked;
  cVehicles ← read "context_vehicles" "checked" checked;
  cSkyline ← read "context_skyline" "checked" checked;
  cWater ← read "context_water" "checked" checked;
  mret {|
    planning_description := description;
    camera_angle := cameraAngle;
    time_of_day := timeOfDay;
    weather := weather_;
    quality_level := qualityLevel;
    quality_presets := qualityPresets;
    sketch_adherence := Js.ParseFloat adherence;
    aspect_ratio := aspectRatio;
    structured_data := {|
      scale := scale_;
      project_type := projectType;
      overall_description := overall;
      highrise_zone := {| hr_count := hrCount; hr_floors := hrFloors; hr_style := hrStyle;
                          hr_colors := hrColors; hr_features := hrFeatures |};
      lowrise_zone := {| lr_exists := lrExists; lr_floors := lrFloors;
                         lr_style := lrStyle; lr_colors := lrColors |};
      landscape := {| green_spaces := greenSpaces; tree_type := treeType;
                      road_pattern := roadPattern;
                      context := {| people := cPeople; vehicles := cVehicles;
                                    skyline := cSkyline; water := cWater |} |}
    |}
  |}.

(** The controls [collectFormData] and [buildDescriptionFromFields] read. *)
Definition controls : list string :=
  ["quality_gi"; "quality_shadows"; "quality_hdri"; "quality_reflection";
   "quality_dof"; "quality_bloom"; "quality_color_correction"; "quality_desaturate";
   "custom_description"; "camera_angle"; "time_of_day"; "weather"; "quality_level";
   "sketch_adherence"; "aspect_ratio"; "scale"; "project_type"; "overall_description";
   "highrise_count"; "highrise_floors"; "highrise_style"; "highrise_colors";
   "highrise_features"; "has_lowrise"; "lowrise_floors"; "lowrise_style";
   "lowrise_colors"; "green_spaces"; "tree_type"; "road_pattern"; "context_people";
   "context_vehicles"; "context_skyline"; "context_water"].

Definition selects : list string :=
  ["project_type"; "highrise_style"; "lowrise_style"; "tree_type"; "road_pattern"].

Definition hasSelection (e : Element) : bool :=
  bool_decide (0 ≤ selectedIndex e)%Z
  && bool_decide (Z.to_nat (selectedIndex e) < length (options e)).

(** The form is complete: every control is in the document and every
    [select] has a selected option. *)
Definition complete (d : gmap string Element) : bool :=
  forallb (λ id, bool_decide (is_Some (d !! id))) controls
  && forallb (λ id, from_option hasSelection false (d !! id)) selects.

(** *** Suspended work *)

Inductive Task :=
| Reading (file : File)                (* a [FileReader] reading the upload *)
| AwaitFetch                           (* [await fetch(...)] *)
| AwaitErrorJson (response : Response) (* [await response.json()], [!response.ok] *)
| AwaitJson.                           (* [await response.json()] *)

Definition isRenderTask (t : Task) : bool :=
  match t with Reading _ => false | _ => true end.

(** *** Image upload *)

(** [reader.readAsDataURL(file)] starts the read; it throws when it is not
    given a blob. *)
Definition readAsDataURL (file : option File) : Eff Page (Step Task) :=
  match file with
  | Some f => mret (Await (Reading f))
  | None => throw {| Js.name := "TypeError";
                     Js.message := "Failed to execute 'readAsDataURL' on 'FileReader': parameter 1 is not of type 'Blob'." |}
  end.

Definition handleImageUpload (file : option File) : Eff Page (Step Task) :=
  match file with
  | None => mret Finished
  | Some f =>
      try_catch
        (readAsDataURL (Some f))
        (λ error, showError "renderError" ("Lỗi khi tải ảnh: " +:+ Js.message error) ;;
                  mret Finished)
  end.

(** The [reader.onload] callback of [handleImageUpload]. *)
Definition readerOnload (file : File) : Eff Page unit :=
  let base64 := DataUrl (FileBlob file) in
  modify (set_currentSketchImage (Some base64)) ;;
  (* Show preview *)
  write "previewImage" "src" (set_src base64) ;;
  write "previewImage" "classList" (classList_remove "hidden") ;;
  write "uploadLabel" "classList" (classList_add "hidden") ;;
  (* Enable generate button *)
  write "generateRenderButton" "disabled" (set_disabled false).

(** *** Render *)

Definition displayRenderedImage (base64Image : option string) : Eff Page unit :=
  write "gallery" "innerHTML" (set_innerHTML "") ;;
  let img := {| img_src := Literal (Js.interpolate base64Image);
                img_alt := "Rendered planning";
                img_style := [("width", "100%"); ("borderRadius", "12px");
                              ("boxShadow", "0 4px 6px rgba(0,0,0,0.1)")] |} in
  write "gallery" "appendChild" (appendChild (ImgNode img)) ;;
  (* Show output controls *)
  write "outputControls" "classList" (classList_remove "hidden").

Definition catchRender (error : Js.Error) : Eff Page unit :=
  showError "renderError" ("Lỗi khi render: " +:+ Js.message error).

Definition finallyRender : Eff Page unit :=
  modify (set_isRendering false) ;;
  showSpinner "renderSpinner" false ;;
  write "generateRenderButton" "disabled" (set_disabled false).

(** A segment of the [try] block of [generateRender]. *)
Definition inTry (segment : Eff Page (Step Task)) : Eff Page (Step Task) :=
  protect catchRender finallyRender segment.

(** [generateRender], up to [await fetch(...)]. *)
Definition generateRender : Eff Page (Step Task) :=
  sketch ← gets currentSketchImage;
  if negb (bool_decide (is_Some sketch)) then
    showError "renderError" "Vui lòng upload sketch trước!" ;; mret Finished
  else
  rendering ← gets isRendering;
  if rendering : bool then mret Finished
  else
  (* Validate: either custom description OR structured fields must have content *)
  customDesc ← trimmedValue "custom_description";
  overallDesc ← trimmedValue "overall_description";
  hrCount ← trimmedValue "highrise_count";
  hasHighrise ← (if Js.truthy hrCount then mret hrCount
                 else trimmedValue "highrise_floors");
  if negb (Js.truthy customDesc) && negb (Js.truthy overallDesc)
     && negb (Js.truthy hasHighrise) then
    showError "renderError" "Vui lòng điền thông tin (nhấn Analyze hoặc điền thủ công)!" ;;
    mret Finished
  else
  modify (set_isRendering true) ;;
  showSpinner "renderSpinner" true ;;
  write "generateRenderButton" "disabled" (set_disabled true) ;;
  hideError "renderError" ;;
  hideSuccess "renderSuccess" ;;
  inTry (
    formData ← collectFormData;
    image ← gets currentSketchImage;
    let requestData := {| image_base64 := image; planning_data := formData |} in
    fetch {| url := API_BASE_URL +:+ "/planning/detail-render";
             method := "POST"; body := requestData |} ;;
    mret (Await AwaitFetch)).

(** [generateRender] when [fetch] settles. *)
Definition afterFetch (r : Settled Response) : Eff Page (Step Task) :=
  inTry (
    match r with
    | Rejected e => throw e
    | Fulfilled response =>
        if negb (ok response) then mret (Await (AwaitErrorJson response))
        else mret (Await AwaitJson)
    end).

(** [generateRender] when the body of a response that is not [ok] settles. *)
Definition afterErrorJson (response : Response) (r : Settled ErrorBody)
    : Eff Page (Step Task) :=
  inTry (
    match r with
    | Rejected e => throw e
    | Fulfilled errorData =>
        throw (Js.mkError
                 (Js.or_else (default "" (error errorData))
                             ("Server error: " +:+ pretty (status response))))
    end).

(** [generateRender] when the body of an [ok] response settles; [elapsedTime]
    is the text of [((Date.now() - startTime) / 1000).toFixed(1)]. *)
Definition afterJson (r : Settled RenderBody) (elapsedTime : string)
    : Eff Page (Step Task) :=
  inTry (
    match r with
    | Rejected e => throw e
    | Fulfilled data =>
        (* Display result *)
        modify (set_currentRenderedImage (generated_image_base64 data)) ;;
        rendered ← gets currentRenderedImage;
        displayRenderedImage rendered ;;
        showSuccess "renderSuccess" ("✅ Render thành công trong " +:+ elapsedTime +:+ "s!") ;;
        (* Show stats *)
        write "statTime" "textContent" (set_textContent (elapsedTime +:+ "s")) ;;
        write "statsBox" "classList" (classList_remove "hidden") ;;
        mret Finished
    end).

(** *** Events *)

Definition World : Type := Loop.World Page Task.

Inductive Event :=
| Change (file : option File)   (* [change] on [#uploadSketch] *)
| ReaderLoad (i : nat)          (* the read of task [i] is done *)
| ClickGenerate                 (* [click] on [#generateRenderButton] *)
| ClickRegenerate               (* [click] inside [#regenerateBtn] *)
| UserValue (id v : string)     (* the user edits a text control *)
| UserChecked (id : string) (b : bool)
| UserSelected (id : string) (idx : Z) (v : string)
| FetchSettles (i : nat) (r : Settled Response)
| ErrorJsonSettles (i : nat) (r : Settled ErrorBody)
| JsonSettles (i : nat) (r : Settled RenderBody) (elapsedTime : string).

Definition edit (id : string) (f : Element → Element) : Eff Page (Step Task) :=
  whenPresent id f ;; mret Finished.

(** The listeners of [setupEventListeners] on the form controls. *)
Definition onUserChecked (id : string) : Eff Page (Step Task) :=
  if String.eqb id "has_lowrise" then
    box ← getElementById "has_lowrise";
    fields ← getElementById "lowrise_fields";
    match box, fields with
    | Some b, Some _ =>
        whenPresent "lowrise_fields"
          (if checked b then classList_remove "hidden" else classList_add "hidden") ;;
        mret Finished
    | _, _ => mret Finished
    end
  else mret Finished.

Definition onUserValue (id : string) : Eff Page (Step Task) :=
  if String.eqb id "sketch_adherence" then
    slider ← getElementById "sketch_adherence";
    display ← getElementById "sketch_adherence_value";
    match slider, display with
    | Some e, Some _ =>
        whenPresent "sketch_adherence_value" (set_textContent (value e)) ;;
        mret Finished
    | _, _ => mret Finished
    end
  else mret Finished.

Definition onUserSelected (id : string) : Eff Page (Step Task) :=
  if String.eqb id "quality_level" then
    select ← getElementById "quality_level";
    match select with
    | Some e => applyQualityPreset (value e) ;; mret Finished
    | None => mret Finished
    end
  else mret Finished.

(** A disabled button receives no [click]. *)
Definition clickable (id : string) (p : Page) : bool :=
  match dom p !! id with
  | Some e => negb (disabled e)
  | None => false
  end.

Definition step (w : World) (e : Event) : World :=
  match e with
  | Change file => dispatch (handleImageUpload file) w
  | ReaderLoad i =>
      resume i (λ t, match t with
                     | Reading f => Some (readerOnload f ;; mret Finished)
                     | _ => None
                     end) w
  | ClickGenerate =>
      if clickable "generateRenderButton" (page w) then dispatch generateRender w else w
  | ClickRegenerate => dispatch generateRender w
  | UserValue id v => dispatch (edit id (set_value v) ;; onUserValue id) w
  | UserChecked id b => dispatch (edit id (set_checked b) ;; onUserChecked id) w
  | UserSelected id idx v =>
      dispatch (edit id (λ el, set_value v (set_selectedIndex idx el)) ;;
                onUserSelected id) w
  | FetchSettles i r =>
      resume i (λ t, match t with AwaitFetch => Some (afterFetch r) | _ => None end) w
  | ErrorJsonSettles i r =>
      resume i (λ t, match t with
                     | AwaitErrorJson response => Some (afterErrorJson response r)
                     | _ => None
                     end) w
  | JsonSettles i r elapsedTime =>
      resume i (λ t, match t with
                     | AwaitJson => Some (afterJson r elapsedTime)
                     | _ => None
                     end) w
  end.

Definition run (w : World) (events : list Event) : World := foldl step w events.

(** The render requests that are in flight: one for each suspended
    invocation of [generateRender]. *)
Definition inFlight (w : World) : nat := Loop.inFlight isRenderTask w.

Definition sameRender : relation Page := Loop.sameRender isRendering network.

Definition Effect : relation World :=
  Loop.Effect isRendering network isRenderTask (λ _, True) (λ _ _, True).

Definition guarded (w : World) : Prop := Loop.guarded isRendering isRenderTask w.

(** *** Missing input

    The control [id] is on the page and holds nothing but white space. *)
Definition blank (p : Page) (id : string) : bool :=
  match dom p !! id with
  | Some el => negb (Js.truthy (Js.trim (value el)))
  | None => false
  end.

(** No description is given: neither a custom one, nor an overall one, nor
    a count or a number of floors of the high-rise zone. *)
Definition blankDescriptions (p : Page) : bool :=
  blank p "custom_description" && blank p "overall_description"
  && blank p "highrise_count" && blank p "highrise_floors".

(** *** What a failed render leaves

    The page has the elements a render reports to. *)
Definition reportable (p : Page) : Prop :=
  is_Some (dom p !! "renderError") ∧ is_Some (dom p !! "renderSpinner")
  ∧ is_Some (dom p !! "generateRenderButton").

(** The ways a render fails once its request is out: the phase of the
    handler, the event that brings the failure to task [i], and the message
    of the exception that reaches the [catch] block. *)
Inductive Failure : Task → (nat → Event) → string → Prop :=
| FetchRejected e :
    Failure AwaitFetch (λ i, FetchSettles i (Rejected e)) (Js.message e)
| ErrorResponse response errorData :
    Failure (AwaitErrorJson response)
      (λ i, ErrorJsonSettles i (Fulfilled errorData))
      (Js.or_else (default "" (error errorData))
                  ("Server error: " +:+ pretty (status response)))
| ErrorBodyRejected response e :
    Failure (AwaitErrorJson response) (λ i, ErrorJsonSettles i (Rejected e))
      (Js.message e)
| BodyRejected e elapsedTime :
    Failure AwaitJson (λ i, JsonSettles i (Rejected e) elapsedTime) (Js.message e).

(** The page [p'] a render that failed with [msg] leaves of [p]: the
    message is displayed, the controls are back, nothing more was sent. *)
Definition settled (msg : string) (p p' : Page) : Prop :=
  isRendering p' = false ∧ network p' = network p ∧
  (∃ el, dom p' !! "renderError" = Some el ∧ shows ("Lỗi khi render: " +:+ msg) el) ∧
  (∃ el, dom p' !! "renderSpinner" = Some el ∧ hidden el = true) ∧
  (∃ el, dom p' !! "generateRenderButton" = Some el ∧ disabled el = false).

(** The page as the script finds it when it is loaded. *)
Definition init (d : gmap string Element) : World :=
  {| page := {| currentSketchImage := None; currentRenderedImage := None;
                isRendering := false; dom := d; network := [] |};
     tasks := [] |}.

End Detail.

(** ** Arithmetic of the image optimiser *)

Module JsMath.

(** The numbers that occur are non-negative: a rational, or [Infinity]. *)
Inductive Num :=
| Finite (q : Q)
| Infinity.

(** [a / b] for a positive [a]. *)
Definition div (a b : N) : Num :=
  match b with
  | N0 => Infinity
  | Npos p => Finite (Z.of_N a # p)
  end.

(** [Math.min(x, y)] *)
Definition min (x y : Num) : Num :=
  match x, y with
  | Finite a, Finite b => Finite (Qmin a b)
  | Finite a, Infinity => Finite a
  | Infinity, _ => y
  end.

(** [Math.round(q)]: the nearest integer, a half going up. *)
Definition round (q : Q) : Z := Qfloor (q + (1 # 2))%Q.

(** [Math.round(n * r)] as it ends up in a canvas dimension, which takes
    [NaN] and [Infinity] to [0]. *)
Definition round_mul (n : N) (r : Num) : N :=
  match r with
  | Finite q => Z.to_N (round (inject_Z (Z.of_N n) * q)%Q)
  | Infinity => 0%N
  end.

(** The size of the canvas for an image of [width] by [height] pixels. *)
Definition canvasSize (MAX_DIMENSION : N) (width height : N) : N * N :=
  if (MAX_DIMENSION <? width)%N || (MAX_DIMENSION <? height)%N then
    let ratio := min (div MAX_DIMENSION width) (div MAX_DIMENSION height) in
    (round_mul width ratio, round_mul height ratio)
  else (width, height).

End JsMath.

(** ** The shared utilities ([utils.js]) *)

Module Utils.

Definition MAX_IMAGE_DIMENSION : N := 1024.

(** How the promise of [optimizeImageForUpload(file)] ends: [img.onload]
    draws the image on a canvas and resolves with its PNG blob,
    [img.onerror] resolves with the original file. *)
Definition optimizeImageForUpload (file : File) : Promise (option Blob) :=
  let MAX_DIMENSION := MAX_IMAGE_DIMENSION in
  match natural_size file with
  | Some (width, height) =>
      let '(width, height) := JsMath.canvasSize MAX_DIMENSION width height in
      Settles (Fulfilled (toBlob file width height))
  | None => Settles (Fulfilled (Some (FileBlob file))) (* fallback to original file *)
  end.

End Utils.

(** ** The planning page ([planning-script.js]) *)

Module Planning.

Definition API_BASE_URL : string := "http://localhost:5001/api".

Record Lot := {
  lot_number : string;
  description : string
}.

Record RequestData := {
  site_plan_base64 : option Url;
  lot_map_base64 : option Url;
  lot_descriptions : list Lot;
  camera_angle : string;
  time_of_day : string;
  aspect_ratio : string;
  style_keywords : string
}.

Record Request := {
  url : string;
  method : string;
  body : RequestData   (* the argument of [JSON.stringify] *)
}.

(** *** State *)

Record Page := {
  currentSitePlanImage : option Url;
  currentLotMapImage : option Url;
  isPlanningRendering : bool;
  dom : gmap string Element;
  network : list Request;   (* every [fetch] of a render issued so far *)
  timers : list string      (* [setTimeout]: the elements waiting to be hidden *)
}.

Definition set_currentSitePlanImage (v : option Url) (p : Page) : Page :=
  {| currentSitePlanImage := v; currentLotMapImage := currentLotMapImage p;
     isPlanningRendering := isPlanningRendering p; dom := dom p;
     network := network p; timers := timers p |}.
Definition set_currentLotMapImage (v : option Url) (p : Page) : Page :=
  {| currentSitePlanImage := currentSitePlanImage p; currentLotMapImage := v;
     isPlanningRendering := isPlanningRendering p; dom := dom p;
     network := network p; timers := timers p |}.
Definition set_isPlanningRendering (v : bool) (p : Page) : Page :=
  {| currentSitePlanImage := currentSitePlanImage p;
     currentLotMapImage := currentLotMapImage p;
     isPlanningRendering := v; dom := dom p;
     network := network p; timers := timers p |}.
Definition set_dom (v : gmap string Element) (p : Page) : Page :=
  {| currentSitePlanImage := currentSitePlanImage p;
     currentLotMapImage := currentLotMapImage p;
     isPlanningRendering := isPlanningRendering p; dom := v;
     network := network p; timers := timers p |}.
Definition set_network (v : list Request) (p : Page) : Page :=
  {| currentSitePlanImage := currentSitePlanImage p;
     currentLotMapImage := currentLotMapImage p;
     isPlanningRendering := isPlanningRendering p; dom := dom p;
     network := v; timers := timers p |}.
Definition set_timers (v : list string) (p : Page) : Page :=
  {| currentSitePlanImage := currentSitePlanImage p;
     currentLotMapImage := currentLotMapImage p;
     isPlanningRendering := isPlanningRendering p; dom := dom p;
     network := network p; timers := v |}.

#[global] Instance Page_document : HasDocument Page :=
  {| document := dom; set_document := set_dom |}.

(** [fetch(url, {method: 'POST', ..., body: JSON.stringify(data)})] *)
Definition fetch (r : Request) : Eff Page unit :=
  modify (λ p, set_network (Js.push (network p) r) p).

(** *** Image optimisation *)

(** How the promise of [optimizeImageForUpload(file)] ends: [img.onload]
    draws the image on a canvas and resolves with its PNG blob; there is
    no [img.onerror], so nothing settles the promise of a file that does
    not decode. *)
Definition optimizeImageForUpload (file : File) : Promise (option Blob) :=
  let MAX_DIMENSION := 1024%N in
  match natural_size file with
  | Some (width, height) =>
      let '(width, height) := JsMath.canvasSize MAX_DIMENSION width height in
      Settles (Fulfilled (toBlob file width height))
  | None => Forever
  end.

(** *** Helper functions *)

Definition showError (id message : string) : Eff Page unit :=
  whenPresent id (λ errorDiv, classList_remove "hidden" (set_textContent message errorDiv)).

Definition hideError (id : string) : Eff Page unit :=
  whenPresent id (classList_add "hidden").

Definition showSuccess (id message : string) : Eff Page unit :=
  successDiv ← getElementById id;
  match successDiv with
  | Some _ =>
      whenPresent id (λ el, classList_remove "hidden" (set_textContent message el)) ;;
      modify (λ p, set_timers (Js.push (timers p) id) p)   (* setTimeout(..., 4000) *)
  | None => mret tt
  end.

Definition hideSuccess (id : string) : Eff Page unit :=
  whenPresent id (classList_add "hidden").

(** *** Lot cards *)

(** [container.querySelectorAll('.lot-card')] *)
Definition lotCards (container : Element) : list LotCard :=
  omap (λ n, match n with LotCardNode c => Some c | _ => None end) (children container).

(** [cards.forEach((card, index) => ...)] over the nodes of a container. *)
Fixpoint forEachCard (f : nat → LotCard → LotCard) (index : nat) (nodes : list Node)
    : list Node :=
  match nodes with
  | [] => []
  | LotCardNode c :: rest => LotCardNode (f index c) :: forEachCard f (S index) rest
  | n :: rest => n :: forEachCard f index rest
  end.

(** [lotCard.remove()] for the [k]-th card. *)
Fixpoint removeCard (k : nat) (nodes : list Node) : list Node :=
  match nodes with
  | [] => []
  | LotCardNode c :: rest =>
      match k with
      | O => rest
      | S k' => LotCardNode c :: removeCard k' rest
      end
  | n :: rest => n :: removeCard k rest
  end.

(** [infoBox.remove()] for the first [.info-box], if any. *)
Fixpoint removeInfoBox (nodes : list Node) : list Node :=
  match nodes with
  | [] => []
  | InfoBox :: rest => rest
  | n :: rest => n :: removeInfoBox rest
  end.

Definition updateGenerateButton : Eff Page unit :=
  generateBtn ← getElementById "generatePlanningBtn";
  match generateBtn with
  | None => mret tt
  | Some _ =>
      sitePlan ← gets currentSitePlanImage;
      lotMap ← gets currentLotMapImage;
      let hasSitePlan := bool_decide (is_Some sitePlan) in
      let hasLotMap := bool_decide (is_Some lotMap) in
      container ← getElementById "lotCardsContainer";
      let hasLots :=
        match container with
        | Some c => (0 <? length (lotCards c))%nat
        | None => false
        end in
      let hasDescriptions :=
        match container with
        | Some c =>
            let descriptions := omap descriptionInput (lotCards c) in
            existsb (λ input, Js.truthy (Js.trim input)) descriptions
        | None => false
        end in
      whenPresent "generatePlanningBtn"
        (set_disabled (negb (hasSitePlan && hasLotMap && hasLots && hasDescriptions)))
  end.

Definition addLotDescription : Eff Page unit :=
  container ← getElementById "lotCardsContainer";
  match container with
  | None => mret tt
  | Some c =>
      (* Remove info box if it exists *)
      let nodes := removeInfoBox (children c) in
      let lotNumber := (Z.of_nat (length nodes) + 1)%Z in
      let lotCard := {| lotIndex := (lotNumber - 1)%Z;
                        numberInput := Some (pretty lotNumber);
                        descriptionInput := Some "" |} in
      whenPresent "lotCardsContainer" (set_children (Js.push nodes (LotCardNode lotCard))) ;;
      updateGenerateButton
  end.

Definition updateLotNumbers : Eff Page unit :=
  whenPresent "lotCardsContainer" (λ container,
    set_children
      (forEachCard
         (λ index card,
            {| lotIndex := Z.of_nat index;
               numberInput :=
                 match numberInput card with
                 | Some v => if negb (Js.truthy (Js.trim v))
                             then Some (pretty (Z.of_nat index + 1)%Z) else Some v
                 | None => None
                 end;
               descriptionInput := descriptionInput card |})
         0 (children container))
      container).

(** The [click] listener of the [.btn-remove] of the [k]-th card. *)
Definition removeLot (k : nat) : Eff Page unit :=
  whenPresent "lotCardsContainer" (λ c, set_children (removeCard k (children c)) c) ;;
  updateLotNumbers ;;
  updateGenerateButton.

Definition collectLotDescriptions : Eff Page (list Lot) :=
  container ← getElementById "lotCardsContainer";
  match container with
  | None => mret []
  | Some c =>
      mret (foldl
              (λ lots card,
                 let lotNumber := match numberInput card with
                                  | Some v => Js.trim v | None => "" end in
                 let description_ := match descriptionInput card with
                                     | Some v => Js.trim v | None => "" end in
                 if Js.truthy lotNumber && Js.truthy description_
                 then Js.push lots {| lot_number := lotNumber; description := description_ |}
                 else lots)
              [] (lotCards c))
  end.

(** *** Suspended work *)

Inductive Upload := SitePlan | LotMap.

Inductive Task :=
| Optimizing (kind : Upload) (file : File) (* [await optimizeImageForUpload(file)] *)
| Reading (kind : Upload) (blob : Blob)    (* a [FileReader] reading the blob *)
| AwaitFetch                               (* [await fetch(...)] *)
| AwaitErrorJson (response : Response)     (* [await response.json()], [!response.ok] *)
| AwaitJson.                               (* [await response.json()] *)

Definition isRenderTask (t : Task) : bool :=
  match t with AwaitFetch | AwaitErrorJson _ | AwaitJson => true | _ => false end.

(** *** Uploads *)

(** [reader.readAsDataURL(blob)] starts the read; it throws when it is not
    given a blob. *)
Definition readAsDataURL (kind : Upload) (blob : option Blob) : Eff Page (Step Task) :=
  match blob with
  | Some b => mret (Await (Reading kind b))
  | None => throw {| Js.name := "TypeError";
                     Js.message := "Failed to execute 'readAsDataURL' on 'FileReader': parameter 1 is not of type 'Blob'." |}
  end.

(** [handleSitePlanUpload], up to [await optimizeImageForUpload(file)]. *)
Definition handleSitePlanUpload (file : option File) : Eff Page (Step Task) :=
  match file with
  | None => mret Finished
  | Some f => mret (Await (Optimizing SitePlan f))
  end.

(** [handleSitePlanUpload] when the optimiser's promise settles. *)
Definition afterSitePlanOptimized (r : Settled (option Blob)) : Eff Page (Step Task) :=
  try_catch
    (match r with
     | Rejected e => throw e
     | Fulfilled optimizedBlob => readAsDataURL SitePlan optimizedBlob
     end)
    (λ error, showError "planningError" "Lỗi tải site plan. Vui lòng thử lại." ;;
              mret Finished).

(** The [reader.onload] callback of [handleSitePlanUpload]. *)
Definition sitePlanOnload (blob : Blob) : Eff Page unit :=
  modify (set_currentSitePlanImage (Some (DataUrl blob))) ;;
  uploaderDiv ← getElementById "sitePlanUploader";
  previewImg ← getElementById "sitePlanPreview";
  (if bool_decide (is_Some uploaderDiv) && bool_decide (is_Some previewImg) then
     whenPresent "sitePlanUploader" (classList_add "has-image") ;;
     whenPresent "sitePlanPreview"
       (λ el, classList_remove "hidden" (set_src (DataUrl blob) el)) ;;
     whenPresent "sitePlanUploader"
       (λ el, set_uploadText ((λ _, "✅ Đã tải Site Plan") <$> uploadText el) el)
   else mret tt) ;;
  updateGenerateButton.

(** [handleLotMapUpload], up to [await optimizeImageForUpload(file)]. *)
Definition handleLotMapUpload (file : option File) : Eff Page (Step Task) :=
  match file with
  | None => mret Finished
  | Some f => mret (Await (Optimizing LotMap f))
  end.

(** [handleLotMapUpload] when the optimiser's promise settles. *)
Definition afterLotMapOptimized (r : Settled (option Blob)) : Eff Page (Step Task) :=
  try_catch
    (match r with
     | Rejected e => throw e
     | Fulfilled optimizedBlob => readAsDataURL LotMap optimizedBlob
     end)
    (λ error, showError "planningError" "Lỗi tải lot map. Vui lòng thử lại." ;;
              mret Finished).

(** The [reader.onload] callback of [handleLotMapUpload]. *)
Definition lotMapOnload (blob : Blob) : Eff Page unit :=
  modify (set_currentLotMapImage (Some (DataUrl blob))) ;;
  uploaderDiv ← getElementById "lotMapUploader";
  previewImg ← getElementById "lotMapPreview";
  (if bool_decide (is_Some uploaderDiv) && bool_decide (is_Some previewImg) then
     whenPresent "lotMapUploader" (classList_add "has-image") ;;
     whenPresent "lotMapPreview"
       (λ el, classList_remove "hidden" (set_src (DataUrl blob) el)) ;;
     whenPresent "lotMapUploader"
       (λ el, set_uploadText ((λ _, "✅ Đã tải Lot Map") <$> uploadText el) el)
   else mret tt) ;;
  whenPresent "addLotBtn" (set_disabled false) ;;
  updateGenerateButton.

(** *** Render *)

(** The two states of the label of [#generatePlanningBtn]. *)
Definition renderingLabel : string :=
  "<span" +:+ Js.attr "class" "spinner" +:+ "></span> Đang render...".

Definition generateLabel : string :=
  "
            <svg" +:+ Js.attr "xmlns" "http://www.w3.org/2000/svg" +:+ Js.attr "width" "20"
  +:+ Js.attr "height" "20" +:+ Js.attr "viewBox" "0 0 24 24" +:+ Js.attr "fill" "none"
  +:+ Js.attr "stroke" "currentColor" +:+ Js.attr "stroke-width" "2" +:+ ">
                <circle" +:+ Js.attr "cx" "12" +:+ Js.attr "cy" "12" +:+ Js.attr "r" "10" +:+ "/>
                <polygon" +:+ Js.attr "points" "10 8 16 12 10 16 10 8" +:+ "/>
            </svg>
            Generate Planning Render
        ".

Definition displayPlanningRender (base64Data mimeType : option string) : Eff Page unit :=
  gallery ← getElementById "planningGallery";
  match gallery with
  | None => mret tt
  | Some _ =>
      whenPresent "planningGallery" (set_innerHTML "") ;;
      let img := {| img_src := Literal ("data:" +:+ Js.interpolate mimeType +:+ ";base64,"
                                        +:+ Js.interpolate base64Data);
                    img_alt := "Planning render result";
                    img_style := [] |} in
      whenPresent "planningGallery" (appendChild (ImgNode img)) ;;
      whenPresent "downloadPlanningBtn"
        (λ downloadBtn, set_onclick (Some (Js.interpolate base64Data))
                          (classList_remove "hidden" downloadBtn)) ;;
      whenPresent "planningOutputControls" (classList_remove "hidden")
  end.

Definition catchRender (error : Js.Error) : Eff Page unit :=
  showError "planningError" ("Lỗi render: " +:+ Js.message error).

Definition finallyRender : Eff Page unit :=
  write "generatePlanningBtn" "disabled" (set_disabled false) ;;
  write "generatePlanningBtn" "innerHTML" (set_innerHTML generateLabel) ;;
  modify (set_isPlanningRendering false).

(** A segment of the [try] block of [generatePlanningRender]. *)
Definition inTry (segment : Eff Page (Step Task)) : Eff Page (Step Task) :=
  protect catchRender finallyRender segment.

(** [generatePlanningRender], up to [await fetch(...)]. *)
Definition generatePlanningRender : Eff Page (Step Task) :=
  sitePlan ← gets currentSitePlanImage;
  lotMap ← gets currentLotMapImage;
  if negb (bool_decide (is_Some sitePlan)) || negb (bool_decide (is_Some lotMap)) then
    showError "planningError" "Vui lòng upload Site Plan và Lot Map!" ;; mret Finished
  else
  lots ← collectLotDescriptions;
  if (length lots =? 0)%nat then
    showError "planningError" "Vui lòng thêm ít nhất một mô tả lô!" ;; mret Finished
  else
  rendering ← gets isPlanningRendering;
  if rendering : bool then mret Finished
  else
  modify (set_isPlanningRendering true) ;;
  inTry (
    write "generatePlanningBtn" "disabled" (set_disabled true) ;;
    write "generatePlanningBtn" "innerHTML" (set_innerHTML renderingLabel) ;;
    hideError "planningError" ;;
    hideSuccess "planningSuccess" ;;
    cameraAngle ← read "planningCameraAngle" "value" value;
    timeOfDay ← read "planningTimeOfDay" "value" value;
    aspectRatio ← read "planningAspectRatio" "value" value;
    styleKeywords ← read "planningStyleKeywords" "value" value;
    requestData ← gets (λ p, {| site_plan_base64 := currentSitePlanImage p;
                                lot_map_base64 := currentLotMapImage p;
                                lot_descriptions := lots;
                                camera_angle := cameraAngle;
                                time_of_day := timeOfDay;
                                aspect_ratio := aspectRatio;
                                style_keywords := styleKeywords |});
    fetch {| url := API_BASE_URL +:+ "/planning/render";
             method := "POST"; body := requestData |} ;;
    mret (Await AwaitFetch)).

(** [generatePlanningRender] when [fetch] settles. *)
Definition afterFetch (r : Settled Response) : Eff Page (Step Task) :=
  inTry (
    match r with
    | Rejected e => throw e
    | Fulfilled response =>
        if negb (ok response) then mret (Await (AwaitErrorJson response))
        else mret (Await AwaitJson)
    end).

(** [generatePlanningRender] when the body of a response that is not [ok]
    settles. *)
Definition afterErrorJson (response : Response) (r : Settled ErrorBody)
    : Eff Page (Step Task) :=
  inTry (
    match r with
    | Rejected e => throw e
    | Fulfilled errorData =>
        throw (Js.mkError
                 (Js.or_else (default "" (error errorData)) "Planning render failed"))
    end).

(** [generatePlanningRender] when the body of an [ok] response settles. *)
Definition afterJson (r : Settled RenderBody) : Eff Page (Step Task) :=
  inTry (
    match r with
    | Rejected e => throw e
    | Fulfilled result =>
        displayPlanningRender (generated_image_base64 result) (mime_type result) ;;
        showSuccess "planningSuccess" "🎉 Planning render hoàn tất!" ;;
        mret Finished
    end).

(** *** Events *)

Definition World : Type := Loop.World Page Task.

Inductive Event :=
| ChangeSitePlan (file : option File)  (* [change] on [#uploadSitePlan] *)
| ChangeLotMap (file : option File)    (* [change] on [#uploadLotMap] *)
| OptimizerSettles (i : nat)           (* the promise task [i] waits for settles *)
| ReaderLoad (i : nat)                 (* the read of task [i] is done *)
| ClickAddLot                          (* [click] on [#addLotBtn] *)
| ClickRemove (k : nat)                (* [click] on the [.btn-remove] of card [k] *)
| InputDescription (k : nat) (text : string) (* typing in the textarea of card [k] *)
| InputLotNumber (k : nat) (text : string)   (* typing in the number of card [k] *)
| UserValue (id v : string)            (* the user edits a control *)
| ClickGenerate                        (* [click] on [#generatePlanningBtn] *)
| ClickRegenerate                      (* [click] on [#regeneratePlanningBtn] *)
| FetchSettles (i : nat) (r : Settled Response)
| ErrorJsonSettles (i : nat) (r : Settled ErrorBody)
| JsonSettles (i : nat) (r : Settled RenderBody)
| TimerFires (i : nat).                (* a timer of [showSuccess] *)

(** A disabled button receives no [click]. *)
Definition clickable (id : string) (p : Page) : bool :=
  match dom p !! id with
  | Some e => negb (disabled e)
  | None => false
  end.

Definition finish (h : Eff Page unit) : Eff Page (Step Task) := h ;; mret Finished.

Definition editCard (k : nat) (f : LotCard → LotCard) : Eff Page unit :=
  whenPresent "lotCardsContainer" (λ c,
    set_children
      (forEachCard (λ index card, if (index =? k)%nat then f card else card)
         0 (children c)) c).

Definition typeDescription (text : string) (card : LotCard) : LotCard :=
  {| lotIndex := lotIndex card; numberInput := numberInput card;
     descriptionInput := (λ _, text) <$> descriptionInput card |}.

Definition typeLotNumber (text : string) (card : LotCard) : LotCard :=
  {| lotIndex := lotIndex card; numberInput := (λ _, text) <$> numberInput card;
     descriptionInput := descriptionInput card |}.

(** One turn of the event loop; [optimizer] is the definition of
    [optimizeImageForUpload] the page runs with. *)
Definition step (optimizer : File → Promise (option Blob)) (w : World) (e : Event)
    : World :=
  match e with
  | ChangeSitePlan file => dispatch (handleSitePlanUpload file) w
  | ChangeLotMap file => dispatch (handleLotMapUpload file) w
  | OptimizerSettles i =>
      resume i (λ t, match t with
                     | Optimizing kind f =>
                         match optimizer f with
                         | Settles r =>
                             Some (match kind with
                                   | SitePlan => afterSitePlanOptimized r
                                   | LotMap => afterLotMapOptimized r
                                   end)
                         | Forever => None
                         end
                     | _ => None
                     end) w
  | ReaderLoad i =>
      resume i (λ t, match t with
                     | Reading SitePlan b => Some (finish (sitePlanOnload b))
                     | Reading LotMap b => Some (finish (lotMapOnload b))
                     | _ => None
                     end) w
  | ClickAddLot =>
      if clickable "addLotBtn" (page w) then dispatch (finish addLotDescription) w else w
  | ClickRemove k => dispatch (finish (removeLot k)) w
  | InputDescription k text =>
      dispatch (finish (editCard k (typeDescription text) ;; updateGenerateButton)) w
  | InputLotNumber k text => dispatch (finish (editCard k (typeLotNumber text))) w
  | UserValue id v => dispatch (finish (whenPresent id (set_value v))) w
  | ClickGenerate =>
      if clickable "generatePlanningBtn" (page w)
      then dispatch generatePlanningRender w else w
  | ClickRegenerate =>
      if clickable "regeneratePlanningBtn" (page w)
      then dispatch generatePlanningRender w else w
  | FetchSettles i r =>
      resume i (λ t, match t with AwaitFetch => Some (afterFetch r) | _ => None end) w
  | ErrorJsonSettles i r =>
      resume i (λ t, match t with
                     | AwaitErrorJson response => Some (afterErrorJson response r)
                     | _ => None
                     end) w
  | JsonSettles i r =>
      resume i (λ t, match t with AwaitJson => Some (afterJson r) | _ => None end) w
  | TimerFires i =>
      match timers (page w) !! i with
      | Some id =>
          dispatch (finish (modify (λ p, set_timers (delete i (timers p)) p) ;;
                            whenPresent id (classList_add "hidden"))) w
      | None => w
      end
  end.

Definition run (optimizer : File → Promise (option Blob)) (w : World)
    (events : list Event) : World :=
  foldl (step optimizer) w events.

(** The render requests that are in flight: one for each suspended
    invocation of [generatePlanningRender]. *)
Definition inFlight (w : World) : nat := Loop.inFlight isRenderTask w.

Definition sameRender : relation Page := Loop.sameRender isPlanningRendering network.

(** The page has its submit control. *)
Definition hasGenerateBtn (p : Page) : Prop := is_Some (dom p !! "generatePlanningBtn").

(** The lot a card contributes to a request: none when its number or its
    description is blank. *)
Definition lotOf (card : LotCard) : option Lot :=
  let lotNumber := match numberInput card with Some v => Js.trim v | None => "" end in
  let description_ := match descriptionInput card with Some v => Js.trim v | None => "" end in
  if Js.truthy lotNumber && Js.truthy description_
  then Some {| lot_number := lotNumber; description := description_ |}
  else None.

(** A lot with a number and a description, both trimmed and not empty. *)
Definition described (lot : Lot) : Prop :=
  lot_number lot ≠ "" ∧ description lot ≠ "" ∧
  Js.trim (lot_number lot) = lot_number lot ∧
  Js.trim (description lot) = description lot.

(** The request a submit sends from page [p]: a POST to the render endpoint
    with the lots [collectLotDescriptions] returns, of which there is one at
    least. *)
Definition submits (p : Page) (req : Request) : Prop :=
  url req = "http://localhost:5001/api/planning/render" ∧ method req = "POST" ∧
  lot_descriptions (body req) ≠ [] ∧
  (collectLotDescriptions p).1 = Normal (lot_descriptions (body req)).

Definition Effect : relation World :=
  Loop.Effect isPlanningRendering network isRenderTask hasGenerateBtn submits.

Definition guarded (w : World) : Prop :=
  Loop.guarded isPlanningRendering isRenderTask w.

(** *** What a failed render leaves

    The page has the elements a render reports to. *)
Definition reportable (p : Page) : Prop :=
  is_Some (dom p !! "planningError") ∧ is_Some (dom p !! "generatePlanningBtn").

(** The ways a render fails once its request is out: the phase of the
    handler, the event that brings the failure to task [i], and the message
    of the exception that reaches the [catch] block. *)
Inductive Failure : Task → (nat → Event) → string → Prop :=
| FetchRejected e :
    Failure AwaitFetch (λ i, FetchSettles i (Rejected e)) (Js.message e)
| ErrorResponse response errorData :
    Failure (AwaitErrorJson response)
      (λ i, ErrorJsonSettles i (Fulfilled errorData))
      (Js.or_else (default "" (error errorData)) "Planning render failed")
| ErrorBodyRejected response e :
    Failure (AwaitErrorJson response) (λ i, ErrorJsonSettles i (Rejected e))
      (Js.message e)
| BodyRejected e :
    Failure AwaitJson (λ i, JsonSettles i (Rejected e)) (Js.message e).

(** The page [p'] a render that failed with [msg] leaves of [p]: the
    message is displayed, the submit control is enabled and carries its
    idle label (the spinner is part of the other label), nothing more was
    sent and no timer was set. *)
Definition settled (msg : string) (p p' : Page) : Prop :=
  isPlanningRendering p' = false ∧ network p' = network p ∧ timers p' = timers p ∧
  (∃ el, dom p' !! "planningError" = Some el ∧ shows ("Lỗi render: " +:+ msg) el) ∧
  (∃ el, dom p' !! "generatePlanningBtn" = Some el ∧ disabled el = false
         ∧ innerHTML el = generateLabel).

(** The page as the script finds it when it is loaded. *)
Definition init (d : gmap string Element) : World :=
  {| page := {| currentSitePlanImage := None; currentLotMapImage := None;
                isPlanningRendering := false; dom := d; network := [];
                timers := [] |};
     tasks := [] |}.

End Planning.

(** ** Sample pages *)

Module Samples.

Definition field (v : string) : Element := set_value v blank.

Definition select (v : string) (texts : list string) (idx : Z) : Element :=
  {| textContent := ""; innerHTML := ""; classList := ∅; disabled := false;
     value := v; checked := false; src := NoUrl; options := texts;
     selectedIndex := idx; children := []; uploadText := None; onclick := None |}.

Definition invisible : Element := classList_add "hidden" blank.

(** The controls of the planning-detail page, with [custom] typed in the
    free-text description and [overall] in the overall description. *)
Definition detailDocument (custom overall : string) : gmap string Element :=
  list_to_map
    [("uploadSketch", blank); ("previewImage", invisible); ("uploadLabel", blank);
     ("generateRenderButton", set_disabled true blank); ("gallery", blank);
     ("renderError", invisible); ("renderSuccess", invisible);
     ("renderSpinner", invisible); ("outputControls", invisible);
     ("statTime", blank); ("statsBox", invisible);
     ("quality_gi", set_checked true blank); ("quality_shadows", set_checked true blank);
     ("quality_hdri", set_checked true blank); ("quality_reflection", set_checked true blank);
     ("quality_dof", set_checked true blank); ("quality_bloom", set_checked true blank);
     ("quality_color_correction", set_checked true blank);
     ("quality_desaturate", set_checked true blank);
     ("custom_description", field custom);
     ("camera_angle", select "drone_45deg" ["Drone 45°"] 0);
     ("time_of_day", select "golden_hour" ["Golden hour"] 0);
     ("weather", select "clear" ["Clear"] 0);
     ("quality_level", select "high_fidelity" ["Standard"; "High fidelity"] 1);
     ("sketch_adherence", field "0.9"); ("sketch_adherence_value", blank);
     ("aspect_ratio", select "16:9" ["16:9"] 0);
     ("scale", select "1/500" ["1/500"] 0);
     ("project_type", select "mixed_use" ["Khu đô thị"; "Khu hỗn hợp"] 1);
     ("overall_description", field overall);
     ("highrise_count", field ""); ("highrise_floors", field "");
     ("highrise_style", select "modern" ["Hiện đại"] 0);
     ("highrise_colors", field ""); ("highrise_features", field "");
     ("has_lowrise", blank); ("lowrise_fields", invisible);
     ("lowrise_floors", field "");
     ("lowrise_style", select "villa" ["Biệt thự"] 0);
     ("lowrise_colors", field ""); ("green_spaces", field "");
     ("tree_type", select "tropical" ["Nhiệt đới"] 0);
     ("road_pattern", select "grid" ["Ô bàn cờ"] 0);
     ("context_people", blank); ("context_vehicles", blank);
     ("context_skyline", blank); ("context_water", blank)].

Definition detailPage (custom overall : string) : Detail.Page :=
  page (Detail.init (detailDocument custom overall)).

(** The controls of the planning page. *)
Definition planningDocument : gmap string Element :=
  list_to_map
    [("uploadSitePlan", blank); ("uploadLotMap", blank);
     ("sitePlanUploader", set_uploadText (Some "Tải Site Plan") blank);
     ("sitePlanPreview", invisible);
     ("lotMapUploader", set_uploadText (Some "Tải Lot Map") blank);
     ("lotMapPreview", invisible);
     ("addLotBtn", set_disabled true blank);
     ("lotCardsContainer", set_children [InfoBox] blank);
     ("generatePlanningBtn", set_disabled true (set_innerHTML Planning.generateLabel blank));
     ("regeneratePlanningBtn", blank);
     ("planningError", invisible); ("planningSuccess", invisible);
     ("planningGallery", blank); ("downloadPlanningBtn", invisible);
     ("planningOutputControls", invisible);
     ("planningCameraAngle", select "drone_45deg" ["Drone 45°"] 0);
     ("planningTimeOfDay", select "golden_hour" ["Golden hour"] 0);
     ("planningAspectRatio", select "16:9" ["16:9"] 0);
     ("planningStyleKeywords", field "")].

Definition photo : File :=
  {| file_name := "site.png"; file_size := 4096; natural_size := Some (2000, 1000)%N |}.

(** A file the browser cannot decode as an image. *)
Definition notes : File :=
  {| file_name := "notes.png"; file_size := 12; natural_size := None |}.

(** A user uploads a sketch, the overall description being filled in, and
    submits. *)
Definition detailSubmitted : Detail.World :=
  Detail.run (Detail.init (detailDocument "" "Khu đô thị ven sông"))
    [Detail.Change (Some photo); Detail.ReaderLoad 0; Detail.ClickGenerate].

Definition serverError : Response :=
  {| ok := false; status := 500; statusText := "Internal Server Error" |}.

(** The server answers the submit with a status of 500. *)
Definition detailRefused : Detail.World :=
  Detail.step detailSubmitted (Detail.FetchSettles 0 (Fulfilled serverError)).

Definition success : Response := {| ok := true; status := 200; statusText := "OK" |}.

(** The server answers the submit with a status of 200. *)
Definition detailAnswered : Detail.World :=
  Detail.step detailSubmitted (Detail.FetchSettles 0 (Fulfilled success)).

Definition rendered : RenderBody :=
  {| generated_image_base64 := Some "data:image/png;base64,iVBORw0KGgo=";
     mime_type := None |}.

(** The render arrives and is displayed; the user asks for another one with
    the regenerate control and, while it is in flight, empties the overall
    description. *)
Definition detailBusy : Detail.World :=
  Detail.run detailAnswered
    [Detail.JsonSettles 0 (Fulfilled rendered) "12.3";
     Detail.ClickRegenerate;
     Detail.UserValue "overall_description" ""].

(** A user uploads both plans, adds a lot, describes it and submits. *)
Definition planningSubmitted : Planning.World :=
  Planning.run Planning.optimizeImageForUpload (Planning.init planningDocument)
    [Planning.ChangeSitePlan (Some photo); Planning.OptimizerSettles 0;
     Planning.ReaderLoad 0;
     Planning.ChangeLotMap (Some photo); Planning.OptimizerSettles 0;
     Planning.ReaderLoad 0;
     Planning.ClickAddLot; Planning.InputDescription 0 "Nhà phố 5 tầng";
     Planning.ClickGenerate].

Definition planningRefused : Planning.World :=
  Planning.step Planning.optimizeImageForUpload planningSubmitted
    (Planning.FetchSettles 0 (Fulfilled serverError)).

(** An image whose scaled canvas has no pixels. *)
Definition sliver : File :=
  {| file_name := "line.png"; file_size := 512; natural_size := Some (5000, 1)%N |}.

(** The text the error element of each page shows. *)
Definition detailError (w : Detail.World) : option string :=
  textContent <$> Detail.dom (page w) !! "renderError".

Definition planningError (w : Planning.World) : option string :=
  textContent <$> Planning.dom (page w) !! "planningError".

End Samples.

(** ** The other utilities of [utils.js] *)

(** *** Validation utilities *)

Module Validation.

(** What [validateImageFile] reads of a [File]. *)
Record File := { type : string; size : N }.

(** [{ valid, error }]; a valid result has no [error] property. *)
Record Result := { valid : bool; error : option string }.

Definition validTypes : list string :=
  ["image/png"; "image/jpeg"; "image/jpg"; "image/webp"].

(** [validateImageFile(file, maxSizeMB = 16)], for a limit that is a whole
    number of megabytes; [None] is a call that leaves the argument out. *)
Definition validateImageFile (file : option File) (maxSizeMB : option N) : Result :=
  let maxSizeMB := default 16%N maxSizeMB in
  match file with
  | None => {| valid := false; error := Some "No file selected" |}
  | Some f =>
      (* Check file type *)
      if negb (bool_decide (type f ∈ validTypes)) then
        {| valid := false;
           error := Some "Invalid file type. Please upload PNG, JPEG, or WebP image." |}
      else
      (* Check file size *)
      let maxBytes := (maxSizeMB * 1024 * 1024)%N in
      if (maxBytes <? size f)%N then
        {| valid := false;
           error := Some ("File too large. Maximum size is " +:+ pretty maxSizeMB +:+ "MB.") |}
      else {| valid := true; error := None |}
  end.

End Validation.

(** *** Loading state of a button *)

Module ButtonLoading.

(** A button: [dataset.originalText] is [None] when the attribute is not
    set. *)
Record Button := {
  disabled : bool;
  textContent : string;
  originalText : option string
}.

(** [showButtonLoading(button, loadingText = 'Processing...')]; the button
    is an object the function changes, [None] is [null]. *)
Definition showButtonLoading (button : option Button) (loadingText : option string)
    : option Button :=
  let loadingText := default "Processing..." loadingText in
  match button with
  | Some b =>
      Some {| disabled := true;
              originalText := Some (textContent b);
              textContent := loadingText |}
  | None => None
  end.

Definition hideButtonLoading (button : option Button) : option Button :=
  match button with
  | Some b =>
      match originalText b with
      | Some text =>
          if Js.truthy text
          then Some {| disabled := false; textContent := text; originalText := None |}
          else Some {| disabled := false; textContent := textContent b;
                       originalText := originalText b |}
      | None => Some {| disabled := false; textContent := textContent b;
                        originalText := originalText b |}
      end
  | None => None
  end.

End ButtonLoading.

(** *** API utilities *)

Module Api.

(** [getApiBaseUrl()], [hostname] being [window.location.hostname]. *)
Definition getApiBaseUrl (hostname : string) : string :=
  if String.eqb hostname "localhost" || String.eqb hostname "127.0.0.1"
  then "http://localhost:5001"
  else "".

(** The options of a [fetch]; [headers] is a plain object. *)
Record Options := {
  method : option string;
  headers : gmap string string;
  body : option string
}.

(** The arguments [apiRequest(endpoint, options)] calls [fetch] with. *)
Definition request (hostname endpoint : string) (options : Options) : string * Options :=
  let baseUrl := getApiBaseUrl hostname in
  let url := baseUrl +:+ endpoint in
  (url, {| method := method options;
           headers := headers options ∪ {["Content-Type" := "application/json"]};
           body := body options |}).

(** What comes back: [fetch] rejects, or it gives a response, whose
    [json()] settles; [errorData] is the parsed body as the branch of a
    response that is not [ok] reads it, [data] the one [apiRequest]
    returns. *)
Inductive Exchange (Data : Type) : Type :=
| Unreachable (e : Js.Error)
| Responds (response : Response) (errorData : Settled ErrorBody) (data : Settled Data).
Arguments Unreachable {Data} e.
Arguments Responds {Data} response errorData data.

(** How the promise of [apiRequest] settles, and what it writes with
    [errorLog] ([CONFIG.DEBUG] is [false]). *)
Definition apiRequest {Data : Type} (exchange : Exchange Data)
    : Settled Data * list string :=
  let attempt : Settled Data :=
    match exchange with
    | Unreachable e => Rejected e
    | Responds response errorData data =>
        if negb (ok response) then
          let errorData :=
            match errorData with
            | Fulfilled parsed => parsed
            | Rejected _ => {| Browser.error := None |}   (* .catch(() => ({})) *)
            end in
          Rejected
            (Js.mkError
               (Js.or_else (default "" (Browser.error errorData))
                  ("HTTP " +:+ pretty (status response) +:+ ": "
                   +:+ statusText response)))
        else data
    end in
  match attempt with
  | Fulfilled data => (Fulfilled data, [])
  | Rejected error =>
      (Rejected error, ["❌ API Error: " +:+ Js.message error])   (* throw error *)
  end.

End Api.

(** *** Decoding base64 *)

Module Base64.

(** ASCII white space: TAB, LF, FF, CR, SP. *)
Definition whitespace (a : ascii) : bool :=
  let n := Js.byte a in
  bool_decide (n = 9)%N || bool_decide (n = 10)%N || bool_decide (n = 12)%N
  || bool_decide (n = 13)%N || bool_decide (n = 32)%N.

(** The six bits of a character of the alphabet [A-Za-z0-9+/]. *)
Definition sextet (a : ascii) : option N :=
  let n := Js.byte a in
  if bool_decide (65 ≤ n ≤ 90)%N then Some (n - 65)%N
  else if bool_decide (97 ≤ n ≤ 122)%N then Some (n - 71)%N
  else if bool_decide (48 ≤ n ≤ 57)%N then Some (n + 4)%N
  else if bool_decide (n = 43)%N then Some 62%N
  else if bool_decide (n = 47)%N then Some 63%N
  else None.

Definition isPad (a : ascii) : bool := bool_decide (Js.byte a = 61)%N.

(** One or two [=] at the end are removed. *)
Definition unpad (data : list ascii) : list ascii :=
  match reverse data with
  | a :: b :: rest =>
      if isPad a then (if isPad b then reverse rest else reverse (b :: rest)) else data
  | [a] => if isPad a then [] else data
  | [] => data
  end.

(** Four sextets give three bytes; two or three left over give one or
    two. *)
Fixpoint bytes (sextets : list N) : list N :=
  match sextets with
  | a :: b :: c :: d :: rest =>
      (a * 4 + b / 16)%N :: ((b mod 16) * 16 + c / 4)%N :: ((c mod 4) * 64 + d)%N
      :: bytes rest
  | [a; b; c] => [(a * 4 + b / 16)%N; ((b mod 16) * 16 + c / 4)%N]
  | [a; b] => [(a * 4 + b / 16)%N]
  | _ => []
  end.

Definition InvalidCharacterError : Js.Error :=
  {| Js.name := "InvalidCharacterError";
     Js.message := "Failed to execute 'atob' on 'Window': The string to be decoded is not correctly encoded." |}.

(** [atob(data)]: the bytes of the binary string it returns. *)
Definition atob (data : string) : Completion (list N) :=
  let data := filter (λ a, whitespace a = false) (list_ascii_of_string data) in
  let data := if (length data mod 4 =? 0)%nat then unpad data else data in
  if (length data mod 4 =? 1)%nat then Throw InvalidCharacterError
  else match mapM sextet data with
       | Some sextets => Normal (bytes sextets)
       | None => Throw InvalidCharacterError
       end.

End Base64.

(** *** Download utilities *)

Module Download.

(** [s.includes(c)] and [s.split(c)] for a separator of one character. *)
Definition includes (c : ascii) (s : string) : bool :=
  existsb (Ascii.eqb c) (list_ascii_of_string s).

Fixpoint split (c : ascii) (s : string) : list string :=
  match s with
  | EmptyString => [""]
  | String a rest =>
      if Ascii.eqb a c then "" :: split c rest
      else match split c rest with
           | part :: parts => String a part :: parts
           | [] => [String a ""]
           end
  end.

(** A file the page hands to the user through a link with a [download]
    attribute: its name, and the type and bytes of the blob behind the
    link. *)
Record Saved := { filename : string; mime : string; content : list N }.

(** What the function leaves outside the page: the files saved and the lines of
    [errorLog]. *)
Record Outside := { saved : list Saved; console : list string }.

Definition comma : ascii := ascii_of_nat 44.

(** [downloadBase64Image(base64Data, filename = 'image.png')] *)
Definition downloadBase64Image (base64Data : string) (filename_ : option string)
    : Eff Outside unit :=
  let filename_ := default "image.png" filename_ in
  try_catch
    ((* Remove data URL prefix if present *)
     let base64Content :=
       if includes comma base64Data
       then Js.interpolate (split comma base64Data !! 1%nat)
       else base64Data in
     (* Convert base64 to blob *)
     byteArray ← (λ o, (Base64.atob base64Content, o));
     (* Create download link *)
     modify (λ o, {| saved := Js.push (saved o)
                                {| filename := filename_; mime := "image/png";
                                   content := byteArray |};
                     console := console o |}))
    (λ error,
       modify (λ o, {| saved := saved o;
                       console := Js.push (console o)
                                    ("❌ Download failed: " +:+ Js.message error) |}) ;;
       throw error).

End Download.

(** ** What a handler leaves as it is

    [spec] lists elements by id with what is looked at in each;
    [globals] is what is looked at outside the document. *)

Section Watch.
Context {St G W : Type} `{!HasDocument St}.

Definition observe (spec : list (string * (Element → W))) (d : gmap string Element)
    : list (option W) :=
  map (λ entry, entry.2 <$> d !! entry.1) spec.

Definition unchanged (globals : St → G) (spec : list (string * (Element → W)))
    : relation St :=
  λ s s', globals s' = globals s
          ∧ observe spec (document s') = observe spec (document s).

(** A write of [f] to element [id] is not seen through [spec]. *)
Definition unseen (spec : list (string * (Element → W))) (id : string)
    (f : Element → Element) : Prop :=
  Forall (λ entry, entry.1 ≠ id ∨ ∀ e, entry.2 (f e) = entry.2 e) spec.

End Watch.

(** ** The lot cards of the planning page *)

Module LotCards.
Import Planning.

(** The lot cards among the children of the container, in document
    order. *)
Definition cardsOf (nodes : list Node) : list LotCard :=
  omap (λ n, match n with LotCardNode c => Some c | _ => None end) nodes.

(** What [updateLotNumbers] makes of the card at position [index]: a
    number that is blank becomes the position counted from one. *)
Definition renumbered (index : nat) (card : LotCard) : LotCard :=
  {| lotIndex := Z.of_nat index;
     numberInput :=
       match numberInput card with
       | Some v => if negb (Js.truthy (Js.trim v))
                   then Some (pretty (Z.of_nat index + 1)%Z) else Some v
       | None => None
       end;
     descriptionInput := descriptionInput card |}.

(** The cards of the page, none when it has no container. *)
Definition cardsOn (p : Page) : list LotCard :=
  from_option lotCards [] (dom p !! "lotCardsContainer").

(** The inputs [updateGenerateButton] asks for: both images, a lot card,
    and a description that is not blank. *)
Definition inputsPresent (p : Page) : bool :=
  bool_decide (is_Some (currentSitePlanImage p))
  && bool_decide (is_Some (currentLotMapImage p))
  && (0 <? length (cardsOn p))%nat
  && existsb (λ input, Js.truthy (Js.trim input)) (omap descriptionInput (cardsOn p)).

(** The message of an upload that failed. *)
Definition uploadError (kind : Upload) : string :=
  match kind with
  | SitePlan => "Lỗi tải site plan. Vui lòng thử lại."
  | LotMap => "Lỗi tải lot map. Vui lòng thử lại."
  end.

(** What the watchers below look at in an element. *)
Inductive Seen :=
| SeenChildren (nodes : list Node)
| SeenDisabled (b : bool)
| SeenChecked (b : bool)
| SeenHidden (b : bool).

(** The children of the container and the state of the add control. *)
Definition cardsAndAdd : list (string * (Element → Seen)) :=
  [("lotCardsContainer", λ e, SeenChildren (children e));
   ("addLotBtn", λ e, SeenDisabled (disabled e))].

Definition addOnly : list (string * (Element → Seen)) :=
  [("addLotBtn", λ e, SeenDisabled (disabled e))].

(** Lot cards come after the lot map: while no lot map is stored, the
    page has no lot card and its add control cannot be clicked. *)
Definition lotMapFirst (p : Page) : Prop :=
  currentLotMapImage p = None → cardsOn p = [] ∧ clickable "addLotBtn" p = false.

End LotCards.

(** ** The form of the planning-detail page *)

Module DetailControls.
Import Detail.

(** The low-rise box and the fields it shows. *)
Definition lowrise : list (string * (Element → LotCards.Seen)) :=
  [("has_lowrise", λ e, LotCards.SeenChecked (checked e));
   ("lowrise_fields", λ e, LotCards.SeenHidden (hidden e))].

(** The fields of the low-rise zone are displayed exactly when the box is
    checked. *)
Definition lowriseShown (p : Page) : Prop :=
  match dom p !! "has_lowrise", dom p !! "lowrise_fields" with
  | Some box, Some fields => hidden fields = negb (checked box)
  | _, _ => True
  end.

(** A sketch that was uploaded: the data URL of a file. *)
Definition uploaded (image : option Url) : Prop :=
  ∃ file, image = Some (DataUrl (FileBlob file)).

(** A request for a detail render that carries an uploaded sketch. *)
Definition wellFormed (req : Request) : Prop :=
  url req = "http://localhost:5001/api/planning/detail-render"
  ∧ method req = "POST"
  ∧ uploaded (image_base64 (body req)).

(** The request a submit sends from page [p]: a POST to the endpoint of
    the detail render with the sketch of the page, of which there is one. *)
Definition submits (p : Page) (req : Request) : Prop :=
  url req = "http://localhost:5001/api/planning/detail-render"
  ∧ method req = "POST"
  ∧ image_base64 (body req) = currentSketchImage p
  ∧ is_Some (currentSketchImage p).

Definition Submitting : relation World :=
  Loop.Effect isRendering network isRenderTask (λ _, True) submits.

(** No sketch, no render: a page without a sketch has sent nothing and has
    no render in flight; the sketch it has, if any, was uploaded, as were
    the sketches of the requests it has sent. *)
Definition sketchFirst (w : World) : Prop :=
  (currentSketchImage (page w) = None → network (page w) = [] ∧ inFlight w = 0%nat)
  ∧ (is_Some (currentSketchImage (page w)) → uploaded (currentSketchImage (page w)))
  ∧ Forall wellFormed (network (page w)).

End DetailControls.

(** ** The settings page ([settings.js]) *)

Module Settings.

Definition API_BASE_URL : string := "http://localhost:5001/api".

(** *** The bodies of the settings endpoints *)

Record Model := { id : string; name : string; description : string }.

Record AvailableModels := { text : list Model; image : list Model }.

(** One value for each of the four uses of a model. *)
Record PerUse (A : Type) : Type := {
  building_analysis : A;
  planning_analysis : A;
  translation : A;
  image_generation : A
}.
Arguments building_analysis {A} _.
Arguments planning_analysis {A} _.
Arguments translation {A} _.
Arguments image_generation {A} _.

Record Preferences := {
  default_aspect_ratio : string;
  default_camera_angle : string;
  default_time_of_day : string;
  default_quality_level : string
}.

(** The body of [GET /api/settings]; a temperature is a number, which the
    script only ever turns into text, and is kept as that text. A body that
    reports a failure has an [error]. *)
Record SettingsData := {
  error : option string;
  api_key_configured : bool;
  api_key_masked : string;
  available_models : AvailableModels;
  models : PerUse string;
  temperatures : PerUse string;
  preferences : Preferences
}.

(** The body of [POST /api/settings/test-api-key]. *)
Record TestData := { valid : bool; message : option string }.

(** The settings [saveSettings] collects; an [api_key] that is
    [undefined] is left out of the JSON text. *)
Record Collected := {
  api_key : option string;
  new_models : PerUse string;
  new_temperatures : PerUse Js.Number;
  new_preferences : Preferences
}.

Inductive Body :=
| NoBody
| TestBody (api_key : string)     (* [JSON.stringify({ api_key: apiKey })] *)
| SaveBody (settings : Collected). (* [JSON.stringify(settings)] *)

Record Request := { url : string; method : string; body : Body }.

(** *** The document *)

(** What an element holds: markup assigned to [innerHTML], or text
    assigned to [textContent]. *)
Inductive Content :=
| Html (markup : string)
| Text (text : string).

Record OptionEl := {
  option_value : string;
  option_text : string;
  option_title : string;
  selected : bool
}.

(** An alert of the alert container; [key] tells the [div] elements
    apart. *)
Record Alert := { key : nat; className : string; alert_text : string }.

(** An element of the page. [assigned] is what the value of the control
    becomes when a script assigns a string to it: the string for a text
    input, the string or nothing for a [select], the nearest step for a
    range. *)
Record Control := {
  value : string;
  assigned : string → string;
  content : Content;
  disabled : bool;
  placeholder : string;
  options : option (list OptionEl);   (* of a [select]; [None] for another element *)
  alerts : list Alert
}.

Definition set_value (v : string) (c : Control) : Control :=
  {| value := v; assigned := assigned c; content := content c; disabled := disabled c;
     placeholder := placeholder c; options := options c; alerts := alerts c |}.
Definition set_content (v : Content) (c : Control) : Control :=
  {| value := value c; assigned := assigned c; content := v; disabled := disabled c;
     placeholder := placeholder c; options := options c; alerts := alerts c |}.
Definition set_disabled (v : bool) (c : Control) : Control :=
  {| value := value c; assigned := assigned c; content := content c; disabled := v;
     placeholder := placeholder c; options := options c; alerts := alerts c |}.
Definition set_placeholder (v : string) (c : Control) : Control :=
  {| value := value c; assigned := assigned c; content := content c; disabled := disabled c;
     placeholder := v; options := options c; alerts := alerts c |}.
Definition set_options (v : option (list OptionEl)) (c : Control) : Control :=
  {| value := value c; assigned := assigned c; content := content c; disabled := disabled c;
     placeholder := placeholder c; options := v; alerts := alerts c |}.
Definition set_alerts (v : list Alert) (c : Control) : Control :=
  {| value := value c; assigned := assigned c; content := content c; disabled := disabled c;
     placeholder := placeholder c; options := options c; alerts := v |}.

(** [el.value = v] *)
Definition assign (v : string) (c : Control) : Control := set_value (assigned c v) c.

(** [el.innerHTML = markup] and [el.textContent = text]: the children go,
    and a [select] is left without options. *)
Definition replaceChildren (v : Content) (c : Control) : Control :=
  {| value := match options c with Some _ => "" | None => value c end;
     assigned := assigned c; content := v; disabled := disabled c;
     placeholder := placeholder c; options := (λ _, []) <$> options c; alerts := [] |}.

Definition set_innerHTML (markup : string) (c : Control) : Control :=
  replaceChildren (Html markup) c.

Definition set_textContent (text : string) (c : Control) : Control :=
  replaceChildren (Text text) c.

(** The options of a [select] after one more is appended: when several
    are selected the last one stays selected, and when none is the first
    one becomes selected. *)
Fixpoint keepLast (opts : list OptionEl) : list OptionEl :=
  match opts with
  | [] => []
  | o :: rest =>
      {| option_value := option_value o; option_text := option_text o;
         option_title := option_title o;
         selected := selected o && negb (existsb selected rest) |} :: keepLast rest
  end.

Definition selectFirst (opts : list OptionEl) : list OptionEl :=
  match opts with
  | [] => []
  | o :: rest =>
      {| option_value := option_value o; option_text := option_text o;
         option_title := option_title o; selected := true |} :: rest
  end.

Definition settle (opts : list OptionEl) : list OptionEl :=
  if existsb selected opts then keepLast opts else selectFirst opts.

(** The value of a [select]: the one of its selected option. *)
Definition selectedValue (opts : list OptionEl) : string :=
  match filter (λ o, selected o = true) opts with
  | o :: _ => option_value o
  | [] => ""
  end.

(** [select.appendChild(option)]; in an element that is not a [select]
    an [option] is a child like another. *)
Definition appendOption (o : OptionEl) (c : Control) : Control :=
  match options c with
  | Some opts =>
      let opts := settle (Js.push opts o) in
      set_value (selectedValue opts) (set_options (Some opts) c)
  | None => c
  end.

(** *** State *)

(** What [setTimeout] has pending. *)
Inductive Timer :=
| RemoveAlert (key : nat)   (* [alert.remove()], after 5000 ms *)
| ClearAlerts               (* [clearAlerts], after 2000 ms *)
| Reload.                   (* [loadSettings()], after 1500 ms *)

Record Page := {
  currentSettings : option SettingsData;
  availableModels : option AvailableModels;
  dom : gmap string Control;
  network : list Request;   (* every [fetch] issued so far *)
  timers : list Timer;
  created : nat;            (* the [div] elements created so far *)
  listeners : list string   (* the elements [setupEventListeners] reached *)
}.

Definition set_currentSettings (v : option SettingsData) (p : Page) : Page :=
  {| currentSettings := v; availableModels := availableModels p; dom := dom p;
     network := network p; timers := timers p; created := created p;
     listeners := listeners p |}.
Definition set_availableModels (v : option AvailableModels) (p : Page) : Page :=
  {| currentSettings := currentSettings p; availableModels := v; dom := dom p;
     network := network p; timers := timers p; created := created p;
     listeners := listeners p |}.
Definition set_dom (v : gmap string Control) (p : Page) : Page :=
  {| currentSettings := currentSettings p; availableModels := availableModels p; dom := v;
     network := network p; timers := timers p; created := created p;
     listeners := listeners p |}.
Definition set_network (v : list Request) (p : Page) : Page :=
  {| currentSettings := currentSettings p; availableModels := availableModels p;
     dom := dom p; network := v; timers := timers p; created := created p;
     listeners := listeners p |}.
Definition set_timers (v : list Timer) (p : Page) : Page :=
  {| currentSettings := currentSettings p; availableModels := availableModels p;
     dom := dom p; network := network p; timers := v; created := created p;
     listeners := listeners p |}.
Definition set_created (v : nat) (p : Page) : Page :=
  {| currentSettings := currentSettings p; availableModels := availableModels p;
     dom := dom p; network := network p; timers := timers p; created := v;
     listeners := listeners p |}.
Definition set_listeners (v : list string) (p : Page) : Page :=
  {| currentSettings := currentSettings p; availableModels := availableModels p;
     dom := dom p; network := network p; timers := timers p; created := created p;
     listeners := v |}.

(** [document.getElementById(id).prop] and
    [document.getElementById(id).prop = v]; [null] has no properties. *)
Definition read {A} (id prop : string) (get : Control → A) : Eff Page A :=
  λ p, match dom p !! id with
       | Some c => (Normal (get c), p)
       | None => (Throw (Js.nullDeref "read" prop), p)
       end.

Definition write (id prop : string) (set : Control → Control) : Eff Page unit :=
  λ p, match dom p !! id with
       | Some c => (Normal tt, set_dom (<[id := set c]> (dom p)) p)
       | None => (Throw (Js.nullDeref "set" prop), p)
       end.

(** [document.getElementById(id).method(...)] *)
Definition invoke (id method_ : string) (effect : Control → Control) : Eff Page unit :=
  λ p, match dom p !! id with
       | Some c => (Normal tt, set_dom (<[id := effect c]> (dom p)) p)
       | None => (Throw (Js.nullDeref "read" method_), p)
       end.

(** [fetch(url, ...)] and [setTimeout(callback, ms)] *)
Definition fetch (r : Request) : Eff Page unit :=
  modify (λ p, set_network (Js.push (network p) r) p).

Definition setTimeout (t : Timer) : Eff Page unit :=
  modify (λ p, set_timers (Js.push (timers p) t) p).

(** *** Alert helpers *)

Definition showAlert (message_ type : string) : Eff Page unit :=
  key_ ← gets created;
  modify (set_created (S key_)) ;;   (* [document.createElement('div')] *)
  let alert := {| key := key_; className := "alert alert-" +:+ type;
                  alert_text := message_ |} in
  invoke "alertContainer" "appendChild" (λ c, set_alerts (Js.push (alerts c) alert) c) ;;
  (* Auto-remove after 5 seconds *)
  setTimeout (RemoveAlert key_).

Definition clearAlerts : Eff Page unit :=
  write "alertContainer" "innerHTML" (set_innerHTML "").

(** [alert.remove()]: the alert leaves the container if it is still in
    it. *)
Definition removeAlert (key_ : nat) : Eff Page unit :=
  modify (λ p, set_dom
                 (alter (λ c, set_alerts (filter (λ a, key a ≠ key_) (alerts c)) c)
                    "alertContainer" (dom p)) p).

(** *** Populate UI *)

(** The marks of the messages, as the file has them. *)
Definition check : string := "âœ“".
Definition cross : string := "âœ—".
Definition disk : string := "ðŸ’¾".

Definition badge (kind label : string) : string :=
  "<span" +:+ Js.attr "class" ("status-badge " +:+ kind) +:+ ">" +:+ label +:+ "</span>".

Definition populateAPIKeySection (data : SettingsData) : Eff Page unit :=
  (* Show masked API key *)
  if api_key_configured data then
    write "apiKeyInput" "placeholder" (set_placeholder (api_key_masked data)) ;;
    write "apiKeyStatus" "innerHTML"
      (set_innerHTML ("
            " +:+ badge "success" (check +:+ " Configured") +:+ "
        "))
  else
    write "apiKeyStatus" "innerHTML"
      (set_innerHTML ("
            " +:+ badge "error" (cross +:+ " Not configured") +:+ "
        ")).

Definition populateModelSelect (selectId : string) (modelList : list Model)
    (currentValue : string) : Eff Page unit :=
  write selectId "innerHTML" (set_innerHTML "") ;;
  foldl (λ done model,
           done ;;
           let option :=
             {| option_value := id model; option_text := name model;
                option_title := description model;
                selected := bool_decide (id model = currentValue) |} in
           invoke selectId "appendChild" (appendOption option))
        (mret tt) modelList.

(** The model a [select] shows for [currentValue]: that model when it is
    among the models of the list, the first model of the list otherwise. *)
Definition shown (modelList : list Model) (currentValue : string) : string :=
  if bool_decide (currentValue ∈ id <$> modelList) then currentValue
  else default "" (id <$> head modelList).

(** The options of a [select] after the models of [l] have been appended:
    one for each model, with its id and name, one of them selected if there
    is any, which is the one [shown]. *)
Definition appended (l : list Model) (currentValue : string) (opts : list OptionEl) : Prop :=
  option_value <$> opts = id <$> l
  ∧ option_text <$> opts = name <$> l
  ∧ length (filter (λ o, selected o = true) opts) = Nat.min 1 (length l)
  ∧ selectedValue opts = match l with [] => "" | _ => shown l currentValue end.

Definition populateModelSelections (data : SettingsData) : Eff Page unit :=
  let models_ := models data in
  available ← gets availableModels;
  let list (get : AvailableModels → list Model) (prop : string)
      : Eff Page (list Model) :=
    match available with
    | Some a => mret (get a)
    | None => throw (Js.nullDeref "read" prop)
    end in
  (* Building Analysis *)
  textModels ← list text "text";
  populateModelSelect "modelBuildingAnalysis" textModels (building_analysis models_) ;;
  (* Planning Analysis *)
  textModels ← list text "text";
  populateModelSelect "modelPlanningAnalysis" textModels (planning_analysis models_) ;;
  (* Translation *)
  textModels ← list text "text";
  populateModelSelect "modelTranslation" textModels (translation models_) ;;
  (* Image Generation *)
  imageModels ← list image "image";
  populateModelSelect "modelImageGeneration" imageModels (image_generation models_).

Definition setSliderValue (sliderId value_ : string) : Eff Page unit :=
  write sliderId "value" (assign value_) ;;
  write (sliderId +:+ "Value") "textContent" (set_textContent value_).

Definition populateTemperatures (temperatures_ : PerUse string) : Eff Page unit :=
  setSliderValue "tempBuildingAnalysis" (building_analysis temperatures_) ;;
  setSliderValue "tempPlanningAnalysis" (planning_analysis temperatures_) ;;
  setSliderValue "tempTranslation" (translation temperatures_) ;;
  setSliderValue "tempImageGeneration" (image_generation temperatures_).

Definition populatePreferences (preferences_ : Preferences) : Eff Page unit :=
  write "prefAspectRatio" "value" (assign (default_aspect_ratio preferences_)) ;;
  write "prefCameraAngle" "value" (assign (default_camera_angle preferences_)) ;;
  write "prefTimeOfDay" "value" (assign (default_time_of_day preferences_)) ;;
  write "prefQualityLevel" "value" (assign (default_quality_level preferences_)).

(** *** Suspended work *)

Inductive Task :=
| LoadFetch | LoadJson (response : Response)     (* [loadSettings] *)
| TestFetch | TestJson (response : Response)     (* [testApiKey] *)
| SaveFetch | SaveJson (response : Response)     (* [saveSettings] *)
| ResetFetch | ResetJson (response : Response).  (* [resetSettings] *)

(** *** Load settings *)

Definition catchLoad (error_ : Js.Error) : Eff Page unit :=
  showAlert ("Error loading settings: " +:+ Js.message error_) "error".

(** A segment of the [try] block of [loadSettings], which has no
    [finally]. *)
Definition inLoad (segment : Eff Page (Step Task)) : Eff Page (Step Task) :=
  protect catchLoad (mret tt) segment.

(** [loadSettings], up to [await fetch(...)]. *)
Definition loadSettings : Eff Page (Step Task) :=
  inLoad (
    showAlert "Loading settings..." "info" ;;
    fetch {| url := API_BASE_URL +:+ "/settings"; method := "GET"; body := NoBody |} ;;
    mret (Await LoadFetch)).

Definition afterLoadFetch (r : Settled Response) : Eff Page (Step Task) :=
  inLoad (
    match r with
    | Rejected e => throw e
    | Fulfilled response => mret (Await (LoadJson response))
    end).

Definition afterLoadJson (response : Response) (r : Settled SettingsData)
    : Eff Page (Step Task) :=
  inLoad (
    match r with
    | Rejected e => throw e
    | Fulfilled data =>
        if negb (ok response) then
          throw (Js.mkError (Js.or_else (default "" (error data)) "Failed to load settings"))
        else
        modify (set_currentSettings (Some data)) ;;
        modify (set_availableModels (Some (available_models data))) ;;
        (* Populate UI *)
        populateAPIKeySection data ;;
        populateModelSelections data ;;
        populateTemperatures (temperatures data) ;;
        populatePreferences (preferences data) ;;
        showAlert "Settings loaded successfully" "success" ;;
        setTimeout ClearAlerts ;;
        mret Finished
    end).

(** *** Test API key *)

Definition loading (label : string) : string :=
  "<span" +:+ Js.attr "class" "loading" +:+ "></span> " +:+ label.

Definition catchTest (error_ : Js.Error) : Eff Page unit :=
  showAlert ("Error testing API key: " +:+ Js.message error_) "error".

Definition finallyTest : Eff Page unit :=
  write "testApiKeyBtn" "disabled" (set_disabled false) ;;
  write "testApiKeyBtn" "textContent" (set_textContent "Test Key").

Definition inTest (segment : Eff Page (Step Task)) : Eff Page (Step Task) :=
  protect catchTest finallyTest segment.

(** [testApiKey], up to [await fetch(...)]. *)
Definition testApiKey : Eff Page (Step Task) :=
  apiKey ← Js.trim <$> read "apiKeyInput" "value" value;
  if negb (Js.truthy apiKey) then
    showAlert "Please enter an API key to test" "error" ;; mret Finished
  else
  inTest (
    write "testApiKeyBtn" "disabled" (set_disabled true) ;;
    write "testApiKeyBtn" "innerHTML" (set_innerHTML (loading "Testing...")) ;;
    fetch {| url := API_BASE_URL +:+ "/settings/test-api-key"; method := "POST";
             body := TestBody apiKey |} ;;
    mret (Await TestFetch)).

Definition afterTestFetch (r : Settled Response) : Eff Page (Step Task) :=
  inTest (
    match r with
    | Rejected e => throw e
    | Fulfilled response => mret (Await (TestJson response))
    end).

Definition afterTestJson (response : Response) (r : Settled TestData)
    : Eff Page (Step Task) :=
  inTest (
    match r with
    | Rejected e => throw e
    | Fulfilled data =>
        (if ok response && valid data then
           showAlert (check +:+ " " +:+ Js.interpolate (message data)) "success" ;;
           write "apiKeyStatus" "innerHTML"
             (set_innerHTML ("
                " +:+ badge "success" (check +:+ " Valid") +:+ "
            "))
         else
           showAlert (cross +:+ " " +:+ Js.interpolate (message data)) "error" ;;
           write "apiKeyStatus" "innerHTML"
             (set_innerHTML ("
                " +:+ badge "error" (cross +:+ " Invalid") +:+ "
            "))) ;;
        mret Finished
    end).

(** *** Save settings *)

Definition catchSave (error_ : Js.Error) : Eff Page unit :=
  showAlert (cross +:+ " Error saving settings: " +:+ Js.message error_) "error".

Definition finallySave : Eff Page unit :=
  write "saveBtn" "disabled" (set_disabled false) ;;
  write "saveBtn" "innerHTML" (set_innerHTML (disk +:+ " Save Settings")).

Definition inSave (segment : Eff Page (Step Task)) : Eff Page (Step Task) :=
  protect catchSave finallySave segment.

(** [a || undefined] *)
Definition orUndefined (a : string) : option string :=
  if Js.truthy a then Some a else None.

(** [saveSettings], up to [await fetch(...)]. *)
Definition saveSettings : Eff Page (Step Task) :=
  inSave (
    write "saveBtn" "disabled" (set_disabled true) ;;
    write "saveBtn" "innerHTML" (set_innerHTML (loading "Saving...")) ;;
    (* Collect settings *)
    apiKey ← Js.trim <$> read "apiKeyInput" "value" value;
    modelBuilding ← read "modelBuildingAnalysis" "value" value;
    modelPlanning ← read "modelPlanningAnalysis" "value" value;
    modelTranslation ← read "modelTranslation" "value" value;
    modelImage ← read "modelImageGeneration" "value" value;
    tempBuilding ← read "tempBuildingAnalysis" "value" value;
    tempPlanning ← read "tempPlanningAnalysis" "value" value;
    tempTranslation ← read "tempTranslation" "value" value;
    tempImage ← read "tempImageGeneration" "value" value;
    aspectRatio ← read "prefAspectRatio" "value" value;
    cameraAngle ← read "prefCameraAngle" "value" value;
    timeOfDay ← read "prefTimeOfDay" "value" value;
    qualityLevel ← read "prefQualityLevel" "value" value;
    let settings :=
      {| api_key := orUndefined apiKey;
         new_models := {| building_analysis := modelBuilding;
                          planning_analysis := modelPlanning;
                          translation := modelTranslation;
                          image_generation := modelImage |};
         new_temperatures := {| building_analysis := Js.ParseFloat tempBuilding;
                                planning_analysis := Js.ParseFloat tempPlanning;
                                translation := Js.ParseFloat tempTranslation;
                                image_generation := Js.ParseFloat tempImage |};
         new_preferences := {| default_aspect_ratio := aspectRatio;
                               default_camera_angle := cameraAngle;
                               default_time_of_day := timeOfDay;
                               default_quality_level := qualityLevel |} |} in
    fetch {| url := API_BASE_URL +:+ "/settings"; method := "POST";
             body := SaveBody settings |} ;;
    mret (Await SaveFetch)).

Definition afterSaveFetch (r : Settled Response) : Eff Page (Step Task) :=
  inSave (
    match r with
    | Rejected e => throw e
    | Fulfilled response => mret (Await (SaveJson response))
    end).

Definition afterSaveJson (response : Response) (r : Settled ErrorBody)
    : Eff Page (Step Task) :=
  inSave (
    match r with
    | Rejected e => throw e
    | Fulfilled data =>
        if negb (ok response) then
          throw (Js.mkError (Js.or_else (default "" (Browser.error data))
                               "Failed to save settings"))
        else
        showAlert (check +:+ " Settings saved successfully!") "success" ;;
        (* Clear API key input (security) *)
        write "apiKeyInput" "value" (assign "") ;;
        (* Reload settings to show updated masked key *)
        setTimeout Reload ;;
        mret Finished
    end).

(** *** Reset settings *)

Definition catchReset (error_ : Js.Error) : Eff Page unit :=
  showAlert (cross +:+ " Error resetting settings: " +:+ Js.message error_) "error".

Definition finallyReset : Eff Page unit :=
  write "resetBtn" "disabled" (set_disabled false) ;;
  write "resetBtn" "textContent" (set_textContent "Reset to Defaults").

Definition inReset (segment : Eff Page (Step Task)) : Eff Page (Step Task) :=
  protect catchReset finallyReset segment.

(** [resetSettings], up to [await fetch(...)]; [confirmed] is the answer
    to [confirm(...)]. *)
Definition resetSettings (confirmed : bool) : Eff Page (Step Task) :=
  if negb confirmed then mret Finished
  else
  inReset (
    write "resetBtn" "disabled" (set_disabled true) ;;
    write "resetBtn" "innerHTML" (set_innerHTML (loading "Resetting...")) ;;
    fetch {| url := API_BASE_URL +:+ "/settings/reset"; method := "POST";
             body := NoBody |} ;;
    mret (Await ResetFetch)).

Definition afterResetFetch (r : Settled Response) : Eff Page (Step Task) :=
  inReset (
    match r with
    | Rejected e => throw e
    | Fulfilled response => mret (Await (ResetJson response))
    end).

Definition afterResetJson (response : Response) (r : Settled ErrorBody)
    : Eff Page (Step Task) :=
  inReset (
    match r with
    | Rejected e => throw e
    | Fulfilled data =>
        if negb (ok response) then
          throw (Js.mkError (Js.or_else (default "" (Browser.error data))
                               "Failed to reset settings"))
        else
        showAlert (check +:+ " Settings reset to defaults") "success" ;;
        (* Reload settings *)
        setTimeout Reload ;;
        mret Finished
    end).

(** *** Event listeners *)

(** [document.getElementById(id).addEventListener(...)] *)
Definition addEventListener (id_ : string) : Eff Page unit :=
  λ p, match dom p !! id_ with
       | Some _ => (Normal tt, set_listeners (Js.push (listeners p) id_) p)
       | None => (Throw (Js.nullDeref "read" "addEventListener"), p)
       end.

Definition setupTemperatureSlider (sliderId valueId : string) : Eff Page unit :=
  addEventListener sliderId.

Definition setupEventListeners : Eff Page unit :=
  (* Test API Key *)
  addEventListener "testApiKeyBtn" ;;
  (* Save Settings *)
  addEventListener "saveBtn" ;;
  (* Reset Settings *)
  addEventListener "resetBtn" ;;
  (* Temperature sliders *)
  setupTemperatureSlider "tempBuildingAnalysis" "tempBuildingAnalysisValue" ;;
  setupTemperatureSlider "tempPlanningAnalysis" "tempPlanningAnalysisValue" ;;
  setupTemperatureSlider "tempTranslation" "tempTranslationValue" ;;
  setupTemperatureSlider "tempImageGeneration" "tempImageGenerationValue".

Definition sliders : list string :=
  ["tempBuildingAnalysis"; "tempPlanningAnalysis"; "tempTranslation";
   "tempImageGeneration"].

(** The [input] listener of a slider: [valueDisplay.textContent =
    e.target.value]. *)
Definition onSliderInput (sliderId : string) : Eff Page unit :=
  v ← read sliderId "value" value;
  write (sliderId +:+ "Value") "textContent" (set_textContent v).

(** *** Events *)

Definition World : Type := Loop.World Page Task.

Inductive Event :=
| ClickTest                        (* [click] on [#testApiKeyBtn] *)
| ClickSave                        (* [click] on [#saveBtn] *)
| ClickReset (confirmed : bool)    (* [click] on [#resetBtn], and the answer *)
| Input (id_ v : string)           (* the user gives control [id_] the value [v] *)
| FetchSettles (i : nat) (r : Settled Response)
| LoadJsonSettles (i : nat) (r : Settled SettingsData)
| TestJsonSettles (i : nat) (r : Settled TestData)
| SaveJsonSettles (i : nat) (r : Settled ErrorBody)
| ResetJsonSettles (i : nat) (r : Settled ErrorBody)
| TimerFires (i : nat).

(** A click reaches a listener that was added, on a button that is not
    disabled. *)
Definition listens (id_ : string) (p : Page) : bool :=
  bool_decide (id_ ∈ listeners p)
  && match dom p !! id_ with
     | Some c => negb (disabled c)
     | None => false
     end.

Definition finish (h : Eff Page unit) : Eff Page (Step Task) := h ;; mret Finished.

Definition step (w : World) (e : Event) : World :=
  match e with
  | ClickTest => if listens "testApiKeyBtn" (page w) then dispatch testApiKey w else w
  | ClickSave => if listens "saveBtn" (page w) then dispatch saveSettings w else w
  | ClickReset confirmed =>
      if listens "resetBtn" (page w) then dispatch (resetSettings confirmed) w else w
  | Input id_ v =>
      dispatch
        (finish
           (modify (λ p, set_dom (alter (set_value v) id_ (dom p)) p) ;;
            if bool_decide (id_ ∈ sliders) && bool_decide (id_ ∈ listeners (page w))
            then onSliderInput id_ else mret tt)) w
  | FetchSettles i r =>
      resume i (λ t, match t with
                     | LoadFetch => Some (afterLoadFetch r)
                     | TestFetch => Some (afterTestFetch r)
                     | SaveFetch => Some (afterSaveFetch r)
                     | ResetFetch => Some (afterResetFetch r)
                     | _ => None
                     end) w
  | LoadJsonSettles i r =>
      resume i (λ t, match t with
                     | LoadJson response => Some (afterLoadJson response r)
                     | _ => None
                     end) w
  | TestJsonSettles i r =>
      resume i (λ t, match t with
                     | TestJson response => Some (afterTestJson response r)
                     | _ => None
                     end) w
  | SaveJsonSettles i r =>
      resume i (λ t, match t with
                     | SaveJson response => Some (afterSaveJson response r)
                     | _ => None
                     end) w
  | ResetJsonSettles i r =>
      resume i (λ t, match t with
                     | ResetJson response => Some (afterResetJson response r)
                     | _ => None
                     end) w
  | TimerFires i =>
      match timers (page w) !! i with
      | Some t =>
          dispatch
            (modify (λ p, set_timers (delete i (timers p)) p) ;;
             match t with
             | RemoveAlert key_ => finish (removeAlert key_)
             | ClearAlerts => finish clearAlerts
             | Reload => loadSettings
             end) w
      | None => w
      end
  end.

Definition run (w : World) (events : list Event) : World := foldl step w events.

(** The page when the document is loaded: [loadSettings()] runs up to its
    [fetch], then [setupEventListeners()]. *)
Definition init (d : gmap string Control) : World :=
  let blank := {| page := {| currentSettings := None; availableModels := None; dom := d;
                             network := []; timers := []; created := 0;
                             listeners := [] |};
                  tasks := [] |} in
  dispatch (finish setupEventListeners) (dispatch loadSettings blank).

(** *** What the page shows and sends *)

(** The alerts the container shows; none when the page has no
    container. *)
Definition displayed (p : Page) : list Alert :=
  from_option alerts [] (dom p !! "alertContainer").

(** Every alert on display has its removal pending. *)
Definition timed (p : Page) : Prop :=
  Forall (λ a, RemoveAlert (key a) ∈ timers p) (displayed p).

(** The requests of the four endpoints: a key that is tested is not
    empty, and the settings saved hold a key that is not empty or none. *)
Definition expected (r : Request) : Prop :=
  match body r with
  | NoBody =>
      (url r = API_BASE_URL +:+ "/settings" ∧ method r = "GET")
      ∨ (url r = API_BASE_URL +:+ "/settings/reset" ∧ method r = "POST")
  | TestBody apiKey =>
      url r = API_BASE_URL +:+ "/settings/test-api-key" ∧ method r = "POST"
      ∧ apiKey ≠ ""
  | SaveBody settings =>
      url r = API_BASE_URL +:+ "/settings" ∧ method r = "POST"
      ∧ api_key settings ≠ Some ""
  end.

(** What a handler does keeps the alerts timed, and keeps the requests
    the expected ones. *)
Definition staysTimed : relation Page := λ p p', timed p → timed p'.

Definition sendsExpected : relation Page :=
  λ p p', Forall expected (network p) → Forall expected (network p').

(** A change of an element that adds no alert to it. *)
Definition quiet (f : Control → Control) : Prop :=
  ∀ c, alerts (f c) = alerts c ∨ alerts (f c) = [].

(** *** A sample page *)

Definition element : Control :=
  {| value := ""; assigned := λ v, v; content := Text ""; disabled := false;
     placeholder := ""; options := None; alerts := [] |}.

Definition select : Control := set_options (Some []) element.

Definition sampleDocument : gmap string Control :=
  list_to_map
    [("alertContainer", element); ("apiKeyInput", element); ("apiKeyStatus", element);
     ("testApiKeyBtn", set_content (Text "Test Key") element);
     ("saveBtn", set_content (Html (disk +:+ " Save Settings")) element);
     ("resetBtn", set_content (Text "Reset to Defaults") element);
     ("modelBuildingAnalysis", select); ("modelPlanningAnalysis", select);
     ("modelTranslation", select); ("modelImageGeneration", select);
     ("tempBuildingAnalysis", set_value "0.3" element);
     ("tempBuildingAnalysisValue", element);
     ("tempPlanningAnalysis", set_value "0.3" element);
     ("tempPlanningAnalysisValue", element);
     ("tempTranslation", set_value "0.2" element); ("tempTranslationValue", element);
     ("tempImageGeneration", set_value "0.7" element);
     ("tempImageGenerationValue", element);
     ("prefAspectRatio", element); ("prefCameraAngle", element);
     ("prefTimeOfDay", element); ("prefQualityLevel", element)].

Definition flash : Model :=
  {| id := "gemini-2.5-flash"; name := "Gemini 2.5 Flash"; description := "Fast" |}.
Definition pro : Model :=
  {| id := "gemini-2.5-pro"; name := "Gemini 2.5 Pro"; description := "Accurate" |}.

Definition sampleSettings : SettingsData :=
  {| error := None; api_key_configured := true; api_key_masked := "AIza...9xQ";
     available_models := {| text := [flash; pro]; image := [flash] |};
     models := {| building_analysis := "gemini-2.5-pro";
                  planning_analysis := "gemini-2.5-flash";
                  translation := "gemini-1.5-pro";
                  image_generation := "gemini-2.5-flash" |};
     temperatures := {| building_analysis := "0.3"; planning_analysis := "0.3";
                        translation := "0.2"; image_generation := "0.7" |};
     preferences := {| default_aspect_ratio := "16:9";
                       default_camera_angle := "drone_45deg";
                       default_time_of_day := "golden_hour";
                       default_quality_level := "high_fidelity" |} |}.

End Settings.

(** ** Handlers on a part of the state *)

Section Lift.
Context {P Q : Type} (get : Q → P) (set : P → Q → Q).

(** A handler of a part [P] of the state [Q], as a handler of [Q]. *)
Definition lift {A} (m : Eff P A) : Eff Q A :=
  λ q, let '(r, p) := m (get q) in (r, set p q).

End Lift.

(** ** The planning-detail page with its analysis and its download *)

Module DetailPage.

(** *** The body of the analysis

    A field of the analysis is a string, or is missing. *)

Record Highrise := {
  hr_count : option string;
  hr_floors : option string;
  hr_style : option string;
  hr_colors : option string;
  hr_features : option string
}.

Record Lowrise := {
  lr_exists : bool;
  lr_floors : option string;
  lr_style : option string;
  lr_colors : option string
}.

Record Landscape := {
  green_spaces : option string;
  tree_type : option string;
  road_pattern : option string
}.

Record Analysis := {
  scale : option string;
  project_type : option string;
  overall_description : option string;
  highrise_zone : option Highrise;
  lowrise_zone : option Lowrise;
  landscape : option Landscape
}.

(** The body of [POST /api/planning/analyze-sketch]. *)
Record AnalyzeBody := { analysis : option Analysis }.

Record AnalyzeRequest := {
  url : string;
  method : string;
  image_base64 : option Url   (* [JSON.stringify({ image_base64: currentSketchImage })] *)
}.

(** The link [handleDownloadImage] clicks. *)
Record Link := { href : string; download : string }.

(** *** State

    The state of the renders, the requests for an analysis, the timers
    that wait to hide the success message, and the links clicked. *)
Record Page := {
  detail : Detail.Page;
  analyses : list AnalyzeRequest;
  timers : nat;
  downloads : list Link
}.

Definition set_detail (v : Detail.Page) (p : Page) : Page :=
  {| detail := v; analyses := analyses p; timers := timers p; downloads := downloads p |}.
Definition set_analyses (v : list AnalyzeRequest) (p : Page) : Page :=
  {| detail := detail p; analyses := v; timers := timers p; downloads := downloads p |}.
Definition set_timers (v : nat) (p : Page) : Page :=
  {| detail := detail p; analyses := analyses p; timers := v; downloads := downloads p |}.
Definition set_downloads (v : list Link) (p : Page) : Page :=
  {| detail := detail p; analyses := analyses p; timers := timers p; downloads := v |}.

#[global] Instance Page_document : HasDocument Page :=
  {| document := λ p, Detail.dom (detail p);
     set_document := λ d p, set_detail (Detail.set_dom d (detail p)) p |}.

(** The helpers of the page, which are handlers of the state of the
    renders. *)
Definition onDetail {A} (m : Eff Detail.Page A) : Eff Page A := lift detail set_detail m.

Definition fetch (r : AnalyzeRequest) : Eff Page unit :=
  modify (λ p, set_analyses (Js.push (analyses p) r) p).

Inductive Task :=
| AnalyzeFetch       (* [await fetch(...)] *)
| AnalyzeErrorJson   (* [await response.json()] of a response that is not [ok] *)
| AnalyzeJson.       (* [await response.json()] *)

Section Controls.

(** What [control.value = v] makes of a control: a text control takes
    [v]; a [select] takes the option of that value if it has one, and none
    otherwise. *)
Context (assignValue : string → Element → Element).

(** [if (v) document.getElementById(id).value = v] *)
Definition fill (id : string) (v : option string) : Eff Page unit :=
  if Js.truthy (default "" v) then write id "value" (assignValue (default "" v))
  else mret tt.

(** *** Fill form from analysis *)

Definition fillFormFromAnalysis (analysis : option Analysis) : Eff Page unit :=
  match analysis with
  | None => throw (Js.undefinedRead "scale")
  | Some analysis =>
      (* Basic info *)
      fill "scale" (scale analysis) ;;
      fill "project_type" (project_type analysis) ;;
      fill "overall_description" (overall_description analysis) ;;
      (* High-rise zone *)
      match highrise_zone analysis with
      | Some hr =>
          fill "highrise_count" (hr_count hr) ;;
          fill "highrise_floors" (hr_floors hr) ;;
          fill "highrise_style" (hr_style hr) ;;
          fill "highrise_colors" (hr_colors hr) ;;
          fill "highrise_features" (hr_features hr)
      | None => mret tt
      end ;;
      (* Low-rise zone *)
      match lowrise_zone analysis with
      | Some lr =>
          if lr_exists lr then
            write "has_lowrise" "checked" (set_checked true) ;;
            write "lowrise_fields" "classList" (classList_remove "hidden") ;;
            fill "lowrise_floors" (lr_floors lr) ;;
            fill "lowrise_style" (lr_style lr) ;;
            fill "lowrise_colors" (lr_colors lr)
          else mret tt
      | None => mret tt
      end ;;
      (* Landscape *)
      match landscape analysis with
      | Some land =>
          fill "green_spaces" (green_spaces land) ;;
          fill "tree_type" (tree_type land) ;;
          fill "road_pattern" (road_pattern land)
      | None => mret tt
      end
  end.

(** *** Analyze sketch *)

Definition catchAnalyze (error : Js.Error) : Eff Page unit :=
  onDetail (Detail.showError "renderError" ("Lỗi phân tích: " +:+ Js.message error)).

Definition finallyAnalyze : Eff Page unit :=
  write "analyzeSketchButton" "disabled" (set_disabled false) ;;
  write "analyzeButtonText" "textContent" (set_textContent "Phân tích Sketch (Analyze)") ;;
  onDetail (Detail.showSpinner "analyzeSpinner" false).

(** A segment of the [try] block of [analyzeSketch]. *)
Definition inAnalyze (segment : Eff Page (Step Task)) : Eff Page (Step Task) :=
  protect catchAnalyze finallyAnalyze segment.

(** [analyzeSketch], up to [await fetch(...)]. *)
Definition analyzeSketch : Eff Page (Step Task) :=
  sketch ← gets (λ p, Detail.currentSketchImage (detail p));
  if negb (bool_decide (is_Some sketch)) then
    onDetail (Detail.showError "renderError" "Vui lòng upload sketch trước!") ;;
    mret Finished
  else
  write "analyzeSketchButton" "disabled" (set_disabled true) ;;
  write "analyzeButtonText" "textContent" (set_textContent "Đang phân tích...") ;;
  onDetail (Detail.showSpinner "analyzeSpinner" true) ;;
  onDetail (Detail.hideError "renderError") ;;
  inAnalyze (
    image ← gets (λ p, Detail.currentSketchImage (detail p));
    fetch {| url := Detail.API_BASE_URL +:+ "/planning/analyze-sketch";
             method := "POST"; image_base64 := image |} ;;
    mret (Await AnalyzeFetch)).

(** [analyzeSketch] when [fetch] settles. *)
Definition afterAnalyzeFetch (r : Settled Response) : Eff Page (Step Task) :=
  inAnalyze (
    match r with
    | Rejected e => throw e
    | Fulfilled response =>
        if negb (ok response) then mret (Await AnalyzeErrorJson)
        else mret (Await AnalyzeJson)
    end).

(** [analyzeSketch] when the body of a response that is not [ok]
    settles. *)
Definition afterAnalyzeErrorJson (r : Settled ErrorBody) : Eff Page (Step Task) :=
  inAnalyze (
    match r with
    | Rejected e => throw e
    | Fulfilled error_ =>
        throw (Js.mkError (Js.or_else (default "" (error error_)) "Analyze failed"))
    end).

(** [analyzeSketch] when the body of an [ok] response settles. *)
Definition afterAnalyzeJson (r : Settled AnalyzeBody) : Eff Page (Step Task) :=
  inAnalyze (
    match r with
    | Rejected e => throw e
    | Fulfilled data =>
        (* Fill form with analyzed data *)
        fillFormFromAnalysis (analysis data) ;;
        onDetail (Detail.showSuccess "renderSuccess"
                    "✅ Đã phân tích sketch thành công! Vui lòng kiểm tra và điều chỉnh các trường nếu cần.") ;;
        modify (λ p, set_timers (S (timers p)) p) ;;   (* setTimeout(..., 5000) *)
        mret Finished
    end).

(** *** Download *)

(** [handleDownloadImage()]; [now] is [Date.now()]. *)
Definition handleDownloadImage (now : Z) : Eff Page unit :=
  rendered ← gets (λ p, Detail.currentRenderedImage (detail p));
  if negb (Js.truthy (default "" rendered)) then
    onDetail (Detail.showError "renderError" "Chưa có ảnh để tải về!")
  else
  modify (λ p, set_downloads
                 (Js.push (downloads p)
                    {| href := default "" rendered;
                       download := "planning-detail-render-" +:+ pretty now +:+ ".png" |})
                 p) ;;
  onDetail (Detail.showSuccess "renderSuccess" "✅ Đã tải ảnh về!").

(** *** Events *)

(** The page, the suspended renders and pending reads, and the suspended
    analyses. *)
Record World := {
  state : Page;
  rendering : list Detail.Task;
  analyzing : list Task
}.

Definition renders (w : World) : Detail.World :=
  {| page := detail (state w); tasks := rendering w |}.

Definition analyzes (w : World) : Loop.World Page Task :=
  {| page := state w; tasks := analyzing w |}.

Definition withRenders (w : World) (w' : Detail.World) : World :=
  {| state := set_detail (page w') (state w); rendering := tasks w';
     analyzing := analyzing w |}.

Definition withAnalyzes (w : World) (w' : Loop.World Page Task) : World :=
  {| state := page w'; rendering := rendering w; analyzing := tasks w' |}.

Inductive Event :=
| OfRender (e : Detail.Event)   (* the uploads, the form and the renders *)
| ClickAnalyze                  (* [click] on [#analyzeSketchButton] *)
| ClickDownload (now : Z)       (* [click] inside [#downloadImageBtn] *)
| AnalyzeFetchSettles (i : nat) (r : Settled Response)
| AnalyzeErrorJsonSettles (i : nat) (r : Settled ErrorBody)
| AnalyzeJsonSettles (i : nat) (r : Settled AnalyzeBody)
| TimerFires.                   (* a timer of [analyzeSketch] *)

Definition finish (h : Eff Page unit) : Eff Page (Step Task) := h ;; mret Finished.

Definition step (w : World) (e : Event) : World :=
  match e with
  | OfRender e => withRenders w (Detail.step (renders w) e)
  | ClickAnalyze =>
      if Detail.clickable "analyzeSketchButton" (detail (state w))
      then withAnalyzes w (dispatch analyzeSketch (analyzes w)) else w
  | ClickDownload now =>
      withAnalyzes w (dispatch (finish (handleDownloadImage now)) (analyzes w))
  | AnalyzeFetchSettles i r =>
      withAnalyzes w
        (resume i (λ t, match t with
                        | AnalyzeFetch => Some (afterAnalyzeFetch r)
                        | _ => None
                        end) (analyzes w))
  | AnalyzeErrorJsonSettles i r =>
      withAnalyzes w
        (resume i (λ t, match t with
                        | AnalyzeErrorJson => Some (afterAnalyzeErrorJson r)
                        | _ => None
                        end) (analyzes w))
  | AnalyzeJsonSettles i r =>
      withAnalyzes w
        (resume i (λ t, match t with
                        | AnalyzeJson => Some (afterAnalyzeJson r)
                        | _ => None
                        end) (analyzes w))
  | TimerFires =>
      match timers (state w) with
      | S n =>
          withAnalyzes w
            (dispatch (finish (modify (set_timers n) ;;
                               onDetail (Detail.hideSuccess "renderSuccess")))
               (analyzes w))
      | O => w
      end
  end.

Definition run (w : World) (events : list Event) : World := foldl step w events.

End Controls.

(** The page as the script finds it when it is loaded. *)
Definition init (d : gmap string Element) : World :=
  {| state := {| detail := page (Detail.init d); analyses := []; timers := 0;
                 downloads := [] |};
     rendering := []; analyzing := [] |}.

(** A request for an analysis that carries an uploaded sketch. *)
Definition wellFormed (req : AnalyzeRequest) : Prop :=
  url req = "http://localhost:5001/api/planning/analyze-sketch"
  ∧ method req = "POST"
  ∧ DetailControls.uploaded (image_base64 req).

(** No sketch, no request: the renders are as [sketchFirst] says, and the
    analyses asked for carry an uploaded sketch, none being asked for
    while the page has no sketch. *)
Definition sketchFirst (w : World) : Prop :=
  DetailControls.sketchFirst (renders w)
  ∧ Forall wellFormed (analyses (state w))
  ∧ (Detail.currentSketchImage (detail (state w)) = None → analyses (state w) = []).

(** *** What a failed analysis leaves

    The ways an analysis fails once its request is out: the phase of the
    handler, the event that brings the failure to task [i], and the message
    of the exception that reaches the [catch] block. *)
Inductive Failure : Task → (nat → Event) → string → Prop :=
| FetchRejected e :
    Failure AnalyzeFetch (λ i, AnalyzeFetchSettles i (Rejected e)) (Js.message e)
| ErrorResponse errorData :
    Failure AnalyzeErrorJson (λ i, AnalyzeErrorJsonSettles i (Fulfilled errorData))
      (Js.or_else (default "" (error errorData)) "Analyze failed")
| ErrorBodyRejected e :
    Failure AnalyzeErrorJson (λ i, AnalyzeErrorJsonSettles i (Rejected e)) (Js.message e)
| BodyRejected e :
    Failure AnalyzeJson (λ i, AnalyzeJsonSettles i (Rejected e)) (Js.message e)
| NoAnalysis :
    Failure AnalyzeJson (λ i, AnalyzeJsonSettles i (Fulfilled {| analysis := None |}))
      "Cannot read properties of undefined (reading 'scale')".

(** The page has the elements an analysis reports to. *)
Definition reportable (p : Page) : Prop :=
  is_Some (document p !! "renderError") ∧ is_Some (document p !! "analyzeSketchButton")
  ∧ is_Some (document p !! "analyzeButtonText").

(** The page [p'] an analysis that failed with [msg] leaves of [p]: the
    message is displayed, the control is enabled and has its label back,
    nothing more was sent, no timer was set and the form is as it was. *)
Definition reported (msg : string) (p p' : Page) : Prop :=
  analyses p' = analyses p ∧ timers p' = timers p
  ∧ Detail.network (detail p') = Detail.network (detail p)
  ∧ (∃ el, document p' !! "renderError" = Some el ∧ shows ("Lỗi phân tích: " +:+ msg) el)
  ∧ (∃ el, document p' !! "analyzeSketchButton" = Some el ∧ disabled el = false)
  ∧ (∃ el, document p' !! "analyzeButtonText" = Some el
           ∧ textContent el = "Phân tích Sketch (Analyze)")
  ∧ (∀ id, id ∉ ["renderError"; "analyzeSketchButton"; "analyzeButtonText";
                 "analyzeSpinner"] →
           document p' !! id = document p !! id).

(** *** A sample page *)

(** The sample page of the renders with the controls of the analysis; a
    control takes the value it is given. *)
Definition sampleDocument : gmap string Element :=
  <["analyzeSketchButton" := blank]>
    (<["analyzeButtonText" := set_textContent "Phân tích Sketch (Analyze)" blank]>
       (<["analyzeSpinner" := Samples.invisible]> (Samples.detailDocument "" ""))).

Definition sampleAnalysis : Analysis :=
  {| scale := Some "1/500"; project_type := Some "mixed_use";
     overall_description := Some "Khu đô thị ven sông";
     highrise_zone := None;
     lowrise_zone := Some {| lr_exists := true; lr_floors := Some "3"; lr_style := None;
                             lr_colors := None |};
     landscape := None |}.

End DetailPage.

(** ** The planning page with its download *)

Module PlanningPage.

(** The state of the planning page, and the files it has handed to the
    user. *)
Record Page := {
  planning : Planning.Page;
  saved : list Download.Saved
}.

Definition set_planning (v : Planning.Page) (p : Page) : Page :=
  {| planning := v; saved := saved p |}.
Definition set_saved (v : list Download.Saved) (p : Page) : Page :=
  {| planning := planning p; saved := v |}.

Definition onPlanning {A} (m : Eff Planning.Page A) : Eff Page A :=
  lift planning set_planning m.

(** [downloadPlanningImage(base64Data)]; [now] is [Date.now()]. *)
Definition downloadPlanningImage (base64Data : string) (now : Z) : Eff Page unit :=
  try_catch
    (byteString ← (λ p, (Base64.atob base64Data, p));
     let mimeString := "image/png" in
     modify (λ p, set_saved
                    (Js.push (saved p)
                       {| Download.filename := "planning-render-" +:+ pretty now +:+ ".png";
                          Download.mime := mimeString;
                          Download.content := byteString |}) p) ;;
     onPlanning (Planning.showSuccess "planningSuccess" "✅ Ảnh đã được tải xuống!"))
    (λ error,
       onPlanning (Planning.showError "planningError" "Lỗi khi tải ảnh. Vui lòng thử lại.")).

Record World := {
  state : Page;
  pending : list Planning.Task
}.

Definition plans (w : World) : Planning.World :=
  {| page := planning (state w); tasks := pending w |}.

Definition withPlans (w : World) (w' : Planning.World) : World :=
  {| state := set_planning (page w') (state w); pending := tasks w' |}.

Inductive Event :=
| OfPlanning (e : Planning.Event)   (* the uploads, the lot cards and the renders *)
| ClickDownload (now : Z).          (* [click] on [#downloadPlanningBtn] *)

(** One turn of the event loop; a click on the download control runs the
    [onclick] that [displayPlanningRender] has given it. *)
Definition step (optimizer : File → Promise (option Blob)) (w : World) (e : Event)
    : World :=
  match e with
  | OfPlanning e => withPlans w (Planning.step optimizer (plans w) e)
  | ClickDownload now =>
      match Planning.dom (planning (state w)) !! "downloadPlanningBtn" with
      | Some downloadBtn =>
          match onclick downloadBtn with
          | Some base64Data =>
              {| state := exec (downloadPlanningImage base64Data now) (state w);
                 pending := pending w |}
          | None => w
          end
      | None => w
      end
  end.

Definition run (optimizer : File → Promise (option Blob)) (w : World)
    (events : list Event) : World :=
  foldl (step optimizer) w events.

Definition init (d : gmap string Element) : World :=
  {| state := {| planning := page (Planning.init d); saved := [] |}; pending := [] |}.

End PlanningPage.

(** * Properties *)

Example trim_demo : Js.trim "  Lô A1 	" = "Lô A1".
Proof. reflexivity. Qed.

Example canvasSize_demo : JsMath.canvasSize 1024 2000 1000 = (1024, 512)%N.
Proof. reflexivity. Qed.

(** ** Reasoning about handlers *)

Section EffLemmas.
Context {S : Type}.

Lemma bind_normal {A B} (m : Eff S A) (k : A → Eff S B) s b s' :
  (m ≫= k) s = (Normal b, s') ↔
  ∃ a s1, m s = (Normal a, s1) ∧ k a s1 = (Normal b, s').
Proof.
  unfold mbind, Eff_bind, bind. destruct (m s) as [[a|e] s1]; split.
  - eauto.
  - by intros (? & ? & [= -> ->] & ?).
  - done.
  - by intros (? & ? & ? & ?).
Qed.

Lemma fmap_normal {A B} (f : A → B) (m : Eff S A) s b s' :
  (f <$> m) s = (Normal b, s') ↔ ∃ a, m s = (Normal a, s') ∧ b = f a.
Proof.
  unfold fmap, Eff_fmap, bind, ret. destruct (m s) as [[a|e] s1]; split.
  - intros [= <- <-]. eauto.
  - by intros (? & [= -> ->] & ->).
  - done.
  - by intros (? & ? & ?).
Qed.

Lemma mret_normal {A} (a b : A) (s s' : S) :
  (mret a : Eff S A) s = (Normal b, s') ↔ b = a ∧ s' = s.
Proof.
  unfold mret, Eff_ret, ret. split; [by intros [= -> ->] | by intros [-> ->]].
Qed.

Lemma read_normal `{!HasDocument S} {A} id prop (get : Element → A) s a s' :
  read id prop get s = (Normal a, s') ↔
  s' = s ∧ ∃ e, document s !! id = Some e ∧ a = get e.
Proof.
  unfold read. destruct (document s !! id) as [e|]; split.
  - intros [= <- <-]. eauto.
  - by intros (-> & ? & [= <-] & ->).
  - done.
  - by intros (? & ? & ? & ?).
Qed.

Lemma readonly_ret {A} (a : A) : readonly (mret a : Eff S A).
Proof. done. Qed.

Lemma readonly_throw {A} e : readonly (throw e : Eff S A).
Proof. done. Qed.

Lemma readonly_gets {A} (f : S → A) : readonly (gets f).
Proof. done. Qed.

Lemma readonly_bind {A B} (m : Eff S A) (k : A → Eff S B) :
  readonly m → (∀ a, readonly (k a)) → readonly (m ≫= k).
Proof.
  intros Hm Hk s. unfold mbind, Eff_bind, bind. specialize (Hm s).
  destruct (m s) as [[a|e] s1]; simpl in *; subst; [apply Hk | done].
Qed.

Lemma readonly_fmap {A B} (f : A → B) (m : Eff S A) : readonly m → readonly (f <$> m).
Proof. intros Hm. apply readonly_bind; [done | intros; apply readonly_ret]. Qed.

Lemma readonly_read `{!HasDocument S} {A} id prop (get : Element → A) :
  readonly (read id prop get).
Proof. intros s. unfold read. by destruct (document s !! id). Qed.

Lemma readonly_getElementById `{!HasDocument S} id : readonly (getElementById id).
Proof. done. Qed.

Lemma readonly_if {A} (b : bool) (m1 m2 : Eff S A) :
  readonly m1 → readonly m2 → readonly (if b then m1 else m2).
Proof. by destruct b. Qed.

Lemma readonly_state {A} (m : Eff S A) s r s' : readonly m → m s = (r, s') → s' = s.
Proof. intros Hm Hs. specialize (Hm s). by rewrite Hs in Hm. Qed.
End EffLemmas.

Section Returns.
Context {S : Type}.

Lemma returns_ret {A} (a : A) s : returns (mret a : Eff S A) s.
Proof. by exists a. Qed.

Lemma returns_bind {A B} (m : Eff S A) (k : A → Eff S B) s :
  returns m s → (∀ a, returns (k a) s) → returns (m ≫= k) s.
Proof.
  intros [a Ha] Hk. destruct (Hk a) as [b Hb]. exists b.
  apply bind_normal. eauto.
Qed.

Lemma returns_fmap {A B} (f : A → B) (m : Eff S A) s : returns m s → returns (f <$> m) s.
Proof. intros [a Ha]. exists (f a). apply fmap_normal. eauto. Qed.

Lemma returns_read `{!HasDocument S} {A} id prop (get : Element → A) s :
  is_Some (document s !! id) → returns (read id prop get) s.
Proof. intros [e He]. exists (get e). apply read_normal. eauto. Qed.

Lemma returns_if {A} (b : bool) (m1 m2 : Eff S A) s :
  returns m1 s → returns m2 s → returns (if b then m1 else m2) s.
Proof. by destruct b. Qed.
End Returns.

Section Keeps.
Context {S : Type} (R : relation S) `{!PreOrder R}.

Lemma keeps_ret {A} (a : A) : keeps R (mret a : Eff S A).
Proof. intros s. simpl. reflexivity. Qed.

Lemma keeps_throw {A} e : keeps R (throw e : Eff S A).
Proof. intros s. simpl. reflexivity. Qed.

Lemma keeps_gets {A} (f : S → A) : keeps R (gets f).
Proof. intros s. simpl. reflexivity. Qed.

Lemma keeps_modify (f : S → S) : (∀ s, R s (f s)) → keeps R (modify f).
Proof. intros Hf s. apply Hf. Qed.

Lemma keeps_bind {A B} (m : Eff S A) (k : A → Eff S B) :
  keeps R m → (∀ a, keeps R (k a)) → keeps R (m ≫= k).
Proof.
  intros Hm Hk s. unfold mbind, Eff_bind, bind. specialize (Hm s).
  destruct (m s) as [[a|e] s1]; simpl in *; [|done].
  etrans; [done | apply Hk].
Qed.

Lemma keeps_fmap {A B} (f : A → B) (m : Eff S A) : keeps R m → keeps R (f <$> m).
Proof. intros Hm. apply keeps_bind; [done | intros; apply keeps_ret]. Qed.

Lemma keeps_if {A} (b : bool) (m1 m2 : Eff S A) :
  keeps R m1 → keeps R m2 → keeps R (if b then m1 else m2).
Proof. by destruct b. Qed.

Lemma keeps_try_catch {A} (body : Eff S A) handler :
  keeps R body → (∀ e, keeps R (handler e)) → keeps R (try_catch body handler).
Proof.
  intros Hb Hh s. unfold try_catch. specialize (Hb s).
  destruct (body s) as [[a|e] s1]; simpl in *; [done|].
  etrans; [done | apply Hh].
Qed.

Lemma keeps_try_finally {A} (body : Eff S A) fin :
  keeps R body → keeps R fin → keeps R (try_finally body fin).
Proof.
  intros Hb Hf s. unfold try_finally. specialize (Hb s).
  destruct (body s) as [r s1]. specialize (Hf s1).
  destruct (fin s1) as [[[]|e] s2]; simpl in *; by etrans.
Qed.

Lemma keeps_protect {T} handler fin (segment : Eff S (Step T)) :
  keeps R segment → (∀ e, keeps R (handler e)) → keeps R fin →
  keeps R (protect handler fin segment).
Proof.
  intros Hs Hh Hf s. unfold protect. specialize (Hs s).
  destruct (segment s) as [[[|t]|e] s1]; simpl in *; [| done |].
  - etrans; [done|]. apply (keeps_bind fin); [done | intros; apply keeps_ret].
  - etrans; [done|].
    apply (keeps_bind (try_finally (handler e) fin));
      [by apply keeps_try_finally | intros; apply keeps_ret].
Qed.

Lemma keeps_state {A} (m : Eff S A) s r s' : keeps R m → m s = (r, s') → R s s'.
Proof. intros Hm Hs. specialize (Hm s). by rewrite Hs in Hm. Qed.

Section Document.
Context `{!HasDocument S}.

(** [R] does not look at the document, or not at what is written there. *)
Lemma keeps_getElementById id : keeps R (getElementById id).
Proof. apply keeps_gets. Qed.

Lemma keeps_read {A} id prop (get : Element → A) : keeps R (read id prop get).
Proof. intros s. unfold read. destruct (document s !! id); simpl; reflexivity. Qed.

Lemma keeps_whenPresent id f :
  (∀ s, R s (set_document (alter f id (document s)) s)) → keeps R (whenPresent id f).
Proof. intros Hf. by apply keeps_modify. Qed.

Lemma keeps_write id prop f :
  (∀ s e, document s !! id = Some e → R s (set_document (<[id := f e]> (document s)) s)) →
  keeps R (write id prop f).
Proof.
  intros Hf s. unfold write. destruct (document s !! id) eqn:He; simpl;
    [by apply Hf | reflexivity].
Qed.

(** When [R] does not look at the document at all. *)
Context (Hframe : ∀ s d, R s (set_document d s)).

Lemma keeps_whenPresent_frame id f : keeps R (whenPresent id f).
Proof. by apply keeps_whenPresent. Qed.

Lemma keeps_write_frame id prop f : keeps R (write id prop f).
Proof. by apply keeps_write. Qed.
End Document.
End Keeps.

(** Handlers that never suspend. *)
Section Finishes.
Context {S T : Type}.

Lemma finishes_bind {A} (m : Eff S A) (k : A → Eff S (Step T)) p t p' :
  (∀ a p1, k a p1 ≠ (Normal (Await t), p')) → (m ≫= k) p ≠ (Normal (Await t), p').
Proof. intros Hk (a & p1 & _ & H)%bind_normal. by eapply Hk. Qed.

Lemma finishes_ret p t p' : (mret Finished : Eff S (Step T)) p ≠ (Normal (Await t), p').
Proof. done. Qed.
End Finishes.

Ltac finishes_tac :=
  repeat first
    [ apply finishes_ret
    | apply finishes_bind; intros
    | case_match
    | progress simpl ].

Create HintDb readonly.
Create HintDb returns.
Create HintDb keeps.
#[local] Hint Resolve keeps_ret keeps_throw keeps_gets keeps_getElementById keeps_read
  keeps_fmap : keeps.
#[local] Hint Resolve returns_ret returns_read returns_fmap : returns.
#[local] Hint Resolve readonly_ret readonly_throw readonly_gets readonly_read
  readonly_getElementById readonly_fmap : readonly.

(** Inversion of a handler that completed normally. *)
Ltac inv_eff :=
  repeat match goal with
  | H : (_ ≫= _) _ = (Normal _, _) |- _ =>
      apply bind_normal in H as (? & ? & ? & H)
  | H : read _ _ _ _ = (Normal _, _) |- _ =>
      apply read_normal in H as (-> & ? & ? & ->)
  | H : (_ <$> _) _ = (Normal _, _) |- _ =>
      apply fmap_normal in H as (? & H & ->)
  | H : mret _ _ = (Normal _, _) |- _ =>
      apply mret_normal in H as (-> & ->)
  end.

Ltac readonly_tac :=
  repeat first
    [ solve [eauto with readonly]
    | apply readonly_bind; [|intros]
    | apply readonly_if
    | match goal with |- readonly (match ?x with _ => _ end) => destruct x end ].

(** Breaks the goal [keeps R m] along the structure of [m]; what is left
    are the writes. *)
Ltac keeps_tac :=
  repeat first
    [ solve [eauto with keeps typeclass_instances]
    | apply keeps_bind; try apply _; [|intros]
    | apply keeps_if
    | apply keeps_try_catch; try apply _; [|intros]
    | apply keeps_try_finally; try apply _
    | apply keeps_protect; try apply _; [|intros|]
    | match goal with |- keeps _ (match ?x with _ => _ end) => destruct x end
    | match goal with |- keeps _ (match ?x with _ => _ end _) => destruct x end
    | progress cbv beta zeta ].

Ltac returns_tac :=
  repeat first
    [ solve [eauto with returns]
    | apply returns_bind; [|intros]
    | apply returns_if ].

(** ** The description sent with a detail render *)

Module DetailForm.
Import Detail.

Lemma readonly_trimmedValue id : readonly (trimmedValue id).
Proof. unfold trimmedValue. readonly_tac. Qed.

Lemma readonly_selectedText id : readonly (selectedText id).
Proof. unfold selectedText. readonly_tac. Qed.

#[local] Hint Resolve readonly_trimmedValue readonly_selectedText : readonly.

Lemma readonly_buildDescriptionFromFields : readonly buildDescriptionFromFields.
Proof. unfold buildDescriptionFromFields. readonly_tac. Qed.

#[local] Hint Resolve readonly_buildDescriptionFromFields : readonly.

Lemma readonly_collectFormData : readonly collectFormData.
Proof. unfold collectFormData. readonly_tac. Qed.

Lemma returns_selectedText id p e :
  dom p !! id = Some e → hasSelection e = true → returns (selectedText id) p.
Proof.
  intros He [Hlo Hhi]%andb_prop. apply bool_decide_eq_true in Hlo, Hhi.
  apply lookup_lt_is_Some in Hhi as [text Htext]. exists text.
  unfold selectedText, mbind, Eff_bind, bind, read. simpl. rewrite !He.
  destruct (Z.ltb_spec (selectedIndex e) 0); [lia|]. by rewrite Htext.
Qed.

Section Complete.
Context (p : Page) (Hcomplete : complete (dom p) = true).

Lemma complete_control id : id ∈ controls → is_Some (dom p !! id).
Proof.
  intros Hid. apply andb_prop in Hcomplete as [Hc _].
  rewrite forallb_forall in Hc. apply list_elem_of_In, Hc in Hid.
  by apply bool_decide_eq_true in Hid.
Qed.

Lemma complete_select id : id ∈ selects → returns (selectedText id) p.
Proof.
  intros Hid. apply andb_prop in Hcomplete as [_ Hs].
  rewrite forallb_forall in Hs. apply list_elem_of_In, Hs in Hid.
  destruct (dom p !! id) as [e|] eqn:He; [|done].
  by eapply returns_selectedText.
Qed.

Lemma returns_control {A} id prop (get : Element → A) :
  id ∈ controls → returns (read id prop get) p.
Proof. intros. by apply returns_read, complete_control. Qed.

Lemma returns_buildDescriptionFromFields : returns buildDescriptionFromFields p.
Proof.
  unfold buildDescriptionFromFields, trimmedValue.
  repeat first
    [ apply returns_ret
    | apply returns_fmap
    | apply returns_control; unfold controls; solve [repeat constructor]
    | apply complete_select; unfold selects; solve [repeat constructor]
    | apply returns_bind; [|intros]
    | apply returns_if ].
Qed.

Lemma returns_collectFormData : returns collectFormData p.
Proof.
  unfold collectFormData, trimmedValue.
  repeat first
    [ apply returns_ret
    | apply returns_fmap
    | apply returns_buildDescriptionFromFields
    | apply returns_control; unfold controls; solve [repeat constructor]
    | apply returns_bind; [|intros]
    | apply returns_if ].
Qed.
End Complete.

(** What [collectFormData] puts in [planning_description] when it returns. *)
Lemma collectFormData_description p data p' :
  collectFormData p = (Normal data, p') →
  ∃ custom, dom p !! "custom_description" = Some custom ∧
    if Js.truthy (Js.trim (value custom))
    then planning_description data = Js.trim (value custom)
    else buildDescriptionFromFields p = (Normal (planning_description data), p).
Proof.
  unfold collectFormData, trimmedValue. intros H. inv_eff.
  match goal with H : (if _ then _ else _) _ = _ |- _ => rename H into Hd end.
  eexists; split; [done|].
  destruct (Js.truthy _).
  - by inv_eff.
  - pose proof (readonly_state _ _ _ _ readonly_buildDescriptionFromFields Hd) as ->.
    inv_eff. done.
Qed.

Lemma truthy_spec s : Js.truthy s = true ↔ s ≠ "".
Proof. by destruct s. Qed.



End DetailForm.

(** ** Downscaling of uploads *)

Module Downscale.
Import JsMath.

Lemma canvasSize_small (w h : N) :
  (w ≤ 1024)%N → (h ≤ 1024)%N → canvasSize 1024 w h = (w, h).
Proof.
  intros Hw Hh. unfold canvasSize.
  destruct (N.ltb_spec 1024 w); [lia|]. destruct (N.ltb_spec 1024 h); [lia|]. done.
Qed.

(** A side scaled by a ratio that is at most [1024 / side] rounds to at
    most [1024]. *)
Lemma round_mul_le (n : positive) (q : Q) :
  (q <= 1024 # n)%Q → (round_mul (Npos n) (Finite q) ≤ 1024)%N.
Proof.
  intros Hq. unfold round_mul, round.
  assert (Qfloor (inject_Z (Z.of_N (N.pos n)) * q + (1 # 2)) ≤ 1024)%Z; [|lia].
  change 1024%Z with (Qfloor (1024 + (1 # 2))).
  apply Qfloor_resp_le, Qplus_le_l.
  destruct q as [a b]. unfold Qle in *. simpl in *. nia.
Qed.

Lemma round_mul_zero (q : Q) : round_mul 0 (Finite q) = 0%N.
Proof.
  unfold round_mul, round. destruct q as [a b]. unfold Qfloor, Qplus, Qmult. simpl.
  rewrite Z.div_small; [done|]. lia.
Qed.

(** Whatever the size of the image, no side of the canvas exceeds
    [1024]. *)
Lemma canvasSize_bounded (w h : N) :
  let '(w', h') := canvasSize 1024 w h in (N.max w' h' ≤ 1024)%N.
Proof.
  unfold canvasSize.
  destruct (N.ltb_spec 1024 w) as [Hw|Hw], (N.ltb_spec 1024 h) as [Hh|Hh]; simpl;
    try lia; apply N.max_lub;
    destruct w as [|w], h as [|h]; cbn [div min]; try lia;
    rewrite ?round_mul_zero; try lia;
    apply round_mul_le; auto using Q.le_min_l, Q.le_min_r, Qle_refl.
Qed.

(** In binary64 arithmetic the two products are the integers themselves, so
    that [Math.round] has nothing to round. *)
Example binary64_2000x1000 :
  let ratio := (if (1024 / 2000 <? 1024 / 1000) then 1024 / 2000 else 1024 / 1000)%float in
  ((2000 * ratio =? 1024) && (1000 * ratio =? 512))%float = true.
Proof. reflexivity. Qed.

(** C2. Both copies of [optimizeImageForUpload] redraw a 2000×1000 image on
    a 1024×512 canvas: each side is [Math.round] of the side scaled by
    [Math.min(1024 / 2000, 1024 / 1000)], the longer side is at most 1024
    and the ratio of the sides is the one of the image; an image with both
    sides at most 1024 keeps its size. *)
Theorem optimizeImageForUpload_2000x1000 (name : string) (size : N) :
  let image w h :=
    {| file_name := name; file_size := size; natural_size := Some (w, h) |} in
  let ratio := min (div 1024 2000) (div 1024 1000) in
  let downscales (optimize : File → Promise (option Blob)) :=
    (∃ w' h',
       optimize (image 2000 1000)%N
       = Settles (Fulfilled (Some (CanvasPng (image 2000 1000)%N w' h')))
       ∧ w' = round_mul 2000 ratio ∧ h' = round_mul 1000 ratio
       ∧ (N.max w' h' ≤ 1024)%N
       ∧ (w' * 1000 = h' * 2000)%N)
    ∧ (∀ w h, (w ≤ 1024)%N → (h ≤ 1024)%N →
         optimize (image w h) = Settles (Fulfilled (toBlob (image w h) w h))) in
  downscales Planning.optimizeImageForUpload ∧ downscales Utils.optimizeImageForUpload.
Proof.
  intros image ratio downscales.
  assert (canvasSize 1024 2000 1000 = (1024, 512)%N) as Hsize by reflexivity.
  split; (split;
    [ exists 1024%N, 512%N; repeat split; try reflexivity; lia
    | intros w h Hw Hh;
      unfold Planning.optimizeImageForUpload, Utils.optimizeImageForUpload,
        Utils.MAX_IMAGE_DIMENSION; simpl;
      by rewrite canvasSize_small ]).
Qed.

Lemma optimizeImageForUpload_2000x1000_witness :
  Planning.optimizeImageForUpload
    {| file_name := "site.png"; file_size := 4096; natural_size := Some (800, 600)%N |}
  = Settles (Fulfilled (Some (CanvasPng
      {| file_name := "site.png"; file_size := 4096; natural_size := Some (800, 600)%N |}
      800 600))).
Proof.
  destruct (optimizeImageForUpload_2000x1000 "site.png" 4096) as [[_ Hsmall] _].
  apply (Hsmall 800 600)%N; lia.
Defined.

End Downscale.

(** ** Counting tasks *)

Section Count.
Context {T : Type} (P : T → bool).

Lemma count_push ts t : count P (Js.push ts t) = count P ts + (if P t then 1 else 0).
Proof. unfold Js.push. induction ts as [|t' ts IH]; simpl; lia. Qed.

Lemma count_insert ts i t t' :
  ts !! i = Some t →
  count P (<[i := t']> ts) + (if P t then 1 else 0) = count P ts + (if P t' then 1 else 0).
Proof.
  revert i. induction ts as [|t0 ts IH]; intros [|i] Hi; simplify_eq/=; [lia|].
  specialize (IH i Hi). lia.
Qed.

Lemma count_delete ts i t :
  ts !! i = Some t → count P (delete i ts) + (if P t then 1 else 0) = count P ts.
Proof.
  revert i. induction ts as [|t0 ts IH]; intros [|i] Hi; simplify_eq/=; [lia|].
  specialize (IH i Hi). lia.
Qed.
End Count.

(** ** Renders in flight *)

Section RenderLemmas.
Context {P T Rq : Type} (flag : P → bool) (sent : P → list Rq) (isRender : T → bool)
  (ok : P → Prop) (good : P → Rq → Prop).

Abbreviation sameRender := (Loop.sameRender flag sent).
Abbreviation Effect := (Loop.Effect flag sent isRender ok good).
Abbreviation inFlight := (Loop.inFlight isRender).
Abbreviation guarded := (Loop.guarded flag isRender).

#[local] Instance sameRender_preorder : PreOrder sameRender.
Proof.
  split; [by intros s | intros s1 s2 s3 [H1 H2] [H3 H4]; split; congruence].
Qed.

(** A handler that does not touch the flag or the network and suspends on
    nothing that is a render. *)
Lemma dispatch_untouched (h : Eff P (Step T)) w :
  keeps sameRender h →
  (∀ p t p', h p = (Normal (Await t), p') → isRender t = false) →
  Effect w (dispatch h w).
Proof.
  intros Hk Ht. apply Untouched; unfold dispatch, Loop.inFlight;
    specialize (Hk (page w)); specialize (Ht (page w));
    destruct (h (page w)) as [[[|t]|e] p']; simpl in *; try done.
  rewrite count_push, (Ht t p'); [lia | done].
Qed.

Lemma resume_untouched i (k : T → option (Eff P (Step T))) w :
  (∀ t h, k t = Some h →
          isRender t = false ∧ keeps sameRender h ∧
          ∀ p t' p', h p = (Normal (Await t'), p') → isRender t' = false) →
  Effect w (resume i k w).
Proof.
  intros Hk. unfold resume.
  destruct (tasks w !! i) as [t|] eqn:Hi; [|by apply Untouched].
  destruct (k t) as [h|] eqn:Hh; [|by apply Untouched].
  destruct (Hk t h Hh) as (Ht & Hkeeps & Hfin).
  specialize (Hkeeps (page w)). specialize (Hfin (page w)).
  destruct (h (page w)) as [[[|t']|e] p'] eqn:Hp; simpl in *;
    apply Untouched; simpl; try done; unfold Loop.inFlight; simpl.
  - pose proof (count_delete isRender _ _ _ Hi) as Hc. rewrite Ht in Hc. lia.
  - pose proof (count_insert isRender _ _ _ t' Hi) as Hc.
    rewrite Ht, (Hfin t' p' eq_refl) in Hc. lia.
  - pose proof (count_delete isRender _ _ _ Hi) as Hc. rewrite Ht in Hc. lia.
Qed.

(** A submit: it suspends only with the flag clear before and set after and
    with one more request sent; otherwise it sends nothing, and stops at the
    flag when the flag is set. *)
Lemma dispatch_submit (h : Eff P (Step T)) w :
  (∀ p, match h p with
        | (Normal (Await t), p') =>
            isRender t = true ∧ flag p = false ∧ flag p' = true ∧
            ∃ req, sent p' = Js.push (sent p) req ∧ good p req
        | (_, p') => sent p' = sent p ∧ (flag p = true → flag p' = true)
        end) →
  Effect w (dispatch h w).
Proof.
  intros Hcases. unfold dispatch. specialize (Hcases (page w)).
  destruct (h (page w)) as [[[|t]|e] p'].
  - destruct Hcases as [Hn Hf]. destruct (flag (page w)) eqn:Hr.
    + apply Untouched; [|done]. split; [|done]. simpl. by rewrite Hf.
    + by apply Aborted.
  - destruct Hcases as (Ht & Hr & Hr' & req & Hn & Hgood).
    apply (Started _ _ _ _ _ _ _ req); try done. unfold Loop.inFlight. simpl.
    by rewrite count_push, Ht.
  - destruct Hcases as [Hn Hf]. destruct (flag (page w)) eqn:Hr.
    + apply Untouched; [|done]. split; [|done]. simpl. by rewrite Hf.
    + by apply Aborted.
Qed.

(** A continuation of a render: it stays suspended, leaving the page as it
    is, or ends the render, clearing the flag and sending nothing. *)
Lemma resume_render i (k : T → option (Eff P (Step T))) w :
  (∀ t h, k t = Some h →
          isRender t = true ∧
          ∀ p, match h p with
               | (Normal (Await t'), p') => p' = p ∧ isRender t' = true
               | (_, p') => (ok p → flag p' = false) ∧ sent p' = sent p
               end) →
  Effect w (resume i k w).
Proof.
  intros Hk. unfold resume.
  destruct (tasks w !! i) as [t|] eqn:Hi; [|by apply Untouched].
  destruct (k t) as [h|] eqn:Hh; [|by apply Untouched].
  destruct (Hk t h Hh) as (Ht & Hcases). specialize (Hcases (page w)).
  destruct (h (page w)) as [[[|t']|e] p'] eqn:Hp; simpl in *.
  - destruct Hcases. apply Ended; try done. unfold Loop.inFlight. simpl.
    pose proof (count_delete isRender _ _ _ Hi) as Hc. rewrite Ht in Hc. lia.
  - destruct Hcases as [-> Ht']. apply Untouched; [done|]. unfold Loop.inFlight. simpl.
    pose proof (count_insert isRender _ _ _ t' Hi) as Hc.
    rewrite Ht, Ht' in Hc. lia.
  - destruct Hcases. apply Ended; try done. unfold Loop.inFlight. simpl.
    pose proof (count_delete isRender _ _ _ Hi) as Hc. rewrite Ht in Hc. lia.
Qed.

(** What can be read off the effect of an event. *)
Lemma effect_guard w w' :
  Effect w w' → flag (page w) = true → sent (page w') = sent (page w).
Proof. intros [[_ Hn] _|req _ Hr _ _ _|_ Hn _|Hr _ _]; congruence. Qed.

Lemma effect_sent w w' :
  Effect w w' → sent (page w') ≠ sent (page w) →
  ∃ req, sent (page w') = Js.push (sent (page w)) req ∧
         flag (page w) = false ∧ flag (page w') = true ∧ inFlight w' = inFlight w + 1.
Proof. intros [[_ Hn] _|req _ Hr Hr' Hn Hc|_ Hn _|_ Hn _] Hne; try done. eauto. Qed.

Lemma effect_good w w' :
  Effect w w' →
  sent (page w') = sent (page w) ∨
  ∃ req, sent (page w') = Js.push (sent (page w)) req ∧ good (page w) req.
Proof. intros [[_ Hn] _|req Hg _ _ Hn _|_ Hn _|_ Hn _]; eauto. Qed.

Lemma effect_done w w' :
  Effect w w' → inFlight w' < inFlight w →
  (ok (page w) → flag (page w') = false) ∧ sent (page w') = sent (page w).
Proof. intros [_ Hc|req _ _ _ _ Hc|Hr Hn Hc|_ _ Hc] Hlt; try lia. done. Qed.

Lemma guarded_effect w w' : Effect w w' → guarded w → guarded w'.
Proof.
  intros He [Hle Hflag]. unfold Loop.guarded.
  destruct He as [[Hr _] Hn|req _ Hr Hr' _ Hn|Hr _ Hn|Hr _ Hn].
  - rewrite Hn, Hr. done.
  - destruct (decide (inFlight w = 1)) as [H1|H1]; [apply Hflag in H1; congruence|].
    split; [lia | done].
  - split; [lia | intros; lia].
  - rewrite Hn. split; [done|]. intros H1%Hflag. congruence.
Qed.
End RenderLemmas.

(** ** Renders of the planning-detail page *)

Module DetailRender.
Import Detail.

#[local] Instance detail_sameRender_preorder : PreOrder sameRender.
Proof. apply sameRender_preorder. Qed.

Lemma sameRender_set_dom s d : sameRender s (set_dom d s).
Proof. by split. Qed.

#[local] Hint Resolve sameRender_set_dom : keeps.
#[local] Hint Extern 1 (keeps sameRender (whenPresent _ _)) =>
  apply keeps_whenPresent_frame; first [apply _ | exact sameRender_set_dom] : keeps.
#[local] Hint Extern 1 (keeps sameRender (write _ _ _)) =>
  apply keeps_write_frame; first [apply _ | exact sameRender_set_dom] : keeps.
#[local] Hint Extern 1 (keeps sameRender (modify _)) =>
  apply keeps_modify; by intros []; split : keeps.

Ltac frame := intros; keeps_tac.

Lemma keeps_showError id msg : keeps sameRender (showError id msg).
Proof. unfold showError. frame. Qed.

Lemma keeps_handleImageUpload file : keeps sameRender (handleImageUpload file).
Proof. unfold handleImageUpload, readAsDataURL, showError. frame. Qed.

Lemma keeps_readerOnload f : keeps sameRender (readerOnload f).
Proof. unfold readerOnload. frame. Qed.

Lemma keeps_applyQualityPreset level : keeps sameRender (applyQualityPreset level).
Proof. unfold applyQualityPreset. frame. Qed.

Lemma keeps_edit id f : keeps sameRender (edit id f).
Proof. unfold edit. frame. Qed.

Lemma keeps_onUserValue id : keeps sameRender (onUserValue id).
Proof. unfold onUserValue. frame. Qed.

Lemma keeps_onUserChecked id : keeps sameRender (onUserChecked id).
Proof. unfold onUserChecked. frame. Qed.

Lemma keeps_onUserSelected id : keeps sameRender (onUserSelected id).
Proof.
  unfold onUserSelected. pose proof keeps_applyQualityPreset. frame.
Qed.

(** Handlers of the upload and of the form start no render. *)
Lemma handleImageUpload_task file p t p' :
  handleImageUpload file p = (Normal (Await t), p') → isRenderTask t = false.
Proof.
  destruct file as [f|]; simpl; [|done].
  unfold try_catch, readAsDataURL. simpl. by intros [= <- <-].
Qed.


(** What a submit does to the flag, to the requests and to the tasks. *)
Lemma generateRender_cases p :
  match generateRender p with
  | (Normal (Await t), p') =>
      t = AwaitFetch ∧ isRendering p = false ∧ isRendering p' = true ∧
      ∃ req, network p' = Js.push (network p) req
  | (_, p') => network p' = network p ∧ (isRendering p = true → isRendering p' = true)
  end.
Proof.
  pose proof (DetailForm.readonly_collectFormData) as Hc. unfold readonly in Hc.
  cbv beta iota zeta delta
    [generateRender mbind Eff_bind bind gets trimmedValue fmap Eff_fmap ret read
     showError hideError hideSuccess showSpinner whenPresent modify write inTry
     protect try_finally catchRender finallyRender fetch mret Eff_ret throw
     document set_document Page_document].
  repeat (case_match; simplify_eq/=; try done).
  all: try match goal with
           | H : collectFormData ?s = _ |- _ =>
               specialize (Hc s); rewrite H in Hc; simpl in Hc; subst
           end.
  all: simpl; eauto 10.
Qed.

Ltac run_render :=
  cbv beta iota zeta delta
    [afterFetch afterErrorJson afterJson displayRenderedImage showSuccess
     mbind Eff_bind bind gets ret read showError hideError hideSuccess showSpinner
     whenPresent modify write inTry protect try_finally catchRender finallyRender
     mret Eff_ret throw document set_document Page_document];
  repeat (case_match; simplify_eq/=; try done).

(** A continuation of a render either stays suspended, leaving the page as
    it is, or ends the render: the flag is cleared and nothing is sent. *)
Lemma afterFetch_cases r p :
  match afterFetch r p with
  | (Normal (Await t), p') => p' = p ∧ isRenderTask t = true
  | (_, p') => (True → isRendering p' = false) ∧ network p' = network p
  end.
Proof. run_render. Qed.

Lemma afterErrorJson_cases response r p :
  match afterErrorJson response r p with
  | (Normal (Await t), p') => False
  | (_, p') => isRendering p' = false ∧ network p' = network p
  end.
Proof. run_render. Qed.

Lemma afterJson_cases r elapsedTime p :
  match afterJson r elapsedTime p with
  | (Normal (Await t), p') => False
  | (_, p') => isRendering p' = false ∧ network p' = network p
  end.
Proof. run_render. Qed.

Lemma dispatch_generateRender w : Effect w (dispatch generateRender w).
Proof.
  apply (dispatch_submit isRendering network isRenderTask (λ _, True) (λ _ _, True)). intros p. pose proof (generateRender_cases p) as H.
  destruct (generateRender p) as [[[|t]|e] p']; [done | | done].
  destruct H as (-> & ? & ? & req & ?). eauto 10.
Qed.

Lemma step_effect w e : Effect w (step w e).
Proof.
  destruct e; simpl.
  - apply (dispatch_untouched isRendering network isRenderTask (λ _, True) (λ _ _, True));
      [apply keeps_handleImageUpload | apply handleImageUpload_task].
  - apply (resume_untouched isRendering network isRenderTask (λ _, True) (λ _ _, True)). intros [] h [= <-]. split; [done|]. split.
    + pose proof keeps_readerOnload. frame.
    + intros p t' p' H. exfalso. revert H. finishes_tac.
  - case_match; [apply dispatch_generateRender | by apply Untouched].
  - apply dispatch_generateRender.
  - apply (dispatch_untouched isRendering network isRenderTask (λ _, True) (λ _ _, True)).
    + pose proof keeps_edit. pose proof keeps_onUserValue. frame.
    + intros p t p' H. exfalso. revert H. unfold edit, onUserValue. finishes_tac.
  - apply (dispatch_untouched isRendering network isRenderTask (λ _, True) (λ _ _, True)).
    + pose proof keeps_edit. pose proof keeps_onUserChecked. frame.
    + intros p t p' H. exfalso. revert H. unfold edit, onUserChecked. finishes_tac.
  - apply (dispatch_untouched isRendering network isRenderTask (λ _, True) (λ _ _, True)).
    + pose proof keeps_edit. pose proof keeps_onUserSelected. frame.
    + intros p t p' H. exfalso. revert H. unfold edit, onUserSelected. finishes_tac.
  - apply (resume_render isRendering network isRenderTask (λ _, True) (λ _ _, True)). intros [] h [= <-]. split; [done|].
    intros p. apply afterFetch_cases.
  - apply (resume_render isRendering network isRenderTask (λ _, True) (λ _ _, True)). intros [] h [= <-]. split; [done|].
    intros p. pose proof (afterErrorJson_cases response r p).
    repeat case_match; intuition.
  - apply (resume_render isRendering network isRenderTask (λ _, True) (λ _ _, True)). intros [] h [= <-]. split; [done|].
    intros p. pose proof (afterJson_cases r elapsedTime p).
    repeat case_match; intuition.
Qed.

Lemma guarded_step w e : guarded w → guarded (step w e).
Proof. apply (guarded_effect isRendering network isRenderTask (λ _, True) (λ _ _, True)), step_effect. Qed.

Lemma guarded_run w events : guarded w → guarded (run w events).
Proof.
  revert w. induction events as [|e events IH]; intros w Hw; [done|].
  simpl. by apply IH, guarded_step.
Qed.

End DetailRender.

(** ** Renders of the planning page *)

Module PlanningRender.
Import Planning.

#[local] Instance planning_sameRender_preorder : PreOrder sameRender.
Proof. apply sameRender_preorder. Qed.

Lemma planning_sameRender_set_dom s d : sameRender s (set_dom d s).
Proof. by split. Qed.

#[local] Hint Extern 1 (keeps sameRender (whenPresent _ _)) =>
  apply keeps_whenPresent_frame;
  first [apply _ | exact planning_sameRender_set_dom] : keeps.
#[local] Hint Extern 1 (keeps sameRender (write _ _ _)) =>
  apply keeps_write_frame;
  first [apply _ | exact planning_sameRender_set_dom] : keeps.
#[local] Hint Extern 1 (keeps sameRender (modify _)) =>
  apply keeps_modify; by intros []; split : keeps.

Ltac frame := intros; keeps_tac.

Lemma keeps_updateGenerateButton : keeps sameRender updateGenerateButton.
Proof. unfold updateGenerateButton. frame. Qed.

#[local] Hint Resolve keeps_updateGenerateButton : keeps.

Lemma keeps_addLotDescription : keeps sameRender addLotDescription.
Proof. unfold addLotDescription. frame. Qed.

Lemma keeps_removeLot k : keeps sameRender (removeLot k).
Proof. unfold removeLot, updateLotNumbers. frame. Qed.

Lemma keeps_editCard k f : keeps sameRender (editCard k f).
Proof. unfold editCard. frame. Qed.

Lemma keeps_uploads :
  (∀ file, keeps sameRender (handleSitePlanUpload file)) ∧
  (∀ file, keeps sameRender (handleLotMapUpload file)) ∧
  (∀ r, keeps sameRender (afterSitePlanOptimized r)) ∧
  (∀ r, keeps sameRender (afterLotMapOptimized r)) ∧
  (∀ b, keeps sameRender (sitePlanOnload b)) ∧
  (∀ b, keeps sameRender (lotMapOnload b)).
Proof.
  unfold handleSitePlanUpload, handleLotMapUpload, afterSitePlanOptimized,
    afterLotMapOptimized, sitePlanOnload, lotMapOnload, readAsDataURL, showError.
  split_and!; frame.
Qed.

Lemma keeps_finish h : keeps sameRender h → keeps sameRender (finish h).
Proof. unfold finish. frame. Qed.

Lemma finish_finishes h p t p' : finish h p ≠ (Normal (Await t), p').
Proof. unfold finish. finishes_tac. Qed.

(** The uploads suspend on nothing that is a render. *)
Lemma upload_tasks :
  (∀ file p t p', handleSitePlanUpload file p = (Normal (Await t), p') →
                  isRenderTask t = false) ∧
  (∀ file p t p', handleLotMapUpload file p = (Normal (Await t), p') →
                  isRenderTask t = false) ∧
  (∀ r p t p', afterSitePlanOptimized r p = (Normal (Await t), p') →
               isRenderTask t = false) ∧
  (∀ r p t p', afterLotMapOptimized r p = (Normal (Await t), p') →
               isRenderTask t = false).
Proof.
  split_and!; intros [] p t p';
    cbv beta iota zeta delta
      [handleSitePlanUpload handleLotMapUpload afterSitePlanOptimized
       afterLotMapOptimized try_catch readAsDataURL throw showError whenPresent
       modify mbind Eff_bind bind mret Eff_ret ret];
    repeat case_match; intros ?; by simplify_eq.
Qed.

Ltac run_planning :=
  cbv beta iota zeta delta
    [generatePlanningRender collectLotDescriptions afterFetch afterErrorJson afterJson
     displayPlanningRender showSuccess getElementById
     mbind Eff_bind bind gets ret read showError hideError hideSuccess
     whenPresent modify write inTry protect try_finally catchRender finallyRender
     fetch mret Eff_ret throw document set_document Page_document];
  repeat (case_match; simplify_eq/=; try done).

(** A lookup below writes to other elements. *)
Ltac lookup_through H :=
  repeat first
    [ rewrite lookup_alter_ne in H by done
    | rewrite lookup_insert_ne in H by done
    | rewrite lookup_insert_eq in H
    | rewrite lookup_alter_eq in H ].

Lemma generatePlanningRender_cases p :
  match generatePlanningRender p with
  | (Normal (Await t), p') =>
      t = AwaitFetch ∧ isPlanningRendering p = false ∧ isPlanningRendering p' = true ∧
      ∃ req, network p' = Js.push (network p) req ∧ submits p req
  | (_, p') =>
      network p' = network p ∧
      (isPlanningRendering p = true → isPlanningRendering p' = true)
  end.
Proof.
  run_planning; try (by eauto).
  all: split_and!; try done; eexists; (split; [done|]).
  all: unfold submits; simpl; split_and!; try done.
  all: try (intros Hnil; by rewrite Hnil in * ).
  all: unfold collectLotDescriptions, getElementById, mbind, Eff_bind, bind, gets; simpl.
  all: match goal with
       | H : dom _ !! "lotCardsContainer" = _ |- _ => by rewrite H
       end.
Qed.

Ltac button_missing :=
  split; [|done]; intros [btn Hbtn];
  repeat match goal with
         | H : _ !! "generatePlanningBtn" = None |- _ =>
             lookup_through H; congruence
         end.

(** A continuation of a render either stays suspended, leaving the page as
    it is, or ends the render: nothing is sent, and the flag is cleared when
    the page has its submit control. *)
Lemma planning_afterFetch_cases r p :
  match afterFetch r p with
  | (Normal (Await t), p') => p' = p ∧ isRenderTask t = true
  | (_, p') => (hasGenerateBtn p → isPlanningRendering p' = false) ∧ network p' = network p
  end.
Proof. run_planning; button_missing. Qed.

Lemma planning_afterErrorJson_cases response r p :
  match afterErrorJson response r p with
  | (Normal (Await t), p') => False
  | (_, p') => (hasGenerateBtn p → isPlanningRendering p' = false) ∧ network p' = network p
  end.
Proof. run_planning; button_missing. Qed.

Lemma planning_afterJson_cases r p :
  match afterJson r p with
  | (Normal (Await t), p') => False
  | (_, p') => (hasGenerateBtn p → isPlanningRendering p' = false) ∧ network p' = network p
  end.
Proof. run_planning; button_missing. Qed.

Lemma dispatch_generatePlanningRender w : Effect w (dispatch generatePlanningRender w).
Proof.
  apply (dispatch_submit isPlanningRendering network isRenderTask hasGenerateBtn submits).
  intros p. pose proof (generatePlanningRender_cases p) as H.
  destruct (generatePlanningRender p) as [[[|t]|e] p']; [done | | done].
  destruct H as (-> & ? & ? & req & ? & ?). eauto 10.
Qed.

Lemma dispatch_finish h w : keeps sameRender h → Effect w (dispatch (finish h) w).
Proof.
  intros Hh.
  apply (dispatch_untouched isPlanningRendering network isRenderTask hasGenerateBtn submits).
  - by apply keeps_finish.
  - intros p t p' H. by apply finish_finishes in H.
Qed.

Lemma planning_step_effect optimizer w e : Effect w (step optimizer w e).
Proof.
  destruct keeps_uploads as (Hsite & Hlot & Hsite' & Hlot' & Hsite'' & Hlot'').
  destruct upload_tasks as (Tsite & Tlot & Tsite' & Tlot').
  destruct e; simpl.
  - apply (dispatch_untouched isPlanningRendering network isRenderTask hasGenerateBtn submits);
      [apply Hsite | apply Tsite].
  - apply (dispatch_untouched isPlanningRendering network isRenderTask hasGenerateBtn submits);
      [apply Hlot | apply Tlot].
  - apply (resume_untouched isPlanningRendering network isRenderTask hasGenerateBtn submits).
    intros [kind f| | | |] h Hh; try done.
    destruct (optimizer f) as [r|]; [|done].
    destruct kind; simplify_eq; eauto.
  - apply (resume_untouched isPlanningRendering network isRenderTask hasGenerateBtn submits).
    intros [|[] b| | |] h Hh; simplify_eq; (split; [done|]);
      (split; [by apply keeps_finish | intros p t' p' H; by apply finish_finishes in H]).
  - case_match; [|by apply Untouched].
    apply dispatch_finish, keeps_addLotDescription.
  - apply dispatch_finish, keeps_removeLot.
  - apply dispatch_finish. pose proof (keeps_editCard k). frame.
  - apply dispatch_finish, keeps_editCard.
  - apply dispatch_finish. frame.
  - case_match; [apply dispatch_generatePlanningRender | by apply Untouched].
  - case_match; [apply dispatch_generatePlanningRender | by apply Untouched].
  - apply (resume_render isPlanningRendering network isRenderTask hasGenerateBtn submits).
    intros [] h [= <-]. split; [done|]. intros p. apply planning_afterFetch_cases.
  - apply (resume_render isPlanningRendering network isRenderTask hasGenerateBtn submits).
    intros [] h [= <-]. split; [done|].
    intros p. pose proof (planning_afterErrorJson_cases response r p).
    by repeat case_match.
  - apply (resume_render isPlanningRendering network isRenderTask hasGenerateBtn submits).
    intros [] h [= <-]. split; [done|].
    intros p. pose proof (planning_afterJson_cases r p).
    by repeat case_match.
  - case_match; [|by apply Untouched]. apply dispatch_finish. frame.
Qed.

Lemma planning_guarded_run optimizer w events :
  guarded w → guarded (run optimizer w events).
Proof.
  revert w. induction events as [|e events IH]; intros w Hw; [done|].
  simpl. apply IH.
  eapply (guarded_effect isPlanningRendering network isRenderTask hasGenerateBtn submits);
    [apply planning_step_effect | done].
Qed.

End PlanningRender.

(** ** One render at a time *)

Lemma guarded_init_detail d : Detail.guarded (Detail.init d).
Proof. split; [apply Nat.le_0_1 | done]. Qed.

Lemma guarded_init_planning d : Planning.guarded (Planning.init d).
Proof. split; [apply Nat.le_0_1 | done]. Qed.



(** ** Failed renders *)

Lemma hidden_remove e : hidden (classList_remove "hidden" e) = false.
Proof.
  unfold hidden. apply bool_decide_eq_false. simpl.
  intros [_ Hin]%elem_of_difference. by apply Hin, elem_of_singleton.
Qed.

Lemma hidden_add e : hidden (classList_add "hidden" e) = true.
Proof.
  unfold hidden. apply bool_decide_eq_true. simpl.
  by apply elem_of_union_l, elem_of_singleton.
Qed.

(** An exception in the [try] block of [generateRender]. *)
Lemma detail_inTry_throw segment p e p1 :
  segment p = (Throw e, p1) → Detail.reportable p1 →
  ∃ p', Detail.inTry segment p = (Normal Finished, p') ∧
        Detail.settled (Js.message e) p1 p'.
Proof.
  intros Hseg ((err & Herr) & (spin & Hspin) & (btn & Hbtn)).
  unfold Detail.inTry, protect. rewrite Hseg.
  cbv beta iota zeta delta
    [try_finally Detail.catchRender Detail.finallyRender Detail.showError
     Detail.showSpinner whenPresent modify write mbind Eff_bind bind mret Eff_ret ret
     document set_document Detail.Page_document].
  simpl. rewrite !lookup_alter_ne by done. rewrite Hbtn.
  eexists. split; [done|]. unfold Detail.settled. simpl. split_and!; try done.
  - eexists. split.
    + rewrite lookup_insert_ne by done. rewrite lookup_alter_ne by done.
      by rewrite lookup_alter_eq, Herr.
    + split; [done | apply hidden_remove].
  - eexists. split.
    + rewrite lookup_insert_ne by done. rewrite lookup_alter_eq.
      rewrite lookup_alter_ne by done. by rewrite Hspin.
    + apply hidden_add.
  - eexists. split; [apply lookup_insert_eq | done].
Qed.

Lemma detail_resume_failure (w : Detail.World) i t ev msg :
  tasks w !! i = Some t → Detail.Failure t ev msg → Detail.reportable (page w) →
  let w' := Detail.step w (ev i) in
  tasks w' = delete i (tasks w) ∧ Detail.settled msg (page w) (page w').
Proof.
  intros Hi Hfail Hok.
  destruct Hfail; simpl; unfold resume; rewrite Hi; simpl;
    unfold Detail.afterFetch, Detail.afterErrorJson, Detail.afterJson;
    match goal with
    | |- context [Detail.inTry ?seg (page w)] =>
        destruct (detail_inTry_throw seg (page w) _ (page w) eq_refl Hok)
          as (p' & -> & Hs)
    end; done.
Qed.

(** An exception in the [try] block of [generatePlanningRender]. *)
Lemma planning_inTry_throw segment p e p1 :
  segment p = (Throw e, p1) → Planning.reportable p1 →
  ∃ p', Planning.inTry segment p = (Normal Finished, p') ∧
        Planning.settled (Js.message e) p1 p'.
Proof.
  intros Hseg ((err & Herr) & (btn & Hbtn)).
  unfold Planning.inTry, protect. rewrite Hseg.
  cbv beta iota zeta delta
    [try_finally Planning.catchRender Planning.finallyRender Planning.showError
     whenPresent modify write mbind Eff_bind bind mret Eff_ret ret
     document set_document Planning.Page_document].
  simpl. rewrite !lookup_alter_ne by done. rewrite Hbtn. simpl.
  rewrite lookup_insert_eq. simpl.
  eexists. split; [done|]. unfold Planning.settled. simpl. split_and!; try done.
  - eexists. split.
    + rewrite !lookup_insert_ne by done. by rewrite lookup_alter_eq, Herr.
    + split; [done | apply hidden_remove].
  - eexists. split; [apply lookup_insert_eq | done].
Qed.

Lemma planning_resume_failure optimizer (w : Planning.World) i t ev msg :
  tasks w !! i = Some t → Planning.Failure t ev msg → Planning.reportable (page w) →
  let w' := Planning.step optimizer w (ev i) in
  tasks w' = delete i (tasks w) ∧ Planning.settled msg (page w) (page w').
Proof.
  intros Hi Hfail Hok.
  destruct Hfail; simpl; unfold resume; rewrite Hi; simpl;
    unfold Planning.afterFetch, Planning.afterErrorJson, Planning.afterJson;
    match goal with
    | |- context [Planning.inTry ?seg (page w)] =>
        destruct (planning_inTry_throw seg (page w) _ (page w) eq_refl Hok)
          as (p' & -> & Hs)
    end; done.
Qed.



(** ** The message of an HTTP error *)

Lemma http_error_not_verbatim :
  let detail errorData :=
    Samples.detailError
      (Detail.step Samples.detailRefused
         (Detail.ErrorJsonSettles 0 (Fulfilled errorData))) in
  let planning errorData :=
    Samples.planningError
      (Planning.step Planning.optimizeImageForUpload Samples.planningRefused
         (Planning.ErrorJsonSettles 0 (Fulfilled errorData))) in
  let silent := {| error := None |} in
  let overloaded := {| error := Some "Model overloaded" |} in
  verbatim Samples.serverError silent = "Internal Server Error" ∧
  detail silent = Some "Lỗi khi render: Server error: 500" ∧
  planning silent = Some "Lỗi render: Planning render failed" ∧
  verbatim Samples.serverError overloaded = "Model overloaded" ∧
  detail overloaded = Some "Lỗi khi render: Model overloaded" ∧
  planning overloaded = Some "Lỗi render: Model overloaded" ∧
  detail silent ≠ Some (verbatim Samples.serverError silent) ∧
  planning silent ≠ Some (verbatim Samples.serverError silent) ∧
  detail overloaded ≠ Some (verbatim Samples.serverError overloaded) ∧
  planning overloaded ≠ Some (verbatim Samples.serverError overloaded).
Proof. by vm_compute. Qed.

(** C5, as the code has it. For a response that is not [ok], the error
    element shows the prefix of the page followed by the [error] of the body
    when that is a string that is not empty, and otherwise by a fallback of
    the page: "Server error: " and the status code on the detail page,
    "Planning render failed" on the planning page; when the body cannot be
    read, by the message of that failure. The status text plays no part. *)
Theorem http_error_message :
  (∀ (w : Detail.World) i response r,
     tasks w !! i = Some (Detail.AwaitErrorJson response) →
     Detail.reportable (page w) →
     let reason :=
       match r with
       | Fulfilled errorData =>
           Js.or_else (default "" (error errorData))
             ("Server error: " +:+ pretty (status response))
       | Rejected e => Js.message e
       end in
     ∃ el, Detail.dom (page (Detail.step w (Detail.ErrorJsonSettles i r))) !! "renderError"
           = Some el ∧ shows ("Lỗi khi render: " +:+ reason) el) ∧
  (∀ optimizer (w : Planning.World) i response r,
     tasks w !! i = Some (Planning.AwaitErrorJson response) →
     Planning.reportable (page w) →
     let reason :=
       match r with
       | Fulfilled errorData =>
           Js.or_else (default "" (error errorData)) "Planning render failed"
       | Rejected e => Js.message e
       end in
     ∃ el, Planning.dom (page (Planning.step optimizer w (Planning.ErrorJsonSettles i r)))
             !! "planningError" = Some el ∧ shows ("Lỗi render: " +:+ reason) el).
Proof.
  split.
  - intros w i response [errorData|e] Hi Hok reason.
    + destruct (detail_resume_failure w i _ _ _ Hi
                  (Detail.ErrorResponse response errorData) Hok) as (_ & _ & _ & H & _).
      exact H.
    + destruct (detail_resume_failure w i _ _ _ Hi
                  (Detail.ErrorBodyRejected response e) Hok) as (_ & _ & _ & H & _).
      exact H.
  - intros optimizer w i response [errorData|e] Hi Hok reason.
    + destruct (planning_resume_failure optimizer w i _ _ _ Hi
                  (Planning.ErrorResponse response errorData) Hok)
        as (_ & _ & _ & _ & H & _).
      exact H.
    + destruct (planning_resume_failure optimizer w i _ _ _ Hi
                  (Planning.ErrorBodyRejected response e) Hok)
        as (_ & _ & _ & _ & H & _).
      exact H.
Qed.

Lemma http_error_message_witness :
  let w := Samples.detailRefused in
  tasks w !! 0 = Some (Detail.AwaitErrorJson Samples.serverError) ∧
  ∃ el, Detail.dom (page (Detail.step w
            (Detail.ErrorJsonSettles 0 (Fulfilled {| error := Some "Model overloaded" |}))))
          !! "renderError" = Some el ∧
        shows "Lỗi khi render: Model overloaded" el.
Proof.
  intros w. split; [by vm_compute|].
  destruct http_error_message as [Hdetail _].
  apply (Hdetail w 0 Samples.serverError (Fulfilled {| error := Some "Model overloaded" |})).
  - by vm_compute.
  - split_and!; eexists; by vm_compute.
Defined.

(** ** The rendered image *)

(** Reads an element below writes to the document. *)
Ltac lookup_goal :=
  repeat first
    [ rewrite lookup_insert_eq
    | rewrite lookup_insert_ne by done
    | rewrite lookup_alter_ne by done
    | rewrite lookup_alter_eq ].

Ltac lookup_hyps :=
  repeat match goal with
  | H : context [<[_ := _]> _ !! _] |- _ =>
      first [rewrite lookup_insert_eq in H | rewrite lookup_insert_ne in H by done]
  | H : context [alter _ _ _ !! _] |- _ =>
      first [rewrite lookup_alter_eq in H | rewrite lookup_alter_ne in H by done]
  end.

Lemma detail_image (w : Detail.World) i data elapsedTime image gallery :
  tasks w !! i = Some Detail.AwaitJson →
  generated_image_base64 data = Some image →
  Detail.dom (page w) !! "gallery" = Some gallery →
  let w' := Detail.step w (Detail.JsonSettles i (Fulfilled data) elapsedTime) in
  Detail.currentRenderedImage (page w') = Some image ∧
  ∃ el img, Detail.dom (page w') !! "gallery" = Some el ∧
            children el = [ImgNode img] ∧ img_src img = Literal image.
Proof.
  intros Hi Himage Hgallery. simpl. unfold resume. rewrite Hi. simpl.
  cbv beta iota zeta delta
    [Detail.afterJson Detail.displayRenderedImage Detail.showSuccess
     mbind Eff_bind bind gets ret read Detail.showError Detail.showSpinner
     whenPresent modify write Detail.inTry protect try_finally Detail.catchRender
     Detail.finallyRender mret Eff_ret throw document set_document
     Detail.Page_document].
  simpl. rewrite Hgallery, Himage. simpl. rewrite lookup_insert_eq. simpl.
  repeat (case_match; simplify_eq/=).
  all: split; [done|].
  all: eexists _, _; split_and!; [lookup_goal; try rewrite Hgallery; reflexivity | done ..].
Qed.

Lemma planning_image optimizer (w : Planning.World) i result image gallery :
  tasks w !! i = Some Planning.AwaitJson →
  generated_image_base64 result = Some image →
  Planning.dom (page w) !! "planningGallery" = Some gallery →
  let w' := Planning.step optimizer w (Planning.JsonSettles i (Fulfilled result)) in
  ∃ el img, Planning.dom (page w') !! "planningGallery" = Some el ∧
            children el = [ImgNode img] ∧
            img_src img = Literal ("data:" +:+ Js.interpolate (mime_type result)
                                   +:+ ";base64," +:+ image).
Proof.
  intros Hi Himage Hgallery. simpl. unfold resume. rewrite Hi. simpl.
  cbv beta iota zeta delta
    [Planning.afterJson Planning.displayPlanningRender Planning.showSuccess
     getElementById mbind Eff_bind bind gets ret read Planning.showError
     whenPresent modify write Planning.inTry protect try_finally Planning.catchRender
     Planning.finallyRender mret Eff_ret throw document set_document
     Planning.Page_document].
  simpl. rewrite Hgallery, Himage. simpl.
  repeat (case_match; simplify_eq/=).
  all: eexists _, _; split_and!;
    [lookup_goal; try rewrite Hgallery; reflexivity | done ..].
Qed.

(** C7. When the body of an [ok] response carries [generated_image_base64],
    the gallery of the page then holds one node, an image: on the detail page
    its [src] is the string as it came, which is also kept in
    [currentRenderedImage]; on the planning page its [src] is the data URL
    made of the [mime_type] and the string. What the gallery held before is
    gone. *)
Theorem render_displays_image :
  (∀ (w : Detail.World) i data elapsedTime image gallery,
     tasks w !! i = Some Detail.AwaitJson →
     generated_image_base64 data = Some image →
     Detail.dom (page w) !! "gallery" = Some gallery →
     let w' := Detail.step w (Detail.JsonSettles i (Fulfilled data) elapsedTime) in
     Detail.currentRenderedImage (page w') = Some image ∧
     ∃ el img, Detail.dom (page w') !! "gallery" = Some el ∧
               children el = [ImgNode img] ∧ img_src img = Literal image) ∧
  (∀ optimizer (w : Planning.World) i result image gallery,
     tasks w !! i = Some Planning.AwaitJson →
     generated_image_base64 result = Some image →
     Planning.dom (page w) !! "planningGallery" = Some gallery →
     let w' := Planning.step optimizer w (Planning.JsonSettles i (Fulfilled result)) in
     ∃ el img, Planning.dom (page w') !! "planningGallery" = Some el ∧
               children el = [ImgNode img] ∧
               img_src img = Literal ("data:" +:+ Js.interpolate (mime_type result)
                                      +:+ ";base64," +:+ image)).
Proof. split; [apply detail_image | apply planning_image]. Qed.

Lemma render_displays_image_witness :
  let w := Samples.detailAnswered in
  let data := {| generated_image_base64 := Some "data:image/png;base64,iVBORw0KGgo=";
                 mime_type := None |} in
  tasks w !! 0 = Some Detail.AwaitJson ∧
  ∃ el img,
    Detail.dom (page (Detail.step w (Detail.JsonSettles 0 (Fulfilled data) "12.3")))
      !! "gallery" = Some el ∧
    children el = [ImgNode img] ∧
    img_src img = Literal "data:image/png;base64,iVBORw0KGgo=".
Proof.
  intros w data. split; [by vm_compute|].
  destruct render_displays_image as [Hdetail _].
  destruct (Hdetail w 0 data "12.3" "data:image/png;base64,iVBORw0KGgo=" blank)
    as [_ H]; [by vm_compute .. | exact H].
Defined.

(** ** Submits with a missing input *)

Lemma blank_submit_while_rendering :
  let w := Samples.detailBusy in
  let w' := Detail.step w Detail.ClickRegenerate in
  Detail.blankDescriptions (page w) = true ∧
  Detail.isRendering (page w) = true ∧
  tasks w' = tasks w ∧
  Detail.network (page w') = Detail.network (page w) ∧
  Samples.detailError w' = Some "" ∧
  (hidden <$> Detail.dom (page w') !! "renderError") = Some true.
Proof. by vm_compute. Qed.

Lemma blank_lookup p id :
  Detail.blank p id = true →
  ∃ el, Detail.dom p !! id = Some el ∧ Js.truthy (Js.trim (value el)) = false.
Proof.
  unfold Detail.blank. destruct (Detail.dom p !! id) as [el|]; [|done].
  intros ?%negb_true_iff. eauto.
Qed.

Lemma detail_validation (w : Detail.World) err :
  Detail.dom (page w) !! "renderError" = Some err →
  let w' := dispatch Detail.generateRender w in
  (Detail.currentSketchImage (page w) = None →
     tasks w' = tasks w ∧ Detail.network (page w') = Detail.network (page w) ∧
     ∃ el, Detail.dom (page w') !! "renderError" = Some el ∧
           shows "Vui lòng upload sketch trước!" el) ∧
  (Detail.blankDescriptions (page w) = true →
     tasks w' = tasks w ∧ Detail.network (page w') = Detail.network (page w) ∧
     (is_Some (Detail.currentSketchImage (page w)) → Detail.isRendering (page w) = false →
      ∃ el, Detail.dom (page w') !! "renderError" = Some el ∧
            shows "Vui lòng điền thông tin (nhấn Analyze hoặc điền thủ công)!" el)).
Proof.
  intros Herr. unfold dispatch. split.
  - intros Hnone.
    cbv beta iota zeta delta
      [Detail.generateRender mbind Eff_bind bind gets Detail.showError whenPresent modify
       mret Eff_ret ret document set_document Detail.Page_document].
    rewrite Hnone. simpl. split_and!; try done.
    eexists. split; [by rewrite lookup_alter_eq, Herr|].
    split; [done | apply hidden_remove].
  - intros (((Hc & Ho)%andb_prop & Hn)%andb_prop & Hf)%andb_prop.
    apply blank_lookup in Hc as (c & Hc & Hc'), Ho as (o & Ho & Ho'),
      Hn as (n & Hn & Hn'), Hf as (f & Hf & Hf').
    cbv beta iota zeta delta
      [Detail.generateRender mbind Eff_bind bind gets Detail.trimmedValue fmap Eff_fmap
       read Detail.showError whenPresent modify
       mret Eff_ret ret document set_document Detail.Page_document].
    destruct (Detail.currentSketchImage (page w)) as [sketch|]; simpl.
    + destruct (Detail.isRendering (page w)); simpl.
      * by split_and!.
      * rewrite Hc, Ho, Hn. simpl. rewrite Hc', Ho', Hn'. simpl. rewrite Hf. simpl.
        rewrite Hf'. simpl. split_and!; try done. intros _ _.
        eexists. split; [by rewrite lookup_alter_eq, Herr|].
        split; [done | apply hidden_remove].
    + split_and!; done.
Qed.

Lemma readonly_collectLotDescriptions : readonly Planning.collectLotDescriptions.
Proof.
  intros p. unfold Planning.collectLotDescriptions, getElementById, mbind, Eff_bind, bind,
    gets. simpl. by destruct (Planning.dom p !! "lotCardsContainer").
Qed.

Lemma planning_validation (w : Planning.World) err :
  Planning.dom (page w) !! "planningError" = Some err →
  let w' := dispatch Planning.generatePlanningRender w in
  (Planning.currentSitePlanImage (page w) = None ∨
   Planning.currentLotMapImage (page w) = None →
     tasks w' = tasks w ∧ Planning.network (page w') = Planning.network (page w) ∧
     ∃ el, Planning.dom (page w') !! "planningError" = Some el ∧
           shows "Vui lòng upload Site Plan và Lot Map!" el) ∧
  (is_Some (Planning.currentSitePlanImage (page w)) →
   is_Some (Planning.currentLotMapImage (page w)) →
   (Planning.collectLotDescriptions (page w)).1 = Normal [] →
     tasks w' = tasks w ∧ Planning.network (page w') = Planning.network (page w) ∧
     ∃ el, Planning.dom (page w') !! "planningError" = Some el ∧
           shows "Vui lòng thêm ít nhất một mô tả lô!" el).
Proof.
  intros Herr. unfold dispatch.
  assert (∀ msg, ∃ el,
            alter (λ errorDiv, classList_remove "hidden" (set_textContent msg errorDiv))
              "planningError" (Planning.dom (page w)) !! "planningError" = Some el ∧
            shows msg el) as Hshown.
  { intros msg. eexists. split; [by rewrite lookup_alter_eq, Herr|].
    split; [done | apply hidden_remove]. }
  split.
  - intros Hnone.
    cbv beta iota zeta delta
      [Planning.generatePlanningRender mbind Eff_bind bind gets Planning.showError
       whenPresent modify mret Eff_ret ret document set_document Planning.Page_document].
    destruct Hnone as [-> | ->]; simpl; [|rewrite orb_true_r];
      (split_and!; [done | done | apply Hshown]).
  - intros [site Hsite] [lot Hlot] Hlots.
    destruct (Planning.collectLotDescriptions (page w)) as [r p1] eqn:Hc.
    simpl in Hlots. subst r.
    apply (readonly_state _ _ _ _ readonly_collectLotDescriptions) in Hc as Hp. subst p1.
    cbv beta iota zeta delta
      [Planning.generatePlanningRender mbind Eff_bind bind gets Planning.showError
       whenPresent modify mret Eff_ret ret document set_document Planning.Page_document].
    rewrite Hsite, Hlot. simpl. rewrite Hc. simpl.
    split_and!; [done | done | apply Hshown].
Qed.

(** C3, as the code has it. A submit with a required input missing sends
    nothing and suspends nothing. It displays a validation error: always on
    the planning page (no site plan or no lot map; no lot description), and
    on the detail page when no sketch is uploaded; the detail page looks at
    the descriptions after the in-flight flag, and displays the error for
    them when no render is in flight. *)
Theorem missing_input_blocks_submit :
  (∀ (w : Detail.World) err,
     Detail.dom (page w) !! "renderError" = Some err →
     let w' := dispatch Detail.generateRender w in
     (Detail.currentSketchImage (page w) = None →
        tasks w' = tasks w ∧ Detail.network (page w') = Detail.network (page w) ∧
        ∃ el, Detail.dom (page w') !! "renderError" = Some el ∧
              shows "Vui lòng upload sketch trước!" el) ∧
     (Detail.blankDescriptions (page w) = true →
        tasks w' = tasks w ∧ Detail.network (page w') = Detail.network (page w) ∧
        (is_Some (Detail.currentSketchImage (page w)) →
         Detail.isRendering (page w) = false →
         ∃ el, Detail.dom (page w') !! "renderError" = Some el ∧
               shows "Vui lòng điền thông tin (nhấn Analyze hoặc điền thủ công)!" el))) ∧
  (∀ (w : Planning.World) err,
     Planning.dom (page w) !! "planningError" = Some err →
     let w' := dispatch Planning.generatePlanningRender w in
     (Planning.currentSitePlanImage (page w) = None ∨
      Planning.currentLotMapImage (page w) = None →
        tasks w' = tasks w ∧ Planning.network (page w') = Planning.network (page w) ∧
        ∃ el, Planning.dom (page w') !! "planningError" = Some el ∧
              shows "Vui lòng upload Site Plan và Lot Map!" el) ∧
     (is_Some (Planning.currentSitePlanImage (page w)) →
      is_Some (Planning.currentLotMapImage (page w)) →
      (Planning.collectLotDescriptions (page w)).1 = Normal [] →
        tasks w' = tasks w ∧ Planning.network (page w') = Planning.network (page w) ∧
        ∃ el, Planning.dom (page w') !! "planningError" = Some el ∧
              shows "Vui lòng thêm ít nhất một mô tả lô!" el)).
Proof. split; [apply detail_validation | apply planning_validation]. Qed.

Lemma missing_input_blocks_submit_witness :
  let w := Detail.init (Samples.detailDocument "" "Khu đô thị ven sông") in
  let w' := dispatch Detail.generateRender w in
  Detail.currentSketchImage (page w) = None ∧
  tasks w' = tasks w ∧ Detail.network (page w') = Detail.network (page w) ∧
  ∃ el, Detail.dom (page w') !! "renderError" = Some el ∧
        shows "Vui lòng upload sketch trước!" el.
Proof.
  intros w w'. split; [done|].
  destruct missing_input_blocks_submit as [Hdetail _].
  destruct (Hdetail w Samples.invisible) as [Hsketch _]; [by vm_compute|].
  by apply Hsketch.
Defined.

(** ** Trimmed strings *)

Lemma append_cons a s1 s2 : String a s1 +:+ s2 = String a (s1 +:+ s2).
Proof. reflexivity. Qed.

Lemma append_empty_r s : s +:+ "" = s.
Proof. induction s as [|a s IH]; [done | by rewrite append_cons, IH]. Qed.

Lemma append_assoc s1 s2 s3 : (s1 +:+ s2) +:+ s3 = s1 +:+ (s2 +:+ s3).
Proof. induction s1 as [|a s1 IH]; [done | by rewrite !append_cons, IH]. Qed.

Lemma append_length s1 s2 :
  String.length (s1 +:+ s2) = String.length s1 + String.length s2.
Proof. induction s1 as [|a s1 IH]; [done | rewrite append_cons; simpl; by rewrite IH]. Qed.

Lemma rev_app_append_r s1 s2 s3 :
  String.rev_app s1 s2 +:+ s3 = String.rev_app s1 (s2 +:+ s3).
Proof.
  revert s2. induction s1 as [|a s1 IH]; intros s2; simpl; [done|].
  by rewrite IH, append_cons.
Qed.

Lemma rev_app_rev_app s1 s2 s3 :
  String.rev_app (String.rev_app s1 s2) s3 = String.rev_app s2 (s1 +:+ s3).
Proof.
  revert s2 s3. induction s1 as [|a s1 IH]; intros s2 s3; simpl; [done|].
  by rewrite IH, append_cons.
Qed.

Lemma rev_app_append_l s1 s2 s3 :
  String.rev_app (s1 +:+ s2) s3 = String.rev_app s2 (String.rev_app s1 s3).
Proof.
  revert s3. induction s1 as [|a s1 IH]; intros s3; [done|].
  rewrite append_cons. simpl. by rewrite IH.
Qed.

Lemma rev_rev s : String.rev (String.rev s) = s.
Proof. unfold String.rev. rewrite rev_app_rev_app. apply append_empty_r. Qed.

Lemma rev_append s1 s2 : String.rev (s1 +:+ s2) = String.rev s2 +:+ String.rev s1.
Proof. unfold String.rev. by rewrite rev_app_append_l, rev_app_append_r. Qed.

Section Strip.
Context (w2 : ascii → ascii → bool) (w3 : ascii → ascii → ascii → bool).

Abbreviation dirty := (Js.dirty w2 w3).

(** One step of [strip]: it is done, or it goes on with less. *)
Lemma strip_step s :
  (dirty s = false ∧ Js.strip w2 w3 s = s) ∨
  (∃ pre s', s = pre +:+ s' ∧ String.length s' < String.length s ∧ dirty s = true ∧
             Js.strip w2 w3 s = Js.strip w2 w3 s').
Proof.
  destruct s as [|a s1]; [by left|]. simpl. destruct (Js.ws1 a) eqn:H1.
  { right. exists (String a ""), s1. simpl. split_and!; [done | lia | done | done]. }
  destruct s1 as [|b s2]; [by left|]. simpl. destruct (w2 a b) eqn:H2.
  { right. exists (String a (String b "")), s2. simpl. split_and!; [done | lia | done | done]. }
  destruct s2 as [|c s3]; [by left|]. destruct (w3 a b c) eqn:H3; [|by left].
  right. exists (String a (String b (String c ""))), s3. simpl.
  split_and!; [done | lia | done | done].
Qed.

Lemma strip_suffix s : ∃ pre, s = pre +:+ Js.strip w2 w3 s.
Proof.
  induction s as [s IH] using (induction_ltof1 _ String.length). unfold ltof in IH.
  destruct (strip_step s) as [[_ ->]|(pre & s' & -> & Hlt & _ & ->)]; [by exists ""|].
  destruct (IH s' Hlt) as [pre' Hpre']. exists (pre +:+ pre').
  by rewrite append_assoc, <- Hpre'.
Qed.

Lemma strip_clean s : dirty (Js.strip w2 w3 s) = false.
Proof.
  induction s as [s IH] using (induction_ltof1 _ String.length). unfold ltof in IH.
  destruct (strip_step s) as [[? ->]|(pre & s' & -> & Hlt & _ & ->)]; [done|].
  by apply IH.
Qed.

Lemma clean_strip s : dirty s = false → Js.strip w2 w3 s = s.
Proof. destruct (strip_step s) as [[_ ?]|(? & ? & _ & _ & ? & _)]; [done | congruence]. Qed.

Lemma clean_prefix u v : dirty (u +:+ v) = false → dirty u = false.
Proof.
  destruct u as [|a [|b [|c u]]]; rewrite ?append_cons; simpl; [done|..];
    destruct (Js.ws1 a); try done; simpl; destruct v as [|b' v]; simpl; try done;
    try (destruct (w2 a b); done); destruct (w2 a b'); done.
Qed.
End Strip.

Lemma trimEnd_prefix s : ∃ v, s = Js.trimEnd s +:+ v.
Proof.
  unfold Js.trimEnd.
  destruct (strip_suffix (λ a b, Js.ws2 b a) (λ a b c, Js.ws3 c b a) (String.rev s))
    as [pre Hpre].
  exists (String.rev pre). rewrite <- rev_append, <- Hpre. by rewrite rev_rev.
Qed.

(** Trimming what is trimmed changes nothing. *)
Lemma trim_trim s : Js.trim (Js.trim s) = Js.trim s.
Proof.
  unfold Js.trim. set (t := Js.trimStart s).
  assert (Js.trimStart (Js.trimEnd t) = Js.trimEnd t) as ->.
  { destruct (trimEnd_prefix t) as [v Hv]. apply clean_strip, (clean_prefix _ _ _ v).
    rewrite <- Hv. apply strip_clean. }
  unfold Js.trimEnd. rewrite rev_rev. f_equal. apply clean_strip, strip_clean.
Qed.

(** ** The lots of a planning request *)

Lemma truthy_true s : Js.truthy s = true ↔ s ≠ "".
Proof. by destruct s. Qed.

Lemma foldl_lots (acc : list Planning.Lot) cards :
  foldl
    (λ lots card,
       let lotNumber := match numberInput card with Some v => Js.trim v | None => "" end in
       let description_ :=
         match descriptionInput card with Some v => Js.trim v | None => "" end in
       if Js.truthy lotNumber && Js.truthy description_
       then Js.push lots {| Planning.lot_number := lotNumber;
                            Planning.description := description_ |}
       else lots)
    acc cards
  = (acc ++ omap Planning.lotOf cards)%list.
Proof.
  revert acc. induction cards as [|card cards IH]; intros acc; simpl.
  - by rewrite app_nil_r.
  - rewrite IH. unfold Planning.lotOf. simpl.
    destruct (Js.truthy _ && Js.truthy _); [|done].
    unfold Js.push. by rewrite <- app_assoc.
Qed.

(** [collectLotDescriptions] keeps the lots of the cards that have both. *)
Lemma collectLotDescriptions_lots p :
  Planning.collectLotDescriptions p
  = (Normal (from_option (λ c, omap Planning.lotOf (Planning.lotCards c)) []
               (Planning.dom p !! "lotCardsContainer")), p).
Proof.
  unfold Planning.collectLotDescriptions, getElementById, mbind, Eff_bind, bind, gets.
  simpl. destruct (Planning.dom p !! "lotCardsContainer") as [c|]; [|done].
  simpl. by rewrite foldl_lots.
Qed.

Lemma lotOf_None card :
  Planning.lotOf card = None ↔
  from_option Js.trim "" (numberInput card) = "" ∨
  from_option Js.trim "" (descriptionInput card) = "".
Proof.
  unfold Planning.lotOf.
  destruct (numberInput card) as [n|], (descriptionInput card) as [d|]; simpl;
    try (destruct (Js.trim n)); try (destruct (Js.trim d)); simpl;
    split; intros; try done; intuition discriminate.
Qed.

Lemma lotOf_Some card lot :
  Planning.lotOf card = Some lot →
  Planning.lot_number lot = from_option Js.trim "" (numberInput card) ∧
  Planning.description lot = from_option Js.trim "" (descriptionInput card) ∧
  Planning.described lot.
Proof.
  unfold Planning.lotOf, Planning.described.
  destruct (numberInput card) as [n|], (descriptionInput card) as [d|]; simpl;
    try done; try (by rewrite andb_false_r).
  destruct (Js.truthy (Js.trim n)) eqn:Hn, (Js.truthy (Js.trim d)) eqn:Hd; try done.
  apply truthy_true in Hn, Hd. intros [= <-]. simpl.
  by rewrite !trim_trim.
Qed.

Lemma submits_described p req :
  Planning.submits p req →
  Planning.lot_descriptions (Planning.body req) ≠ [] ∧
  Forall Planning.described (Planning.lot_descriptions (Planning.body req)).
Proof.
  intros (_ & _ & Hne & Hlots). split; [done|].
  rewrite collectLotDescriptions_lots in Hlots. simpl in Hlots.
  injection Hlots as Hlots. rewrite <- Hlots.
  destruct (Planning.dom p !! "lotCardsContainer") as [c|]; simpl; [|done].
  apply Forall_forall. intros lot (card & _ & Hlot)%list_elem_of_omap.
  by apply lotOf_Some in Hlot as (_ & _ & ?).
Qed.

Lemma network_described optimizer w events :
  Forall (λ req, ∃ p, Planning.submits p req) (Planning.network (page w)) →
  Forall (λ req, ∃ p, Planning.submits p req)
    (Planning.network (page (Planning.run optimizer w events))).
Proof.
  revert w. induction events as [|e events IH]; intros w Hw; [done|].
  simpl. apply IH.
  destruct (effect_good _ _ _ _ _ _ _ (PlanningRender.planning_step_effect optimizer w e))
    as [-> | (req & -> & Hreq)]; [done|].
  apply Forall_app. split; [done|]. apply Forall_singleton. eauto.
Qed.

(** C10. Every request the planning page has sent carries at least one lot,
    and each lot in it has a number and a description that are trimmed and not
    empty: [collectLotDescriptions] returns the lots of the cards that have
    both and drops the other cards, and [generatePlanningRender] sends
    nothing when no lot is left. *)
Theorem lot_descriptions_described :
  (∀ optimizer d events req,
     req ∈ Planning.network (page (Planning.run optimizer (Planning.init d) events)) →
     Planning.lot_descriptions (Planning.body req) ≠ [] ∧
     Forall Planning.described (Planning.lot_descriptions (Planning.body req))) ∧
  (∀ p, Planning.collectLotDescriptions p
        = (Normal (from_option (λ c, omap Planning.lotOf (Planning.lotCards c)) []
                     (Planning.dom p !! "lotCardsContainer")), p)) ∧
  (∀ card, Planning.lotOf card = None ↔
           from_option Js.trim "" (numberInput card) = "" ∨
           from_option Js.trim "" (descriptionInput card) = "") ∧
  (∀ card lot, Planning.lotOf card = Some lot →
               Planning.lot_number lot = from_option Js.trim "" (numberInput card) ∧
               Planning.description lot = from_option Js.trim "" (descriptionInput card)).
Proof.
  split_and!.
  - intros optimizer d events req Hreq.
    pose proof (network_described optimizer (Planning.init d) events (Forall_nil_2 _))
      as Hall.
    rewrite Forall_forall in Hall. destruct (Hall req Hreq) as [p Hp].
    by eapply submits_described.
  - apply collectLotDescriptions_lots.
  - apply lotOf_None.
  - intros card lot Hlot. by apply lotOf_Some in Hlot as (? & ? & _).
Qed.

(** ** The shared utilities *)

Module ValidationProps.
Import Validation.

(** X1. [validateImageFile] accepts a file exactly when there is one, its
    type is one of the four image types and its size is at most the limit
    in megabytes (of 1024 × 1024 bytes, the limit included); the result
    carries an error message exactly when the file is refused. *)
Theorem validateImageFile_accepts (file : option File) (maxSizeMB : option N) :
  let result := validateImageFile file maxSizeMB in
  (valid result = true ↔
     ∃ f, file = Some f ∧ type f ∈ validTypes
          ∧ (size f ≤ default 16 maxSizeMB * 1048576)%N)
  ∧ (error result = None ↔ valid result = true).
Proof.
  unfold validateImageFile. destruct file as [f|]; simpl.
  - destruct (decide (type f ∈ validTypes)) as [Hin|Hout].
    + rewrite bool_decide_eq_true_2 by done. simpl.
      destruct (N.ltb_spec (default 16 maxSizeMB * 1024 * 1024) (size f))%N; simpl.
      * split; [|done]. split; [done|]. intros (f' & [= <-] & _ & Hle). lia.
      * split; [|done]. split; [|done]. intros _. exists f. split_and!; [done..|lia].
    + rewrite bool_decide_eq_false_2 by done. simpl.
      split; [|done]. split; [done|]. by intros (f' & [= <-] & ? & _).
  - split; [|done]. split; [done|]. by intros (? & ? & _).
Qed.

(** X2. The type is checked before the size: a file of another type is
    refused with the message about the type whatever its size, and a file
    of an image type that is too large with a message that names the
    limit. *)
Theorem validateImageFile_message (f : File) (maxSizeMB : N) :
  (type f ∉ validTypes →
     error (validateImageFile (Some f) (Some maxSizeMB))
     = Some "Invalid file type. Please upload PNG, JPEG, or WebP image.")
  ∧ (type f ∈ validTypes → (maxSizeMB * 1048576 < size f)%N →
     error (validateImageFile (Some f) (Some maxSizeMB))
     = Some ("File too large. Maximum size is " +:+ pretty maxSizeMB +:+ "MB.")).
Proof.
  unfold validateImageFile. simpl. split.
  - intros Hout. by rewrite bool_decide_eq_false_2.
  - intros Hin Hlt. rewrite bool_decide_eq_true_2 by done. simpl.
    destruct (N.ltb_spec (maxSizeMB * 1024 * 1024) (size f))%N; [done|lia].
Qed.

Lemma validateImageFile_message_witness :
  error (validateImageFile (Some {| type := "image/gif"; size := 20000000 |}) (Some 2%N))
  = Some "Invalid file type. Please upload PNG, JPEG, or WebP image."
  ∧ error (validateImageFile (Some {| type := "image/png"; size := 2097153 |}) (Some 2%N))
    = Some "File too large. Maximum size is 2MB.".
Proof.
  split.
  - apply (validateImageFile_message {| type := "image/gif"; size := 20000000 |} 2).
    by apply (bool_decide_eq_false_1 _).
  - apply (validateImageFile_message {| type := "image/png"; size := 2097153 |} 2).
    + by apply (bool_decide_eq_true_1 _).
    + simpl. lia.
Defined.

End ValidationProps.

Module ButtonLoadingProps.
Import ButtonLoading.

(** X3. Showing and then hiding the loading state of a button that has a
    label gives the label back, enables the button and removes the saved
    label; a button with no label keeps the loading text. *)
Theorem loading_round_trip (b : Button) (loadingText : option string) :
  (textContent b ≠ "" →
     hideButtonLoading (showButtonLoading (Some b) loadingText)
     = Some {| disabled := false; textContent := textContent b; originalText := None |})
  ∧ (textContent b = "" →
     hideButtonLoading (showButtonLoading (Some b) loadingText)
     = Some {| disabled := false; textContent := default "Processing..." loadingText;
               originalText := Some "" |}).
Proof.
  unfold hideButtonLoading, showButtonLoading. simpl.
  destruct (textContent b) eqn:Htext; simpl; split; intros; done.
Qed.

Lemma loading_round_trip_witness :
  hideButtonLoading
    (showButtonLoading
       (Some {| disabled := true; textContent := "Save"; originalText := None |}) None)
  = Some {| disabled := false; textContent := "Save"; originalText := None |}.
Proof.
  apply (loading_round_trip {| disabled := true; textContent := "Save"; originalText := None |}).
  simpl. discriminate.
Defined.

(** X4. The loading state does not nest: a second [showButtonLoading]
    saves the first loading text over the label, so that hiding restores
    the first loading text, and hiding once more changes nothing. *)
Theorem loading_does_not_nest (b : Button) (first second : string) :
  first ≠ "" →
  let twice := showButtonLoading (showButtonLoading (Some b) (Some first)) (Some second) in
  hideButtonLoading twice
  = Some {| disabled := false; textContent := first; originalText := None |}
  ∧ hideButtonLoading (hideButtonLoading twice) = hideButtonLoading twice.
Proof.
  intros Hfirst. unfold hideButtonLoading, showButtonLoading. simpl.
  destruct first; [done|]. done.
Qed.

Lemma loading_does_not_nest_witness :
  hideButtonLoading
    (showButtonLoading
       (showButtonLoading
          (Some {| disabled := false; textContent := "Save"; originalText := None |})
          (Some "Saving..."))
       (Some "Still saving..."))
  = Some {| disabled := false; textContent := "Saving..."; originalText := None |}.
Proof.
  apply (loading_does_not_nest
           {| disabled := false; textContent := "Save"; originalText := None |}
           "Saving..." "Still saving...").
  discriminate.
Defined.

End ButtonLoadingProps.

Module ApiProps.
Import Api.

(** X5. For a response that is not [ok], the promise of [apiRequest]
    rejects with an [Error] whose message is the [error] of the body when
    that is a string that is not empty, and [HTTP <status>: <status text>]
    otherwise, also when the body cannot be parsed; the message is logged
    once. *)
Theorem apiRequest_not_ok {Data : Type} (response : Response)
    (errorData : Settled ErrorBody) (data : Settled Data) :
  ok response = false →
  let fallback := "HTTP " +:+ pretty (status response) +:+ ": " +:+ statusText response in
  let msg :=
    match errorData with
    | Fulfilled {| Browser.error := Some text |} => if Js.truthy text then text else fallback
    | _ => fallback
    end in
  apiRequest (Responds response errorData data)
  = (Rejected (Js.mkError msg), ["❌ API Error: " +:+ msg]).
Proof.
  intros Hok. unfold apiRequest. rewrite Hok. simpl.
  destruct errorData as [[[text|]]|e]; simpl; try done.
Qed.

Lemma apiRequest_not_ok_witness :
  apiRequest (Data := unit)
    (Responds Samples.serverError (Rejected (Js.mkError "Unexpected token <"))
       (Rejected (Js.mkError "Unexpected token <")))
  = (Rejected (Js.mkError "HTTP 500: Internal Server Error"),
     ["❌ API Error: HTTP 500: Internal Server Error"]).
Proof.
  apply (apiRequest_not_ok (Data := unit) Samples.serverError
           (Rejected (Js.mkError "Unexpected token <"))
           (Rejected (Js.mkError "Unexpected token <"))).
  reflexivity.
Defined.

(** X6. The promise of [apiRequest] is fulfilled exactly when the response
    is [ok] and its body parses, and then with the parsed body; nothing is
    logged exactly in that case. *)
Theorem apiRequest_fulfilled {Data : Type} (exchange : Exchange Data) (d : Data) :
  ((apiRequest exchange).1 = Fulfilled d ↔
     ∃ response errorData,
       exchange = Responds response errorData (Fulfilled d) ∧ ok response = true)
  ∧ ((apiRequest exchange).2 = [] ↔ ∃ d', (apiRequest exchange).1 = Fulfilled d').
Proof.
  unfold apiRequest. destruct exchange as [e|response errorData [d'|e]]; simpl.
  - split; split; try done; [by intros (? & ? & ? & _)|by intros [? ?]].
  - destruct (ok response) eqn:Hok; simpl.
    + split; split; eauto.
      * intros [= ->]. eauto.
      * by intros (? & ? & [= <- <- <-] & _).
    + split; split; try done; [|by intros [? ?]].
      intros (? & ? & [= <- <- <-] & ?). congruence.
  - destruct (ok response) eqn:Hok; simpl.
    + split; split; try done; [by intros (? & ? & ? & _)|by intros [? ?]].
    + split; split; try done; [by intros (? & ? & ? & _)|by intros [? ?]].
Qed.

(** X7. [apiRequest] sends the request to port 5001 of the local host when
    the page is served from [localhost] or [127.0.0.1] and to the path
    itself otherwise; it passes the caller's method, body and headers on,
    and adds a JSON content type only when the caller gives none. *)
Theorem request_passes_options (hostname endpoint : string) (options : Options) :
  let r := request hostname endpoint options in
  r.1 = (if bool_decide (hostname = "localhost" ∨ hostname = "127.0.0.1")
         then "http://localhost:5001" +:+ endpoint else endpoint)
  ∧ method r.2 = method options ∧ body r.2 = body options
  ∧ (∀ k, headers r.2 !! k =
          match headers options !! k with
          | Some v => Some v
          | None => if bool_decide (k = "Content-Type") then Some "application/json" else None
          end).
Proof.
  unfold request, getApiBaseUrl. simpl. split_and!; try done.
  - destruct (String.eqb_spec hostname "localhost") as [->|H1]; simpl; [done|].
    destruct (String.eqb_spec hostname "127.0.0.1") as [->|H2]; simpl; [done|].
    rewrite bool_decide_eq_false_2; [done|]. by intros [?|?].
  - intros k. rewrite lookup_union.
    destruct (headers options !! k) as [v|] eqn:Hk; simpl.
    + by destruct ({[_ := _]} !! k).
    + destruct (decide (k = "Content-Type")) as [->|Hne].
      * by rewrite lookup_singleton_eq.
      * rewrite lookup_singleton_ne by done. by rewrite bool_decide_eq_false_2.
Qed.

End ApiProps.

Module DownloadProps.
Import Download.

Lemma includes_append c s1 s2 :
  includes c (s1 +:+ s2) = includes c s1 || includes c s2.
Proof.
  unfold includes. induction s1 as [|a s1 IH]; simpl; [done|].
  by rewrite IH, orb_assoc.
Qed.

Lemma split_without c s : includes c s = false → split c s = [s].
Proof.
  unfold includes. induction s as [|a s IH]; simpl; [done|].
  intros [Ha Hs]%orb_false_elim. rewrite Ascii.eqb_sym, Ha. by rewrite IH.
Qed.

Lemma split_at c s1 s2 :
  includes c s1 = false → split c (s1 +:+ String c s2) = s1 :: split c s2.
Proof.
  unfold includes. induction s1 as [|a s1 IH]; simpl.
  - intros _. by rewrite Ascii.eqb_refl.
  - intros [Ha Hs]%orb_false_elim. rewrite Ascii.eqb_sym, Ha. by rewrite IH.
Qed.

(** X8. For a data URL, that is a prefix and a payload without commas
    joined by a comma, [downloadBase64Image] saves the bytes the payload
    decodes to, as a PNG under the file name given ([image.png] when none
    is), and when the payload is not base64 it saves nothing, logs the
    failure and throws the exception of [atob] again. *)
Theorem downloadBase64Image_data_url (prefix payload : string)
    (name : option string) (o : Outside) :
  includes comma prefix = false → includes comma payload = false →
  downloadBase64Image (prefix +:+ "," +:+ payload) name o
  = match Base64.atob payload with
    | Normal decoded =>
        (Normal tt,
         {| saved := Js.push (saved o)
                       {| filename := default "image.png" name; mime := "image/png";
                          content := decoded |};
            console := console o |})
    | Throw e =>
        (Throw e,
         {| saved := saved o;
            console := Js.push (console o) ("❌ Download failed: " +:+ Js.message e) |})
    end.
Proof.
  intros Hprefix Hpayload. unfold downloadBase64Image.
  change ("," +:+ payload) with (String comma payload).
  assert (includes comma (prefix +:+ String comma payload) = true) as ->.
  { by rewrite includes_append, Hprefix. }
  rewrite split_at, split_without by done. simpl.
  unfold try_catch, mbind, Eff_bind, bind, modify, throw. simpl.
  by destruct (Base64.atob payload).
Qed.

Lemma downloadBase64Image_data_url_witness :
  downloadBase64Image "data:image/png;base64,iVBORw0KGgo=" (Some "render.png")
    {| saved := []; console := [] |}
  = (Normal tt,
     {| saved := [{| filename := "render.png"; mime := "image/png";
                     content := [137; 80; 78; 71; 13; 10; 26; 10]%N |}];
        console := [] |}).
Proof.
  apply (downloadBase64Image_data_url "data:image/png;base64" "iVBORw0KGgo="
           (Some "render.png") {| saved := []; console := [] |});
    reflexivity.
Defined.

End DownloadProps.

Module DownscaleProps.
Import JsMath.

Lemma round_mul_frac (n : N) (a : Z) (b : positive) :
  round_mul n (Finite (a # b))
  = Z.to_N ((2 * Z.of_N n * a + Z.pos b) / (2 * Z.pos b)).
Proof.
  unfold round_mul, round, Qfloor, Qplus, Qmult, inject_Z. simpl Qnum. simpl Qden.
  f_equal. rewrite Pos2Z.inj_mul. f_equal; lia.
Qed.

Lemma min_frac (a b : positive) :
  min (div 1024 (Npos a)) (div 1024 (Npos b))
  = Finite (1024 # (if (b <=? a)%positive then a else b)).
Proof.
  unfold min, div, Qmin, GenericMinMax.gmin, Qcompare. simpl.
  destruct (Pos.leb_spec b a) as [Hle|Hlt];
    destruct (Pos.compare_spec (1024 * b) (1024 * a)); try done; lia.
Qed.

(** The longer side [l] goes to [1024] and the other side [s] to the
    nearest integer to [1024 * s / l]. *)
Lemma round_mul_longer (l : positive) :
  round_mul (Npos l) (Finite (1024 # l)) = 1024%N.
Proof.
  rewrite round_mul_frac.
  replace ((2 * Z.of_N (N.pos l) * 1024 + Z.pos l) / (2 * Z.pos l))%Z with 1024%Z; [done|].
  apply Z.div_unique with (r := Z.pos l); lia.
Qed.

Lemma round_mul_shorter (s : N) (l : positive) :
  let s' := round_mul s (Finite (1024 # l)) in
  (2 * Z.of_N s' * Z.pos l - Z.pos l ≤ 2048 * Z.of_N s < 2 * Z.of_N s' * Z.pos l + Z.pos l)%Z.
Proof.
  cbv zeta. rewrite round_mul_frac.
  pose proof (Z.div_mod (2 * Z.of_N s * 1024 + Z.pos l) (2 * Z.pos l) ltac:(lia)) as Hdm.
  pose proof (Z.mod_pos_bound (2 * Z.of_N s * 1024 + Z.pos l) (2 * Z.pos l) ltac:(lia)) as Hb.
  assert (0 ≤ (2 * Z.of_N s * 1024 + Z.pos l) / (2 * Z.pos l))%Z
    by (apply Z.div_pos; lia).
  rewrite Z2N.id by done. nia.
Qed.

(** The canvas of an image with a side over [1024]: the longer side goes to
    [1024], the shorter one to the nearest integer, a half going up. *)
Lemma canvasSize_large (w h : N) :
  (1024 < N.max w h)%N →
  let '(w', h') := canvasSize 1024 w h in
  let nearest (s s' l : N) :=
    (2 * Z.of_N s' * Z.of_N l - Z.of_N l ≤ 2048 * Z.of_N s
     < 2 * Z.of_N s' * Z.of_N l + Z.of_N l)%Z in
  if (h <=? w)%N then w' = 1024%N ∧ nearest h h' w else h' = 1024%N ∧ nearest w w' h.
Proof.
  intros Hmax. unfold canvasSize.
  assert ((1024 <? w)%N || (1024 <? h)%N = true) as ->.
  { apply orb_true_iff. rewrite !N.ltb_lt. lia. }
  destruct (N.leb_spec h w) as [Hle|Hlt];
    destruct w as [|w], h as [|h]; try (simpl in Hmax; lia).
  - cbn [div min]. rewrite round_mul_longer, Downscale.round_mul_zero. lia.
  - rewrite min_frac. destruct (Pos.leb_spec h w) as [_|?]; [|lia].
    rewrite round_mul_longer. split; [done|]. apply round_mul_shorter.
  - cbn [div min]. rewrite round_mul_longer, Downscale.round_mul_zero. lia.
  - rewrite min_frac. destruct (Pos.leb_spec h w) as [?|_]; [lia|].
    rewrite round_mul_longer. split; [done|]. apply round_mul_shorter.
Qed.



(** X10. The two copies of [optimizeImageForUpload] end the same way on
    every file that decodes; on a file that does not, the one of
    [utils.js] resolves with the file itself and the one of the planning
    page never settles. Neither promise is ever rejected. *)
Theorem optimizeImageForUpload_copies (f : File) :
  (is_Some (natural_size f) →
     Planning.optimizeImageForUpload f = Utils.optimizeImageForUpload f)
  ∧ (natural_size f = None →
     Utils.optimizeImageForUpload f = Settles (Fulfilled (Some (FileBlob f)))
     ∧ Planning.optimizeImageForUpload f = Forever)
  ∧ (∀ e, Utils.optimizeImageForUpload f ≠ Settles (Rejected e)
          ∧ Planning.optimizeImageForUpload f ≠ Settles (Rejected e))
  ∧ Utils.optimizeImageForUpload f ≠ Forever.
Proof.
  unfold Utils.optimizeImageForUpload, Planning.optimizeImageForUpload,
    Utils.MAX_IMAGE_DIMENSION.
  destruct (natural_size f) as [[w h]|]; [destruct (canvasSize 1024 w h)|];
    split_and!; try done; by intros [? ?].
Qed.



End DownscaleProps.

(** ** The lot cards of the planning page *)

Module LotCardsProps.
Import Planning LotCards.

Lemma cardsOf_removeInfoBox nodes : cardsOf (removeInfoBox nodes) = cardsOf nodes.
Proof.
  induction nodes as [|n nodes IH]; [done|].
  destruct n; simpl; try done; unfold cardsOf in *; simpl; by rewrite ?IH.
Qed.

Lemma cardsOf_removeCard k nodes : cardsOf (removeCard k nodes) = delete k (cardsOf nodes).
Proof.
  revert k. induction nodes as [|n nodes IH]; intros k; [done|].
  destruct n; simpl; try apply IH.
  destruct k; [done|]. unfold cardsOf in *. simpl. by rewrite IH.
Qed.

Lemma cardsOf_forEachCard f index nodes :
  cardsOf (forEachCard f index nodes) = imap (λ i, f (index + i)) (cardsOf nodes).
Proof.
  revert index. induction nodes as [|n nodes IH]; intros index; [done|].
  destruct n; simpl; try apply IH.
  unfold cardsOf in *. simpl. rewrite IH, Nat.add_0_r. f_equal.
  apply imap_ext. intros i card _. simpl. f_equal. lia.
Qed.

Lemma cardsOf_push nodes n :
  cardsOf (Js.push nodes n)
  = (cardsOf nodes ++ match n with LotCardNode c => [c] | _ => [] end)%list.
Proof.
  unfold cardsOf, Js.push. rewrite omap_app. f_equal. by destruct n.
Qed.

(** [updateGenerateButton] writes the state of the submit control and
    nothing else. *)
Lemma updateGenerateButton_exec p :
  updateGenerateButton p
  = (Normal tt,
     match dom p !! "generatePlanningBtn" with
     | Some _ =>
         set_dom (alter (set_disabled (negb (inputsPresent p))) "generatePlanningBtn"
                    (dom p)) p
     | None => p
     end).
Proof.
  unfold updateGenerateButton, getElementById, whenPresent, modify, gets, mbind, Eff_bind,
    bind, inputsPresent, cardsOn. simpl.
  destruct (dom p !! "generatePlanningBtn") as [btn|]; [|done]. simpl.
  by destruct (dom p !! "lotCardsContainer") as [c|]; simpl; rewrite ?andb_false_r.
Qed.

Lemma cardsOn_set_dom p d :
  cardsOn (set_dom d p) = from_option lotCards [] (d !! "lotCardsContainer").
Proof. done. Qed.

Lemma cardsOn_updateGenerateButton p : cardsOn (exec updateGenerateButton p) = cardsOn p.
Proof.
  unfold exec. rewrite updateGenerateButton_exec. simpl.
  destruct (dom p !! "generatePlanningBtn"); [|done].
  rewrite cardsOn_set_dom. by rewrite lookup_alter_ne.
Qed.

(** X12. [addLotDescription] keeps the cards there are and what is typed
    in them, and appends one card with an empty description; its number is
    the count of the children that are left once the info box is removed,
    plus one. *)
Theorem addLotDescription_appends (p : Page) (c : Element) :
  dom p !! "lotCardsContainer" = Some c →
  let position := length (removeInfoBox (children c)) in
  cardsOn (exec addLotDescription p)
  = (cardsOn p ++ [{| lotIndex := Z.of_nat position;
                      numberInput := Some (pretty (Z.of_nat position + 1)%Z);
                      descriptionInput := Some "" |}])%list.
Proof.
  intros Hc position. unfold exec, addLotDescription, getElementById, gets, whenPresent,
    modify, mbind, Eff_bind, bind. simpl. rewrite Hc. simpl.
  match goal with |- cardsOn (updateGenerateButton ?q).2 = ?rhs =>
    change (cardsOn (exec updateGenerateButton q) = rhs) end.
  rewrite cardsOn_updateGenerateButton, cardsOn_set_dom, lookup_alter_eq, Hc. simpl.
  unfold cardsOn. rewrite Hc. simpl. unfold lotCards. simpl.
  change (omap _ ?l) with (cardsOf l).
  rewrite cardsOf_push, cardsOf_removeInfoBox. do 4 f_equal. lia.
Qed.

Lemma addLotDescription_appends_witness :
  cardsOn (exec addLotDescription (page (Planning.init Samples.planningDocument)))
  = [{| lotIndex := 0; numberInput := Some "1"; descriptionInput := Some "" |}].
Proof.
  apply (addLotDescription_appends (page (Planning.init Samples.planningDocument))
           (set_children [InfoBox] blank)).
  reflexivity.
Defined.

Lemma cardsOn_removeLot p k :
  cardsOn (exec (removeLot k) p) = imap renumbered (delete k (cardsOn p)).
Proof.
  unfold exec, removeLot, updateLotNumbers, whenPresent, modify, mbind, Eff_bind, bind.
  simpl.
  match goal with |- cardsOn (updateGenerateButton ?q).2 = ?rhs =>
    change (cardsOn (exec updateGenerateButton q) = rhs) end.
  rewrite cardsOn_updateGenerateButton, cardsOn_set_dom. unfold cardsOn.
  rewrite !lookup_alter_eq. destruct (dom p !! "lotCardsContainer") as [c|]; [|done].
  simpl. unfold lotCards. simpl. change (omap _ ?l) with (cardsOf l).
  by rewrite cardsOf_forEachCard, cardsOf_removeCard.
Qed.

Lemma cardsOn_editCard p k f :
  cardsOn (exec (editCard k f) p)
  = imap (λ index card, if (index =? k)%nat then f card else card) (cardsOn p).
Proof.
  unfold exec, editCard, whenPresent, modify. simpl. rewrite cardsOn_set_dom.
  unfold cardsOn. rewrite lookup_alter_eq.
  destruct (dom p !! "lotCardsContainer") as [c|]; [|done].
  simpl. unfold lotCards. simpl. change (omap _ ?l) with (cardsOf l).
  by rewrite cardsOf_forEachCard.
Qed.

(** X13. The remove control of card [k] takes that card away and keeps
    the other cards in their order with their descriptions;
    [updateLotNumbers] then gives each card its position as index and
    fills a number that is blank with the position counted from one. *)
Theorem removeLot_cards (p : Page) (k : nat) :
  let cards' := cardsOn (exec (removeLot k) p) in
  cards' = imap renumbered (delete k (cardsOn p))
  ∧ descriptionInput <$> cards' = descriptionInput <$> delete k (cardsOn p)
  ∧ (∀ i card, cards' !! i = Some card → lotIndex card = Z.of_nat i).
Proof.
  cbv zeta. rewrite cardsOn_removeLot. split_and!; [done| |].
  - rewrite fmap_imap. generalize (delete k (cardsOn p)). intros l.
    rewrite <- (imap_const descriptionInput l). by apply imap_ext.
  - intros i card. rewrite list_lookup_imap.
    destruct (delete k (cardsOn p) !! i); [|done]. by intros [= <-].
Qed.

End LotCardsProps.

(** ** What a handler leaves as it is *)

Section WatchLemmas.
Context {St G W : Type} `{!HasDocument St}.
Context (globals : St → G) (spec : list (string * (Element → W))).
Context (Hdoc : ∀ s d, document (set_document d s) = d).
Context (Hglobals : ∀ s d, globals (set_document d s) = globals s).

#[local] Instance unchanged_preorder : PreOrder (unchanged globals spec).
Proof.
  split.
  - by intros s.
  - intros s1 s2 s3 [Hg1 Ho1] [Hg2 Ho2]. split; congruence.
Qed.

Lemma observe_alter id f d : unseen spec id f → observe spec (alter f id d) = observe spec d.
Proof.
  unfold unseen, observe. induction 1 as [|[id' proj] rest Hentry _ IH]; [done|].
  simpl in *. f_equal; [|done].
  destruct (decide (id' = id)) as [->|Hne].
  - destruct Hentry as [?|Hproj]; [done|]. rewrite lookup_alter_eq.
    destruct (d !! id); simpl; [|done]. by rewrite Hproj.
  - by rewrite lookup_alter_ne.
Qed.

Lemma observe_insert id f d e :
  d !! id = Some e → unseen spec id f → observe spec (<[id := f e]> d) = observe spec d.
Proof.
  intros He Hf. rewrite <- (observe_alter id f d Hf). f_equal.
  apply map_eq. intros id'. destruct (decide (id' = id)) as [->|Hne].
  - by rewrite lookup_insert_eq, lookup_alter_eq, He.
  - by rewrite lookup_insert_ne, lookup_alter_ne.
Qed.

Lemma unchanged_whenPresent id f :
  unseen spec id f → keeps (unchanged globals spec) (whenPresent id f).
Proof.
  intros Hf. apply keeps_whenPresent. intros s. split; [apply Hglobals|].
  rewrite Hdoc. by apply observe_alter.
Qed.

Lemma unchanged_write id prop f :
  unseen spec id f → keeps (unchanged globals spec) (write id prop f).
Proof.
  intros Hf. apply keeps_write; [apply _|]. intros s e He. split; [apply Hglobals|].
  rewrite Hdoc. by apply observe_insert.
Qed.

Lemma unchanged_modify (f : St → St) :
  (∀ s, globals (f s) = globals s) → (∀ s, document (f s) = document s) →
  keeps (unchanged globals spec) (modify f).
Proof.
  intros Hg Hd. apply keeps_modify. intros s. split; [apply Hg|]. by rewrite Hd.
Qed.

End WatchLemmas.

Section LoopKeeps.
Context {P T : Type} (R : relation P) `{!PreOrder R}.

Lemma dispatch_keeps (h : Eff P (Step T)) w : keeps R h → R (page w) (page (dispatch h w)).
Proof.
  intros Hh. unfold dispatch. specialize (Hh (page w)).
  by destruct (h (page w)) as [[[|t]|e] p'].
Qed.

Lemma resume_keeps i (k : T → option (Eff P (Step T))) w :
  (∀ t h, k t = Some h → keeps R h) → R (page w) (page (resume i k w)).
Proof.
  intros Hk. unfold resume. destruct (tasks w !! i) as [t|]; [|done].
  destruct (k t) as [h|] eqn:Hh; [|done]. specialize (Hk t h Hh (page w)).
  by destruct (h (page w)) as [[[|t']|e] p'].
Qed.

End LoopKeeps.

(** Proves that a write is not seen: each entry is about another element,
    or about a property the write keeps. *)
Ltac unseen_tac :=
  unfold unseen;
  repeat (apply Forall_cons; split;
          [first [ right; intros ?; reflexivity
                 | left; first [discriminate | assumption | by apply not_eq_sym] ]|]);
  by apply Forall_nil.

(** ** Lot cards come after the lot map *)

Module LotMapFirst.
Import Planning LotCards LotCardsProps.

Abbreviation same := (unchanged currentLotMapImage cardsAndAdd).
Abbreviation sameAdd := (unchanged currentLotMapImage addOnly).

#[local] Instance same_preorder : PreOrder same.
Proof. apply unchanged_preorder. Qed.

#[local] Instance sameAdd_preorder : PreOrder sameAdd.
Proof. apply unchanged_preorder. Qed.

#[local] Hint Extern 1 (keeps (unchanged _ _) (whenPresent _ _)) =>
  apply unchanged_whenPresent; [done | done | unseen_tac] : keeps.
#[local] Hint Extern 1 (keeps (unchanged _ _) (write _ _ _)) =>
  apply unchanged_write; [done | done | unseen_tac] : keeps.
#[local] Hint Extern 1 (keeps (unchanged _ _) (modify _)) =>
  apply unchanged_modify; by intros [] : keeps.

Ltac frame := intros; keeps_tac.

Lemma same_updateGenerateButton : keeps same updateGenerateButton.
Proof. unfold updateGenerateButton. frame. Qed.

Lemma sameAdd_updateGenerateButton : keeps sameAdd updateGenerateButton.
Proof. unfold updateGenerateButton. frame. Qed.

#[local] Hint Resolve same_updateGenerateButton sameAdd_updateGenerateButton : keeps.

Lemma same_uploads :
  (∀ file, keeps same (handleSitePlanUpload file)) ∧
  (∀ file, keeps same (handleLotMapUpload file)) ∧
  (∀ r, keeps same (afterSitePlanOptimized r)) ∧
  (∀ r, keeps same (afterLotMapOptimized r)) ∧
  (∀ b, keeps same (finish (sitePlanOnload b))).
Proof.
  unfold handleSitePlanUpload, handleLotMapUpload, afterSitePlanOptimized,
    afterLotMapOptimized, sitePlanOnload, readAsDataURL, showError, finish.
  split_and!; frame.
Qed.

Lemma same_render :
  keeps same generatePlanningRender ∧
  (∀ r, keeps same (afterFetch r)) ∧
  (∀ response r, keeps same (afterErrorJson response r)) ∧
  (∀ r, keeps same (afterJson r)).
Proof.
  unfold generatePlanningRender, afterFetch, afterErrorJson, afterJson, inTry, catchRender,
    finallyRender, collectLotDescriptions, displayPlanningRender, showError, hideError,
    showSuccess, hideSuccess, fetch.
  split_and!; frame.
Qed.

Lemma sameAdd_lots :
  keeps sameAdd addLotDescription ∧
  (∀ k, keeps sameAdd (removeLot k)) ∧
  (∀ k f, keeps sameAdd (editCard k f)).
Proof.
  unfold addLotDescription, removeLot, updateLotNumbers, editCard.
  split_and!; frame.
Qed.

Lemma same_view p p' :
  same p p' →
  currentLotMapImage p' = currentLotMapImage p ∧ cardsOn p' = cardsOn p
  ∧ clickable "addLotBtn" p' = clickable "addLotBtn" p.
Proof.
  intros [Hmap Hsee]. unfold observe, cardsAndAdd in Hsee. simpl in Hsee.
  injection Hsee as Hcards Hadd. split; [done|]. unfold cardsOn, clickable, lotCards.
  destruct (dom p' !! "lotCardsContainer"), (dom p !! "lotCardsContainer");
    simplify_eq/=; destruct (dom p' !! "addLotBtn"), (dom p !! "addLotBtn");
    simplify_eq/=; split; congruence.
Qed.

Lemma sameAdd_view p p' :
  sameAdd p p' →
  currentLotMapImage p' = currentLotMapImage p
  ∧ clickable "addLotBtn" p' = clickable "addLotBtn" p.
Proof.
  intros [Hmap Hsee]. unfold observe, addOnly in Hsee. simpl in Hsee.
  injection Hsee as Hadd. split; [done|]. unfold clickable.
  destruct (dom p' !! "addLotBtn"), (dom p !! "addLotBtn"); simplify_eq/=; congruence.
Qed.

Lemma lotMapFirst_same p p' : same p p' → lotMapFirst p → lotMapFirst p'.
Proof.
  intros (Hmap & Hcards & Hadd)%same_view Hp. unfold lotMapFirst.
  rewrite Hmap, Hcards, Hadd. apply Hp.
Qed.

Lemma page_dispatch {P T} (h : Eff P (Step T)) w : page (dispatch h w) = exec h (page w).
Proof. unfold dispatch, exec. by destruct (h (page w)) as [[[|t]|e] p']. Qed.

Lemma exec_finish h p : exec (finish h) p = exec h p.
Proof.
  unfold exec, finish, mbind, Eff_bind, bind. by destruct (h p) as [[[]|e] p'].
Qed.

(** A handler that only changes cards, and makes none where there is
    none. *)
Lemma lotMapFirst_cards h w :
  keeps sameAdd h → (cardsOn (page w) = [] → cardsOn (exec h (page w)) = []) →
  lotMapFirst (page w) → lotMapFirst (page (dispatch (finish h) w)).
Proof.
  intros Hh Hcards Hw. rewrite page_dispatch, exec_finish.
  destruct (sameAdd_view _ _ (Hh (page w))) as [Hmap Hadd].
  unfold lotMapFirst, exec in *. rewrite Hmap, Hadd. intros Hnone.
  destruct (Hw Hnone) as [? ?]. auto.
Qed.

Lemma lotMapOnload_stores b p : is_Some (currentLotMapImage (exec (lotMapOnload b) p)).
Proof.
  unfold exec, lotMapOnload.
  assert (keeps (λ p p', is_Some (currentLotMapImage p) → is_Some (currentLotMapImage p'))
            (uploaderDiv ← getElementById "lotMapUploader";
             previewImg ← getElementById "lotMapPreview";
             (if bool_decide (is_Some uploaderDiv) && bool_decide (is_Some previewImg) then
                whenPresent "lotMapUploader" (classList_add "has-image") ;;
                whenPresent "lotMapPreview"
                  (λ el, classList_remove "hidden" (set_src (DataUrl b) el)) ;;
                whenPresent "lotMapUploader"
                  (λ el, set_uploadText ((λ _, "✅ Đã tải Lot Map") <$> uploadText el) el)
              else mret tt) ;;
             whenPresent "addLotBtn" (set_disabled false) ;;
             updateGenerateButton)) as Hrest.
  { assert (PreOrder (λ p p' : Page,
              is_Some (currentLotMapImage p) → is_Some (currentLotMapImage p'))).
    { split; [by intros ?|]. intros ??? H1 H2 ?. auto. }
    unfold updateGenerateButton.
    repeat first
      [ solve [eauto with keeps typeclass_instances]
      | apply keeps_bind; try apply _; [|intros]
      | apply keeps_if
      | apply keeps_whenPresent; by intros []
      | match goal with |- keeps _ (match ?x with _ => _ end) => destruct x end ]. }
  unfold mbind at 1, Eff_bind at 1, bind at 1, modify at 1. simpl.
  apply (Hrest (set_currentLotMapImage (Some (DataUrl b)) p)). by eexists.
Qed.

(** One turn of the event loop keeps the lot cards after the lot map. *)
Lemma lotMapFirst_step (optimizer : File → Promise (option Blob)) (w : World) (e : Event) :
  lotMapFirst (page w) → lotMapFirst (page (step optimizer w e)).
Proof.
  intros Hw.
  destruct same_uploads as (Hsite & Hlot & Hsite' & Hlot' & Hsite'').
  destruct same_render as (Hgen & Hfetch & Herror & Hjson).
  destruct sameAdd_lots as (Hadd & Hremove & Hedit).
  destruct e; cbn [step].
  - eapply lotMapFirst_same; [|done]. apply (dispatch_keeps same), Hsite.
  - eapply lotMapFirst_same; [|done]. apply (dispatch_keeps same), Hlot.
  - eapply lotMapFirst_same; [|done]. apply (resume_keeps same).
    intros [kind f| | | |] h Hh; try done.
    destruct (optimizer f) as [r|]; [|done]. destruct kind; simplify_eq; eauto.
  - unfold resume. destruct (tasks w !! i) as [[|[] b| | |]|] eqn:Hi; try done.
    + pose proof (Hsite'' b (page w)) as Hb.
      destruct (finish (sitePlanOnload b) (page w)) as [[[|t]|err] p'];
        by eapply lotMapFirst_same.
    + pose proof (lotMapOnload_stores b (page w)) as [image Himage].
      rewrite <- exec_finish in Himage. unfold exec in Himage.
      destruct (finish (lotMapOnload b) (page w)) as [[[|t]|err] p'];
        unfold lotMapFirst; simpl in *; by rewrite Himage.
  - case_match eqn:Hclick; [|done].
    destruct (currentLotMapImage (page w)) eqn:Hmap.
    + rewrite page_dispatch, exec_finish.
      destruct (sameAdd_view _ _ (Hadd (page w))) as [Hmap' _].
      unfold lotMapFirst, exec. by rewrite Hmap', Hmap.
    + destruct (Hw Hmap) as [_ Hno]. congruence.
  - apply lotMapFirst_cards; [apply Hremove | | done].
    rewrite cardsOn_removeLot. by intros ->.
  - apply lotMapFirst_cards; [|  | done].
    + pose proof (Hedit k (typeDescription text)). frame.
    + intros Hnone.
      assert (exec (editCard k (typeDescription text) ;; updateGenerateButton) (page w)
              = exec updateGenerateButton (exec (editCard k (typeDescription text)) (page w)))
        as -> by done.
      by rewrite cardsOn_updateGenerateButton, cardsOn_editCard, Hnone.
  - apply lotMapFirst_cards; [apply Hedit | | done].
    rewrite cardsOn_editCard. by intros ->.
  - eapply lotMapFirst_same; [|done]. apply (dispatch_keeps same). unfold finish. frame.
  - case_match; [|done]. eapply lotMapFirst_same; [|done]. apply (dispatch_keeps same), Hgen.
  - case_match; [|done]. eapply lotMapFirst_same; [|done]. apply (dispatch_keeps same), Hgen.
  - eapply lotMapFirst_same; [|done]. apply (resume_keeps same).
    intros [] h [= <-]. apply Hfetch.
  - eapply lotMapFirst_same; [|done]. apply (resume_keeps same).
    intros [] h [= <-]. apply Herror.
  - eapply lotMapFirst_same; [|done]. apply (resume_keeps same).
    intros [] h [= <-]. apply Hjson.
  - case_match; [|done]. eapply lotMapFirst_same; [|done].
    apply (dispatch_keeps same). unfold finish. frame.
Qed.

End LotMapFirst.

(** ** The submit control and the uploads of the planning page *)

Module PlanningControls.
Import Planning LotCards LotCardsProps.

(** X15. [updateGenerateButton] enables the submit control exactly when
    both images are stored, there is a lot card and some description is
    not blank, and it changes nothing else. That is not all a submit asks
    for: when no card has both a number and a description, the click on the
    control is answered with the message about the lot descriptions, and
    nothing is sent. *)
Theorem enabled_submit_refused (w : World) (btn err : Element) :
  dom (page w) !! "generatePlanningBtn" = Some btn →
  dom (page w) !! "planningError" = Some err →
  updateGenerateButton (page w)
  = (Normal tt,
     set_dom (<["generatePlanningBtn" := set_disabled (negb (inputsPresent (page w))) btn]>
                (dom (page w))) (page w))
  ∧ (inputsPresent (page w) = true →
     Forall (λ card, lotOf card = None) (cardsOn (page w)) →
     let w' := dispatch generatePlanningRender w in
     tasks w' = tasks w ∧ network (page w') = network (page w)
     ∧ ∃ el, dom (page w') !! "planningError" = Some el
             ∧ shows "Vui lòng thêm ít nhất một mô tả lô!" el).
Proof.
  intros Hbtn Herr. split.
  - rewrite updateGenerateButton_exec, Hbtn. do 2 f_equal.
    apply map_eq. intros id. destruct (decide (id = "generatePlanningBtn")) as [->|Hne].
    + by rewrite lookup_alter_eq, lookup_insert_eq, Hbtn.
    + by rewrite lookup_alter_ne, lookup_insert_ne.
  - intros Hpresent Hcards.
    apply andb_prop in Hpresent as [[[Hsite Hlot]%andb_prop _]%andb_prop _].
    apply bool_decide_eq_true in Hsite, Hlot.
    apply (planning_validation w err Herr); [done..|].
    rewrite collectLotDescriptions_lots. simpl. f_equal.
    unfold cardsOn in Hcards. destruct (dom (page w) !! "lotCardsContainer") as [c|]; [|done].
    simpl in *. induction Hcards as [|card cards Hcard _ IH]; [done|].
    simpl. by rewrite Hcard.
Qed.

Lemma enabled_submit_refused_witness :
  let w := run Planning.optimizeImageForUpload Samples.planningSubmitted
             [FetchSettles 0 (Rejected (Js.mkError "Failed to fetch"));
              InputLotNumber 0 " "] in
  let w' := dispatch generatePlanningRender w in
  inputsPresent (page w) = true
  ∧ (disabled <$> dom (page w) !! "generatePlanningBtn") = Some false
  ∧ tasks w' = tasks w ∧ network (page w') = network (page w)
  ∧ ∃ el, dom (page w') !! "planningError" = Some el
          ∧ shows "Vui lòng thêm ít nhất một mô tả lô!" el.
Proof.
  intros w w'. split; [by vm_compute|]. split; [by vm_compute|].
  assert (∃ btn, dom (page w) !! "generatePlanningBtn" = Some btn) as [btn Hbtn]
    by (by vm_compute; eexists).
  assert (∃ err, dom (page w) !! "planningError" = Some err) as [err Herr]
    by (by vm_compute; eexists).
  destruct (enabled_submit_refused w btn err Hbtn Herr) as [_ Hrefused].
  apply Hrefused; [by vm_compute|].
  assert (cardsOn (page w)
          = [{| lotIndex := 0; numberInput := Some " ";
                descriptionInput := Some "Nhà phố 5 tầng" |}]) as -> by (by vm_compute).
  by repeat constructor.
Defined.

(** X16. When the promise of the optimiser settles, the upload that
    waits for it goes on reading the blob it gets, the page being as it
    was; when the promise is rejected or gives no blob, the upload ends
    with the message of its kind displayed, no image stored and no render
    touched. While nothing settles the promise, the upload stays as it
    is. *)
Theorem upload_outcome (optimizer : File → Promise (option Blob)) (w : World) (i : nat)
    (kind : Upload) (f : File) (err : Element) :
  tasks w !! i = Some (Optimizing kind f) →
  dom (page w) !! "planningError" = Some err →
  let w' := step optimizer w (OptimizerSettles i) in
  match optimizer f with
  | Settles (Fulfilled (Some blob)) =>
      w' = {| page := page w; tasks := <[i := Reading kind blob]> (tasks w) |}
  | Settles _ =>
      tasks w' = delete i (tasks w)
      ∧ sameRender (page w) (page w')
      ∧ currentSitePlanImage (page w') = currentSitePlanImage (page w)
      ∧ currentLotMapImage (page w') = currentLotMapImage (page w)
      ∧ ∃ el, dom (page w') !! "planningError" = Some el ∧ shows (uploadError kind) el
  | Forever => w' = w
  end.
Proof.
  intros Hi Herr. simpl. unfold resume. rewrite Hi.
  destruct (optimizer f) as [r|]; [|by destruct w].
  destruct kind, r as [[blob|]|e];
    cbv beta iota zeta delta
      [afterSitePlanOptimized afterLotMapOptimized try_catch
       readAsDataURL showError whenPresent modify throw
       mbind Eff_bind bind mret Eff_ret ret document set_document Page_document];
    simpl; try done.
  all: split_and!; try done.
  all: eexists; (split; [by rewrite lookup_alter_eq, Herr|]).
  all: split; [done | apply hidden_remove].
Qed.

Lemma upload_outcome_witness :
  let w := run Utils.optimizeImageForUpload (init Samples.planningDocument)
             [ChangeLotMap (Some Samples.sliver)] in
  let w' := step Utils.optimizeImageForUpload w (OptimizerSettles 0) in
  tasks w' = []
  ∧ currentLotMapImage (page w') = None
  ∧ ∃ el, dom (page w') !! "planningError" = Some el
          ∧ shows "Lỗi tải lot map. Vui lòng thử lại." el.
Proof.
  intros w w'.
  pose proof (upload_outcome Utils.optimizeImageForUpload w 0 LotMap Samples.sliver
                Samples.invisible eq_refl eq_refl) as H.
  change (Utils.optimizeImageForUpload Samples.sliver) with
    (Settles (Fulfilled (@None Blob))) in H.
  destruct H as (Htasks & _ & _ & Hmap & Hshown).
  split; [exact Htasks|]. split; [exact (eq_trans Hmap eq_refl)|]. exact Hshown.
Defined.

End PlanningControls.

(** ** The form of the planning-detail page *)

Module DetailControlsProps.
Import Detail DetailControls.

Lemma write_present id prop f (p : Page) e :
  dom p !! id = Some e →
  write id prop f p = (Normal tt, set_dom (<[id := f e]> (dom p)) p).
Proof. intros He. unfold write. simpl. by rewrite He. Qed.

Lemma forallb_pointwise {A} (f g : A → bool) l :
  (∀ x, f x = g x) → forallb f l = forallb g l.
Proof. intros Hfg. induction l as [|x l IH]; simpl; [done|]. by rewrite Hfg, IH. Qed.

(** A write that keeps the selection of an element keeps the form
    complete. *)
Lemma complete_insert d id e e' :
  d !! id = Some e → hasSelection e' = hasSelection e →
  complete (<[id := e']> d) = complete d.
Proof.
  intros He Hsel. unfold complete. f_equal; apply forallb_pointwise; intros id'.
  - destruct (decide (id' = id)) as [->|Hne].
    + rewrite lookup_insert_eq, He. by rewrite !bool_decide_eq_true_2.
    + by rewrite lookup_insert_ne.
  - destruct (decide (id' = id)) as [->|Hne].
    + by rewrite lookup_insert_eq, He.
    + by rewrite lookup_insert_ne.
Qed.

(** The toggles [collectFormData] sends are the states of the eight
    boxes. *)
Lemma collectFormData_quality p data p' :
  collectFormData p = (Normal data, p') →
  ∀ toggle : string → bool,
    (∀ id, toggle id = from_option checked false (dom p !! id)) →
    quality_presets data
    = {| global_illumination := toggle "quality_gi";
         soft_shadows := toggle "quality_shadows";
         hdri_sky := toggle "quality_hdri";
         reflections := toggle "quality_reflection";
         depth_of_field := toggle "quality_dof";
         bloom := toggle "quality_bloom";
         color_correction := toggle "quality_color_correction";
         desaturate := toggle "quality_desaturate" |}.
Proof.
  unfold collectFormData, trimmedValue. intros H toggle Htoggle.
  repeat match goal with
  | H : (_ ≫= _) _ = (Normal _, _) |- _ =>
      apply bind_normal in H as (? & ? & ? & H)
  | H : read _ _ _ _ = (Normal _, _) |- _ =>
      apply read_normal in H as (-> & ? & ? & ->)
  | H : (_ <$> _) _ = (Normal _, _) |- _ =>
      apply fmap_normal in H as (? & H & ->)
  end.
  match goal with
  | Hd : (if _ then _ else _) ?s = (Normal _, ?s') |- _ =>
      assert (s' = s) as ->;
      [ destruct (Js.truthy _);
        [ by apply mret_normal in Hd as [_ ->]
        | by apply (readonly_state _ _ _ _ DetailForm.readonly_buildDescriptionFromFields)
            in Hd ]
      | clear Hd ]
  end.
  repeat match goal with
  | H : (_ ≫= _) _ = (Normal _, _) |- _ =>
      apply bind_normal in H as (? & ? & ? & H)
  | H : read _ _ _ _ = (Normal _, _) |- _ =>
      apply read_normal in H as (-> & ? & ? & ->)
  | H : mret _ _ = (Normal _, _) |- _ =>
      apply mret_normal in H as (-> & ->)
  end.
  simpl. rewrite !Htoggle.
  change (document p) with (dom p) in *.
  repeat match goal with H : dom p !! _ = Some _ |- _ => rewrite H; clear H end.
  done.
Qed.



End DetailControlsProps.

(** ** Invariants of the planning-detail page *)

Section Readonly.
Context {S : Type} (R : relation S) `{!Reflexive R}.

Lemma keeps_readonly {A} (m : Eff S A) : readonly m → keeps R m.
Proof. intros Hm s. by rewrite Hm. Qed.

End Readonly.

Module DetailInvariants.
Import Detail DetailControls.

Abbreviation shown := (unchanged (λ _ : Page, tt) lowrise).
Abbreviation sketch := (unchanged currentSketchImage (@nil (string * (Element → unit)))).

#[local] Instance shown_preorder : PreOrder shown.
Proof. apply unchanged_preorder. Qed.

#[local] Instance sketch_preorder : PreOrder sketch.
Proof. apply unchanged_preorder. Qed.

#[local] Hint Extern 1 (keeps (unchanged _ _) (whenPresent _ _)) =>
  apply unchanged_whenPresent; [done | done | unseen_tac] : keeps.
#[local] Hint Extern 1 (keeps (unchanged _ _) (write _ _ _)) =>
  apply unchanged_write; [done | done | unseen_tac] : keeps.
#[local] Hint Extern 1 (keeps (unchanged _ _) (modify _)) =>
  apply unchanged_modify; by intros [] : keeps.
#[local] Hint Extern 1 (keeps (unchanged _ _) collectFormData) =>
  apply keeps_readonly; [apply _ | apply DetailForm.readonly_collectFormData] : keeps.
#[local] Hint Extern 1 (keeps (unchanged _ _) (trimmedValue _)) =>
  apply keeps_readonly; [apply _ | apply DetailForm.readonly_trimmedValue] : keeps.

Ltac frame := intros; keeps_tac.

(** The handlers other than the ones of the low-rise box and of the
    reader. *)
Lemma keeps_render (R : relation Page) :
  R = shown ∨ R = sketch →
  (∀ file, keeps R (handleImageUpload file)) ∧
  keeps R generateRender ∧
  (∀ r, keeps R (afterFetch r)) ∧
  (∀ response r, keeps R (afterErrorJson response r)) ∧
  (∀ r elapsedTime, keeps R (afterJson r elapsedTime)) ∧
  (∀ id v, keeps R (edit id (set_value v) ;; onUserValue id)) ∧
  (∀ id idx v, keeps R (edit id (λ el, set_value v (set_selectedIndex idx el)) ;;
                        onUserSelected id)).
Proof.
  unfold handleImageUpload, readAsDataURL, generateRender, afterFetch, afterErrorJson,
    afterJson, inTry, catchRender, finallyRender, displayRenderedImage, fetch, showError,
    hideError, showSuccess, hideSuccess, showSpinner, edit, onUserValue, onUserSelected,
    applyQualityPreset.
  intros [-> | ->]; split_and!; frame.
Qed.

Lemma shown_readerOnload f :
  keeps shown (readerOnload f ;; mret Finished : Eff Page (Step Task)).
Proof. unfold readerOnload. frame. Qed.

Lemma shown_view p p' : shown p p' → lowriseShown p → lowriseShown p'.
Proof.
  intros [_ Hsee]. unfold observe, lowrise in Hsee. simpl in Hsee.
  injection Hsee as Hbox Hfields. unfold lowriseShown.
  destruct (dom p' !! "has_lowrise"), (dom p !! "has_lowrise"); simplify_eq/=; try done;
    destruct (dom p' !! "lowrise_fields"), (dom p !! "lowrise_fields");
    simplify_eq/=; try done; congruence.
Qed.

(** The listener of the low-rise box brings the fields in line with
    it. *)
Lemma lowriseShown_checked id b p :
  lowriseShown p → lowriseShown (exec (edit id (set_checked b) ;; onUserChecked id) p).
Proof.
  intros Hp. destruct (String.eqb_spec id "has_lowrise") as [->|Hne].
  - unfold exec, edit, onUserChecked, whenPresent, modify, getElementById, gets, mbind,
      Eff_bind, bind, lowriseShown. simpl. rewrite lookup_alter_eq.
    destruct (dom p !! "has_lowrise") as [box|] eqn:Hbox; simpl;
      [|by rewrite lookup_alter_eq, Hbox].
    rewrite lookup_alter_ne by done.
    destruct (dom p !! "lowrise_fields") as [fields|] eqn:Hfields; simpl.
    + rewrite lookup_alter_ne, lookup_alter_eq, Hbox by done. simpl.
      rewrite lookup_alter_eq, lookup_alter_ne, Hfields by done. simpl.
      destruct b; [apply hidden_remove | apply hidden_add].
    + by rewrite lookup_alter_eq, Hbox, lookup_alter_ne, Hfields.
  - eapply shown_view; [|done].
    assert (keeps shown (edit id (set_checked b) ;; onUserChecked id)) as Hk; [|apply Hk].
    unfold onUserChecked. apply String.eqb_neq in Hne. rewrite Hne.
    apply String.eqb_neq in Hne. unfold edit. frame.
Qed.

(** One turn of the event loop keeps the fields of the low-rise zone in
    line with the box. *)
Lemma lowriseShown_step (w : World) (e : Event) :
  lowriseShown (page w) → lowriseShown (page (step w e)).
Proof.
  intros Hw.
  destruct (keeps_render shown (or_introl eq_refl))
    as (Hupload & Hgen & Hfetch & Herror & Hjson & Hvalue & Hselected).
  destruct e; cbn [step].
  - eapply shown_view; [|done]. apply (dispatch_keeps shown), Hupload.
  - eapply shown_view; [|done]. apply (resume_keeps shown).
    intros [] h [= <-]. apply shown_readerOnload.
  - case_match; [|done]. eapply shown_view; [|done]. apply (dispatch_keeps shown), Hgen.
  - eapply shown_view; [|done]. apply (dispatch_keeps shown), Hgen.
  - eapply shown_view; [|done]. apply (dispatch_keeps shown), Hvalue.
  - rewrite LotMapFirst.page_dispatch. by apply lowriseShown_checked.
  - eapply shown_view; [|done]. apply (dispatch_keeps shown), Hselected.
  - eapply shown_view; [|done]. apply (resume_keeps shown).
    intros [] h [= <-]. apply Hfetch.
  - eapply shown_view; [|done]. apply (resume_keeps shown).
    intros [] h [= <-]. apply Herror.
  - eapply shown_view; [|done]. apply (resume_keeps shown).
    intros [] h [= <-]. apply Hjson.
Qed.

Lemma sketch_readerOnload f p :
  currentSketchImage (exec (readerOnload f) p) = Some (DataUrl (FileBlob f)).
Proof.
  unfold exec, readerOnload.
  assert (keeps sketch
            (write "previewImage" "src" (set_src (DataUrl (FileBlob f))) ;;
             write "previewImage" "classList" (classList_remove "hidden") ;;
             write "uploadLabel" "classList" (classList_add "hidden") ;;
             write "generateRenderButton" "disabled" (set_disabled false))) as Hrest
    by frame.
  unfold mbind at 1, Eff_bind at 1, bind at 1, modify at 1. simpl.
  by destruct (Hrest (set_currentSketchImage (Some (DataUrl (FileBlob f))) p)) as [-> _].
Qed.

(** What a submit sends. *)
Lemma generateRender_submits p :
  match generateRender p with
  | (Normal (Await t), p') =>
      t = AwaitFetch ∧ isRendering p = false ∧ isRendering p' = true ∧
      ∃ req, network p' = Js.push (network p) req ∧ submits p req
  | (_, p') => network p' = network p ∧ (isRendering p = true → isRendering p' = true)
  end.
Proof.
  pose proof (DetailForm.readonly_collectFormData) as Hc. unfold readonly in Hc.
  cbv beta iota zeta delta
    [generateRender mbind Eff_bind bind gets trimmedValue fmap Eff_fmap ret read
     showError hideError hideSuccess showSpinner whenPresent modify write inTry
     protect try_finally catchRender finallyRender fetch mret Eff_ret throw
     document set_document Page_document].
  repeat (case_match; simplify_eq/=; try done).
  all: try match goal with
           | H : collectFormData ?s = _ |- _ =>
               specialize (Hc s); rewrite H in Hc; simpl in Hc; subst
           end.
  all: simpl; split_and!; try done; eexists; (split; [done|]).
  all: unfold submits; simpl; split_and!; try done.
  all: match goal with
       | H : bool_decide (is_Some _) = true |- _ =>
           by apply bool_decide_eq_true in H
       | H : negb (bool_decide (is_Some ?x)) = false |- is_Some ?x =>
           apply negb_false_iff, bool_decide_eq_true in H; exact H
      end.
Qed.

Lemma submitting_dispatch w : Submitting w (dispatch generateRender w).
Proof.
  apply (dispatch_submit isRendering network isRenderTask (λ _, True) submits).
  intros p. pose proof (generateRender_submits p) as H.
  destruct (generateRender p) as [[[|t]|e] p']; [done | | done].
  destruct H as (-> & ? & ? & req & ? & ?). eauto 10.
Qed.

Lemma submitting_step w e : Submitting w (step w e).
Proof.
  pose proof DetailRender.detail_sameRender_preorder as Hpre.
  assert (∀ (h1 h2 : Eff Page (Step Task)),
            keeps sameRender h1 → keeps sameRender h2 → keeps sameRender (h1 ;; h2))
    as Hseq by (intros; by apply keeps_bind).
  destruct e; cbn [step].
  - apply (dispatch_untouched isRendering network isRenderTask (λ _, True) submits);
      [apply DetailRender.keeps_handleImageUpload | apply DetailRender.handleImageUpload_task].
  - apply (resume_untouched isRendering network isRenderTask (λ _, True) submits).
    intros [] h [= <-]. split; [done|]. split.
    + apply keeps_bind; [done | apply DetailRender.keeps_readerOnload |].
      intros. by apply keeps_ret.
    + intros p t' p' H. exfalso. revert H. finishes_tac.
  - case_match; [apply submitting_dispatch | by apply Untouched].
  - apply submitting_dispatch.
  - apply (dispatch_untouched isRendering network isRenderTask (λ _, True) submits).
    + apply Hseq; [apply DetailRender.keeps_edit | apply DetailRender.keeps_onUserValue].
    + intros p t p' H. exfalso. revert H. unfold edit, onUserValue. finishes_tac.
  - apply (dispatch_untouched isRendering network isRenderTask (λ _, True) submits).
    + apply Hseq; [apply DetailRender.keeps_edit | apply DetailRender.keeps_onUserChecked].
    + intros p t p' H. exfalso. revert H. unfold edit, onUserChecked. finishes_tac.
  - apply (dispatch_untouched isRendering network isRenderTask (λ _, True) submits).
    + apply Hseq; [apply DetailRender.keeps_edit | apply DetailRender.keeps_onUserSelected].
    + intros p t p' H. exfalso. revert H. unfold edit, onUserSelected. finishes_tac.
  - apply (resume_render isRendering network isRenderTask (λ _, True) submits).
    intros [] h [= <-]. split; [done|]. intros p. apply DetailRender.afterFetch_cases.
  - apply (resume_render isRendering network isRenderTask (λ _, True) submits).
    intros [] h [= <-]. split; [done|].
    intros p. pose proof (DetailRender.afterErrorJson_cases response r p).
    repeat case_match; intuition.
  - apply (resume_render isRendering network isRenderTask (λ _, True) submits).
    intros [] h [= <-]. split; [done|].
    intros p. pose proof (DetailRender.afterJson_cases r elapsedTime p).
    repeat case_match; intuition.
Qed.

(** The sketch changes when a reader is done, to the file it read. *)
Lemma sketch_step w e :
  currentSketchImage (page (step w e)) = currentSketchImage (page w)
  ∨ uploaded (currentSketchImage (page (step w e))).
Proof.
  destruct (keeps_render sketch (or_intror eq_refl))
    as (Hupload & Hgen & Hfetch & Herror & Hjson & Hvalue & Hselected).
  assert (∀ w' : World, sketch (page w) (page w') →
                currentSketchImage (page w') = currentSketchImage (page w)) as Hsame
    by (by intros w' [? _]).
  destruct e; cbn [step].
  - left. apply Hsame, (dispatch_keeps sketch), Hupload.
  - unfold resume. destruct (tasks w !! i) as [[f| | |]|]; try (by left).
    right. exists f. rewrite <- (sketch_readerOnload f (page w)). unfold exec.
    unfold mbind, Eff_bind, bind.
    by destruct (readerOnload f (page w)) as [[[]|err] p'].
  - left. case_match; [|done]. apply Hsame, (dispatch_keeps sketch), Hgen.
  - left. apply Hsame, (dispatch_keeps sketch), Hgen.
  - left. apply Hsame, (dispatch_keeps sketch), Hvalue.
  - left. apply Hsame, (dispatch_keeps sketch). unfold edit, onUserChecked. frame.
  - left. apply Hsame, (dispatch_keeps sketch), Hselected.
  - left. apply Hsame, (resume_keeps sketch). intros [] h [= <-]. apply Hfetch.
  - left. apply Hsame, (resume_keeps sketch). intros [] h [= <-]. apply Herror.
  - left. apply Hsame, (resume_keeps sketch). intros [] h [= <-]. apply Hjson.
Qed.

Lemma sketchFirst_step w e : sketchFirst w → sketchFirst (step w e).
Proof.
  intros (Hnone & Hsome & Hsent).
  pose proof (submitting_step w e) as Heffect.
  pose proof (sketch_step w e) as Hsketch.
  assert (is_Some (currentSketchImage (page (step w e))) →
          uploaded (currentSketchImage (page (step w e)))) as Hsome'.
  { destruct Hsketch as [-> | ?]; [done|]. by intros _. }
  assert (currentSketchImage (page (step w e)) = None →
          currentSketchImage (page w) = None) as Hback.
  { destruct Hsketch as [-> | [f Hf]]; [done|]. by rewrite Hf. }
  split_and!; [|done|].
  - intros Hnone'. destruct (Hnone (Hback Hnone')) as [Hnet Hfly].
    unfold inFlight in *.
    destruct Heffect as [[_ Hs] Hf | req (_ & _ & _ & Hreq) | _ _ Hf | _ Hs Hf].
    + split; congruence.
    + rewrite (Hback Hnone') in Hreq. by destruct Hreq.
    + lia.
    + split; congruence.
  - destruct Heffect as [[_ Hs] _ | req (Hurl & Hmethod & Himage & Hreq) _ _ Hs _
                         | _ Hs _ | _ Hs _]; rewrite Hs; try done.
    apply Forall_app. split; [done|]. apply Forall_singleton.
    split_and!; [done..|]. rewrite Himage. by apply Hsome.
Qed.

End DetailInvariants.

(** ** The settings page *)

Module SettingsProps.
Import Settings.

(** *** The model of a [select] *)

Lemma keepLast_single opts :
  (length (filter (λ o, selected o = true) opts) ≤ 1)%nat → keepLast opts = opts.
Proof.
  induction opts as [|o opts IH]; simpl; [done|].
  rewrite filter_cons. destruct o as [v t ti []]; simpl.
  - intros Hone. assert (filter (λ o, selected o = true) opts = []) as Hnone.
    { destruct (filter _ opts); [done | simpl in Hone; lia]. }
    rewrite IH by (rewrite Hnone; simpl; lia). f_equal. f_equal.
    assert (existsb selected opts = false) as ->; [|done].
    apply not_true_is_false. intros (o & Ho & Hsel)%existsb_exists.
    assert (o ∈ filter (λ o, selected o = true) opts) as Hin
      by (apply list_elem_of_filter; split; [done | by apply list_elem_of_In]).
    rewrite Hnone in Hin. by apply elem_of_nil in Hin.
  - intros Hone. by rewrite IH.
Qed.

Lemma keepLast_selected opts o :
  selected o = true →
  filter (λ o, selected o = true) (keepLast (opts ++ [o])%list) = [o].
Proof.
  intros Ho. induction opts as [|o' opts IH]; simpl.
  - destruct o as [v t ti sel]. simpl in Ho. by subst sel.
  - rewrite filter_cons. simpl.
    assert (existsb selected (opts ++ [o])%list = true) as ->.
    { apply existsb_exists. exists o. split; [|done]. apply in_or_app. right. by left. }
    rewrite andb_false_r. simpl. exact IH.
Qed.

Lemma keepLast_values opts :
  option_value <$> keepLast opts = option_value <$> opts
  ∧ option_text <$> keepLast opts = option_text <$> opts.
Proof.
  induction opts as [|o opts [IH1 IH2]]; [done|].
  cbn [keepLast]. by rewrite !fmap_cons, IH1, IH2.
Qed.

Lemma filter_snoc_unselected (opts : list OptionEl) o :
  selected o = false →
  filter (λ o, selected o = true) (opts ++ [o])%list = filter (λ o, selected o = true) opts.
Proof.
  intros Ho. rewrite filter_app. destruct o as [v t ti sel]. simpl in Ho. subst sel.
  simpl. apply app_nil_r.
Qed.

Lemma existsb_selected opts :
  existsb selected opts = bool_decide (filter (λ o, selected o = true) opts ≠ []).
Proof.
  induction opts as [|[v t ti []] opts IH]; simpl; [done | done |].
  rewrite IH. by rewrite filter_cons.
Qed.

Lemma appended_snoc l currentValue opts model :
  appended l currentValue opts →
  appended (l ++ [model])%list currentValue
    (settle (Js.push opts
               {| option_value := id model; option_text := name model;
                  option_title := description model;
                  selected := bool_decide (id model = currentValue) |})).
Proof.
  intros (Hvalues & Htexts & Hcount & Hshown). unfold Js.push, settle.
  set (o := {| option_value := id model; option_text := name model;
               option_title := description model;
               selected := bool_decide (id model = currentValue) |}).
  assert ((l ++ [model])%list ≠ []) as Hne by (by destruct l).
  destruct (decide (id model = currentValue)) as [Hid|Hid].
  - assert (selected o = true) as Ho by (by apply bool_decide_eq_true).
    assert (existsb selected (opts ++ [o])%list = true) as ->.
    { apply existsb_exists. exists o. split; [|done]. apply in_or_app. right. by left. }
    unfold appended, selectedValue. rewrite (keepLast_selected _ _ Ho).
    destruct (keepLast_values (opts ++ [o])%list) as [-> ->].
    rewrite !fmap_app, Hvalues, Htexts, length_app. simpl.
    split_and!; [done | done | by rewrite Nat.add_1_r |].
    destruct (l ++ [model])%list eqn:Hl; [done|]. rewrite <- Hl. unfold shown.
    rewrite bool_decide_eq_true_2; [done|].
    rewrite fmap_app. apply elem_of_app. right. simpl. rewrite Hid. by left.
  - assert (selected o = false) as Ho by (by apply bool_decide_eq_false).
    assert (shown (l ++ [model])%list currentValue
            = match l with [] => id model | _ => shown l currentValue end) as Hshown'.
    { unfold shown. rewrite fmap_app. simpl.
      destruct (decide (currentValue ∈ id <$> l)) as [Hin|Hout].
      - rewrite !bool_decide_eq_true_2;
          [destruct l; [by apply elem_of_nil in Hin | done] | done |].
        apply elem_of_app. by left.
      - rewrite !bool_decide_eq_false_2; [by destruct l | done |].
        intros [?|Hm%list_elem_of_singleton]%elem_of_app; [done|]. by subst. }
    destruct l as [|model0 l].
    + destruct opts; [|done]. unfold appended. rewrite Hshown'. subst o. simpl.
      rewrite (bool_decide_eq_false_2 _ Hid). simpl.
      unfold selectedValue. simpl. by split_and!.
    + assert (existsb selected (opts ++ [o])%list = true) as ->.
      { rewrite existsb_selected, filter_snoc_unselected by done.
        apply bool_decide_eq_true. intros Hnil. rewrite Hnil in Hcount. simpl in Hcount. lia. }
      rewrite keepLast_single
        by (rewrite filter_snoc_unselected by done; rewrite Hcount; simpl; lia).
      cbv beta iota in Hshown'.
      unfold appended, selectedValue in *. rewrite Hshown', <- Hshown.
      rewrite filter_snoc_unselected by done.
      rewrite !fmap_app, Hvalues, Htexts, Hcount, length_app. simpl.
      by split_and!.
Qed.

Lemma foldl_appendOption selectId currentValue l p c :
  dom p !! selectId = Some c → options c = Some [] → value c = "" →
  ∃ c' opts,
    foldl (λ done model,
             done ;;
             let option :=
               {| option_value := id model; option_text := name model;
                  option_title := description model;
                  selected := bool_decide (id model = currentValue) |} in
             invoke selectId "appendChild" (appendOption option))
          (mret tt) l p
    = (Normal tt, set_dom (<[selectId := c']> (dom p)) p)
    ∧ options c' = Some opts ∧ value c' = selectedValue opts
    ∧ appended l currentValue opts.
Proof.
  intros Hc Hopts Hvalue. induction l as [|model l IH] using rev_ind.
  - exists c, []. split_and!; [|done|done|done].
    simpl. rewrite insert_id by done. by destruct p.
  - destruct IH as (c' & opts & Hrun & Hopts' & Hvalue' & Happended).
    set (o := {| option_value := id model; option_text := name model;
                 option_title := description model;
                 selected := bool_decide (id model = currentValue) |}).
    exists (appendOption o c'), (settle (Js.push opts o)). split_and!.
    + rewrite foldl_app. simpl. apply bind_normal. exists tt, (set_dom (<[selectId := c']> (dom p)) p).
      split; [exact Hrun|]. unfold invoke. simpl. rewrite lookup_insert_eq.
      by rewrite insert_insert_eq.
    + unfold appendOption. by rewrite Hopts'.
    + unfold appendOption. by rewrite Hopts'.
    + by apply appended_snoc.
Qed.

Lemma shown_nil currentValue : shown [] currentValue = "".
Proof. done. Qed.

(** X20. [populateModelSelect] leaves a [select] with one option for each
    model of the list, in the order of the list, and showing the model
    [currentValue] when that one is in the list and the first model of the
    list when it is not; the rest of the page is as it was. *)
Theorem populateModelSelect_shows selectId modelList currentValue p c :
  dom p !! selectId = Some c → is_Some (options c) →
  ∃ c' opts,
    populateModelSelect selectId modelList currentValue p
      = (Normal tt, set_dom (<[selectId := c']> (dom p)) p)
    ∧ options c' = Some opts
    ∧ option_value <$> opts = id <$> modelList
    ∧ option_text <$> opts = name <$> modelList
    ∧ value c' = shown modelList currentValue.
Proof.
  intros Hc [old Hold].
  set (c0 := set_innerHTML "" c).
  set (p0 := set_dom (<[selectId := c0]> (dom p)) p).
  destruct (foldl_appendOption selectId currentValue modelList p0 c0)
    as (c' & opts & Hrun & Hopts & Hvalue & Hvalues & Htexts & _ & Hshown).
  { subst p0. simpl. by rewrite lookup_insert_eq. }
  { subst c0. unfold set_innerHTML, replaceChildren. simpl. by rewrite Hold. }
  { subst c0. unfold set_innerHTML, replaceChildren. simpl. by rewrite Hold. }
  exists c', opts. split_and!; [|done|done|done|].
  - unfold populateModelSelect. apply bind_normal. exists tt, p0. split.
    + unfold write. by rewrite Hc.
    + etrans; [exact Hrun|]. subst p0. simpl. by rewrite insert_insert_eq.
  - rewrite Hvalue, Hshown. by destruct modelList.
Qed.

Lemma populateModelSelect_shows_witness :
  ∃ c' opts,
    populateModelSelect "modelTranslation" [flash; pro] "gemini-1.5-pro"
      {| currentSettings := None; availableModels := None; dom := sampleDocument;
         network := []; timers := []; created := 0; listeners := [] |}
      = (Normal tt,
         set_dom (<["modelTranslation" := c']> sampleDocument)
           {| currentSettings := None; availableModels := None; dom := sampleDocument;
              network := []; timers := []; created := 0; listeners := [] |})
    ∧ options c' = Some opts
    ∧ option_value <$> opts = id <$> [flash; pro]
    ∧ option_text <$> opts = name <$> [flash; pro]
    ∧ value c' = shown [flash; pro] "gemini-1.5-pro".
Proof.
  apply (populateModelSelect_shows "modelTranslation" [flash; pro] "gemini-1.5-pro"
           {| currentSettings := None; availableModels := None; dom := sampleDocument;
              network := []; timers := []; created := 0; listeners := [] |} select).
  - by vm_compute.
  - by exists [].
Defined.

End SettingsProps.

(** *** What the handlers of the settings page keep *)

Module SettingsRuns.
Import Settings.

Lemma quiet_set_value v : quiet (set_value v).
Proof. intros c. by left. Qed.

Lemma quiet_assign v : quiet (assign v).
Proof. intros c. by left. Qed.

Lemma quiet_set_disabled v : quiet (set_disabled v).
Proof. intros c. by left. Qed.

Lemma quiet_set_placeholder v : quiet (set_placeholder v).
Proof. intros c. by left. Qed.

Lemma quiet_set_innerHTML markup : quiet (set_innerHTML markup).
Proof. intros c. by right. Qed.

Lemma quiet_set_textContent text_ : quiet (set_textContent text_).
Proof. intros c. by right. Qed.

Lemma quiet_appendOption o : quiet (appendOption o).
Proof. intros c. left. unfold appendOption. by destruct (options c). Qed.

Lemma alter_present (f : Control → Control) id_ (d : gmap string Control) c :
  d !! id_ = Some c → <[id_ := f c]> d = alter f id_ d.
Proof.
  intros Hc. apply map_eq. intros id'. destruct (decide (id' = id_)) as [->|Hne].
  - by rewrite lookup_insert_eq, lookup_alter_eq, Hc.
  - by rewrite lookup_insert_ne, lookup_alter_ne.
Qed.

Lemma orUndefined_filled a : orUndefined a ≠ Some "".
Proof. unfold orUndefined. by destruct a. Qed.

Lemma truthy_filled a : Js.truthy a = true → a ≠ "".
Proof. by intros Ha ->. Qed.

Section Frame.
Context (R : relation Page) `{!PreOrder R}.
Context (Hdom : ∀ id_ f p, quiet f → R p (set_dom (alter f id_ (dom p)) p)).
Context (Hshow : ∀ message_ type, keeps R (showAlert message_ type)).
Context (Htimer : ∀ t, keeps R (setTimeout t)).
Context (Hfetch : ∀ r, expected r → keeps R (fetch r)).
Context (Hsettings : ∀ v p, R p (set_currentSettings v p)).
Context (Hmodels : ∀ v p, R p (set_availableModels v p)).
Context (Hlisteners : ∀ v p, R p (set_listeners v p)).

Lemma frame_read {A} id_ prop (get : Control → A) : keeps R (read id_ prop get).
Proof. intros p. unfold read. by destruct (dom p !! id_). Qed.

Lemma frame_write id_ prop f : quiet f → keeps R (write id_ prop f).
Proof.
  intros Hf p. unfold write. destruct (dom p !! id_) as [c|] eqn:Hc; simpl; [|done].
  rewrite (alter_present f id_ _ c Hc). by apply Hdom.
Qed.

Lemma frame_invoke id_ method_ f : quiet f → keeps R (invoke id_ method_ f).
Proof.
  intros Hf p. unfold invoke. destruct (dom p !! id_) as [c|] eqn:Hc; simpl; [|done].
  rewrite (alter_present f id_ _ c Hc). by apply Hdom.
Qed.

Lemma frame_addEventListener id_ : keeps R (addEventListener id_).
Proof. intros p. unfold addEventListener. destruct (dom p !! id_); simpl; [apply Hlisteners | done]. Qed.

Lemma frame_foldl {A} (f : A → Eff Page unit) l m0 :
  keeps R m0 → (∀ a, keeps R (f a)) → keeps R (foldl (λ done a, done ;; f a) m0 l).
Proof.
  intros Hm0 Hf. revert m0 Hm0. induction l as [|a l IH]; intros m0 Hm0; simpl; [done|].
  apply IH. by apply keeps_bind.
Qed.

#[local] Hint Resolve frame_read frame_write frame_invoke frame_addEventListener
  quiet_set_value quiet_assign quiet_set_disabled quiet_set_placeholder
  quiet_set_innerHTML quiet_set_textContent quiet_appendOption : keeps.
#[local] Hint Extern 1 (keeps _ (showAlert _ _)) => apply Hshow : keeps.
#[local] Hint Extern 1 (keeps _ (setTimeout _)) => apply Htimer : keeps.

Lemma frame_populateModelSelect selectId modelList currentValue :
  keeps R (populateModelSelect selectId modelList currentValue).
Proof.
  unfold populateModelSelect. apply keeps_bind; [apply _ | auto with keeps |]. intros _.
  apply (frame_foldl (λ model, invoke selectId "appendChild" (appendOption _)));
    auto with keeps.
Qed.

Lemma frame_populate data :
  keeps R (populateAPIKeySection data ;;
           populateModelSelections data ;;
           populateTemperatures (temperatures data) ;;
           populatePreferences (preferences data)).
Proof.
  pose proof frame_populateModelSelect.
  unfold populateAPIKeySection, populateModelSelections, populateTemperatures,
    populatePreferences, setSliderValue.
  keeps_tac.
Qed.

Lemma frame_loadSettings : keeps R loadSettings.
Proof.
  unfold loadSettings, inLoad, catchLoad. keeps_tac. apply Hfetch. by left.
Qed.

Lemma frame_afterLoadFetch r : keeps R (afterLoadFetch r).
Proof. unfold afterLoadFetch, inLoad, catchLoad. keeps_tac. Qed.

Lemma frame_afterLoadJson response r : keeps R (afterLoadJson response r).
Proof.
  pose proof frame_populateModelSelect.
  unfold afterLoadJson, inLoad, catchLoad, populateAPIKeySection, populateModelSelections,
    populateTemperatures, populatePreferences, setSliderValue.
  keeps_tac; apply keeps_modify; auto.
Qed.

Lemma frame_testApiKey : keeps R testApiKey.
Proof.
  unfold testApiKey. apply keeps_bind; [apply _ | auto with keeps |]. intros apiKey.
  destruct (Js.truthy apiKey) eqn:Hkey; simpl; [|keeps_tac].
  unfold inTest, catchTest, finallyTest. keeps_tac.
  apply Hfetch. simpl. split_and!; [done | done | by apply truthy_filled].
Qed.

Lemma frame_afterTestFetch r : keeps R (afterTestFetch r).
Proof. unfold afterTestFetch, inTest, catchTest, finallyTest. keeps_tac. Qed.

Lemma frame_afterTestJson response r : keeps R (afterTestJson response r).
Proof. unfold afterTestJson, inTest, catchTest, finallyTest. keeps_tac. Qed.

Lemma frame_saveSettings : keeps R saveSettings.
Proof.
  unfold saveSettings, inSave, catchSave, finallySave. keeps_tac.
  apply Hfetch. simpl. split_and!; [done | done | apply orUndefined_filled].
Qed.

Lemma frame_afterSaveFetch r : keeps R (afterSaveFetch r).
Proof. unfold afterSaveFetch, inSave, catchSave, finallySave. keeps_tac. Qed.

Lemma frame_afterSaveJson response r : keeps R (afterSaveJson response r).
Proof. unfold afterSaveJson, inSave, catchSave, finallySave. keeps_tac. Qed.

Lemma frame_resetSettings confirmed : keeps R (resetSettings confirmed).
Proof.
  unfold resetSettings, inReset, catchReset, finallyReset. keeps_tac.
  apply Hfetch. by right.
Qed.

Lemma frame_afterResetFetch r : keeps R (afterResetFetch r).
Proof. unfold afterResetFetch, inReset, catchReset, finallyReset. keeps_tac. Qed.

Lemma frame_afterResetJson response r : keeps R (afterResetJson response r).
Proof. unfold afterResetJson, inReset, catchReset, finallyReset. keeps_tac. Qed.

Lemma frame_input id_ v (b : bool) :
  keeps R (finish
             (modify (λ p, set_dom (alter (set_value v) id_ (dom p)) p) ;;
              if b then onSliderInput id_ else mret tt)).
Proof.
  unfold finish, onSliderInput. keeps_tac. apply keeps_modify. intros p.
  apply Hdom, quiet_set_value.
Qed.

Lemma frame_setupEventListeners : keeps R (finish setupEventListeners).
Proof. unfold finish, setupEventListeners, setupTemperatureSlider. keeps_tac. Qed.

(** The events, given what a timer that fires does. *)
Lemma frame_step w e :
  (∀ i t, timers (page w) !! i = Some t →
     R (page w)
       (page (dispatch
                (modify (λ p, set_timers (delete i (timers p)) p) ;;
                 match t with
                 | RemoveAlert key_ => finish (removeAlert key_)
                 | ClearAlerts => finish clearAlerts
                 | Reload => loadSettings
                 end) w))) →
  R (page w) (page (step w e)).
Proof.
  intros Hfire. destruct e; cbn [step].
  - destruct (listens _ _); [|done]. apply (dispatch_keeps R). apply frame_testApiKey.
  - destruct (listens _ _); [|done]. apply (dispatch_keeps R). apply frame_saveSettings.
  - destruct (listens _ _); [|done]. apply (dispatch_keeps R). apply frame_resetSettings.
  - apply (dispatch_keeps R). apply frame_input.
  - apply (resume_keeps R). intros t h Hh. destruct t; simplify_eq/=;
      auto using frame_afterLoadFetch, frame_afterTestFetch, frame_afterSaveFetch,
        frame_afterResetFetch.
  - apply (resume_keeps R). intros t h Hh. destruct t; simplify_eq/=.
    apply frame_afterLoadJson.
  - apply (resume_keeps R). intros t h Hh. destruct t; simplify_eq/=.
    apply frame_afterTestJson.
  - apply (resume_keeps R). intros t h Hh. destruct t; simplify_eq/=.
    apply frame_afterSaveJson.
  - apply (resume_keeps R). intros t h Hh. destruct t; simplify_eq/=.
    apply frame_afterResetJson.
  - destruct (timers (page w) !! i) as [t|] eqn:Ht; [|done]. by apply Hfire.
Qed.

End Frame.

Lemma run_invariant (I : Page → Prop) :
  (∀ w e, I (page w) → I (page (step w e))) →
  ∀ events w, I (page w) → I (page (run w events)).
Proof.
  intros Hstep events. unfold run.
  induction events as [|e events IH]; intros w Hw; simpl; [done|].
  apply IH. by apply Hstep.
Qed.

Lemma init_invariant (R : relation Page) `{!PreOrder R} d :
  keeps R loadSettings → keeps R (finish setupEventListeners) →
  R {| currentSettings := None; availableModels := None; dom := d; network := [];
       timers := []; created := 0; listeners := [] |}
    (page (init d)).
Proof.
  intros Hload Hsetup. unfold init.
  set (blank := {| page := _; tasks := [] |}).
  change (R (page blank)
            (page (dispatch (finish setupEventListeners) (dispatch loadSettings blank)))).
  etrans; by apply (dispatch_keeps R).
Qed.

(** *** The requests of the settings page *)

#[local] Instance sendsExpected_preorder : PreOrder sendsExpected.
Proof. split; [by intros p Hp | intros p1 p2 p3 H12 H23 Hp; apply H23, H12, Hp]. Qed.

Lemma sendsExpected_same p p' : network p' = network p → sendsExpected p p'.
Proof. intros Hsame Hp. by rewrite Hsame. Qed.

Lemma sendsExpected_showAlert message_ type : keeps sendsExpected (showAlert message_ type).
Proof.
  intros p. apply sendsExpected_same.
  unfold showAlert, invoke, setTimeout, mbind, Eff_bind, bind, gets, modify. simpl.
  by destruct (dom p !! "alertContainer").
Qed.

Lemma sendsExpected_fetch r : expected r → keeps sendsExpected (fetch r).
Proof. intros Hr p Hp. simpl. apply Forall_app. by split; [|apply Forall_singleton]. Qed.

Lemma sendsExpected_step w e : sendsExpected (page w) (page (step w e)).
Proof.
  assert (∀ id_ f p, quiet f → sendsExpected p (set_dom (alter f id_ (dom p)) p)) as Hdom
    by (intros; by apply sendsExpected_same).
  assert (∀ t, keeps sendsExpected (setTimeout t)) as Htimer
    by (intros t p; by apply sendsExpected_same).
  apply (frame_step sendsExpected Hdom sendsExpected_showAlert Htimer sendsExpected_fetch);
    try (intros; by apply sendsExpected_same).
  intros i t Ht. apply (dispatch_keeps sendsExpected).
  apply keeps_bind; [apply _ | |intros _].
  { apply keeps_modify. intros p. by apply sendsExpected_same. }
  destruct t.
  - unfold finish, removeAlert. keeps_tac. apply keeps_modify. intros p.
    by apply sendsExpected_same.
  - unfold finish, clearAlerts. keeps_tac.
    apply (frame_write sendsExpected); [done | apply quiet_set_innerHTML].
  - apply (frame_loadSettings sendsExpected);
      [apply sendsExpected_showAlert | apply sendsExpected_fetch].
Qed.

(** X21. Whatever the user does and whatever the server answers, the
    settings page only sends the requests of its four endpoints, and never an
    empty API key: a key that is tested is not empty, and settings are saved
    with a key that is not empty or without a key. *)
Theorem settings_requests_expected d events :
  Forall expected (network (page (run (init d) events))).
Proof.
  apply (run_invariant (λ p, Forall expected (network p))).
  - intros w e. apply sendsExpected_step.
  - assert (∀ id_ f p, quiet f → sendsExpected p (set_dom (alter f id_ (dom p)) p)) as Hdom
      by (intros; by apply sendsExpected_same).
    assert (∀ t, keeps sendsExpected (setTimeout t)) as Htimer
      by (intros t p; by apply sendsExpected_same).
    apply (init_invariant sendsExpected d); [| |by apply Forall_nil].
    + apply (frame_loadSettings sendsExpected);
        [apply sendsExpected_showAlert | apply sendsExpected_fetch].
    + apply (frame_setupEventListeners sendsExpected).
      intros; by apply sendsExpected_same.
Qed.

(** *** The alerts of the settings page *)

#[local] Instance staysTimed_preorder : PreOrder staysTimed.
Proof. split; [by intros p Hp | intros p1 p2 p3 H12 H23 Hp; apply H23, H12, Hp]. Qed.

Lemma staysTimed_same p p' :
  displayed p' = displayed p → timers p' = timers p → staysTimed p p'.
Proof. unfold staysTimed, timed. by intros -> ->. Qed.

Lemma displayed_alter f id_ p :
  quiet f →
  displayed (set_dom (alter f id_ (dom p)) p) = displayed p
  ∨ displayed (set_dom (alter f id_ (dom p)) p) = [].
Proof.
  intros Hf. unfold displayed. simpl.
  destruct (decide (id_ = "alertContainer")) as [->|Hne].
  - rewrite lookup_alter_eq. destruct (dom p !! "alertContainer") as [c|]; simpl; [|by left].
    apply Hf.
  - left. by rewrite lookup_alter_ne.
Qed.

Lemma staysTimed_dom id_ f p : quiet f → staysTimed p (set_dom (alter f id_ (dom p)) p).
Proof.
  intros Hf Hp. unfold timed in *.
  destruct (displayed_alter f id_ p Hf) as [Hsame | Hnone].
  - by rewrite Hsame.
  - rewrite Hnone. by apply Forall_nil.
Qed.

Lemma staysTimed_setTimeout t : keeps staysTimed (setTimeout t).
Proof.
  intros p Hp. unfold timed in *. simpl. eapply Forall_impl; [exact Hp|].
  intros a Ha. apply elem_of_app. by left.
Qed.

Lemma staysTimed_showAlert message_ type : keeps staysTimed (showAlert message_ type).
Proof.
  intros p Hp. unfold timed, displayed in *.
  unfold showAlert, invoke, setTimeout, mbind, Eff_bind, bind, gets, modify. simpl.
  destruct (dom p !! "alertContainer") as [c|] eqn:Hc; simpl in *; [|by rewrite Hc].
  rewrite lookup_insert_eq. simpl. apply Forall_app. split.
  - eapply Forall_impl; [exact Hp|]. intros a Ha. apply elem_of_app. by left.
  - apply Forall_singleton. simpl. apply elem_of_app. right. by apply list_elem_of_singleton.
Qed.

Lemma elem_of_delete_other {A} (l : list A) i x y :
  l !! i = Some y → x ≠ y → x ∈ l → x ∈ delete i l.
Proof.
  intros Hi Hne [j Hj]%list_elem_of_lookup_1.
  destruct (decide (j = i)) as [->|Hji]; [congruence|].
  destruct (decide (j < i)%nat).
  - apply (list_elem_of_lookup_2 _ j). by rewrite list_lookup_delete_lt.
  - apply (list_elem_of_lookup_2 _ (pred j)). rewrite list_lookup_delete_ge by lia.
    by replace (S (pred j)) with j by lia.
Qed.

Lemma staysTimed_fire w i t :
  timers (page w) !! i = Some t →
  staysTimed (page w)
    (page (dispatch
             (modify (λ p, set_timers (delete i (timers p)) p) ;;
              match t with
              | RemoveAlert key_ => finish (removeAlert key_)
              | ClearAlerts => finish clearAlerts
              | Reload => loadSettings
              end) w)).
Proof.
  intros Ht.
  assert (∀ t', (∀ k, t' ≠ RemoveAlert k) → timers (page w) !! i = Some t' →
          staysTimed (page w) (set_timers (delete i (timers (page w))) (page w)))
    as Hother.
  { intros t' Ht' Hi Hp. unfold timed in *. eapply Forall_impl; [exact Hp|].
    intros a Ha. simpl. by apply (elem_of_delete_other _ _ _ t'). }
  destruct t as [key_| |].
  - intros Hp. unfold dispatch, finish, removeAlert. simpl.
    unfold timed, displayed in *. simpl. rewrite lookup_alter_eq.
    destruct (dom (page w) !! "alertContainer") as [c|]; simpl in *; [|done].
    apply Forall_forall. intros a [Hkey Ha]%list_elem_of_filter.
    apply (elem_of_delete_other _ _ _ (RemoveAlert key_)); [done | congruence |].
    by apply (proj1 (Forall_forall _ _) Hp).
  - etrans; [by apply (Hother ClearAlerts)|].
    set (p1 := set_timers _ _).
    change (staysTimed p1
              (page (dispatch (finish clearAlerts) {| page := p1; tasks := tasks w |}))).
    apply (dispatch_keeps staysTimed (finish clearAlerts)
             {| page := p1; tasks := tasks w |}).
    unfold finish, clearAlerts. keeps_tac.
    apply (frame_write staysTimed); [apply staysTimed_dom | apply quiet_set_innerHTML].
  - etrans; [by apply (Hother Reload)|].
    set (p1 := set_timers _ _).
    change (staysTimed p1
              (page (dispatch loadSettings {| page := p1; tasks := tasks w |}))).
    apply (dispatch_keeps staysTimed loadSettings {| page := p1; tasks := tasks w |}).
    apply (frame_loadSettings staysTimed); [apply staysTimed_showAlert|].
    intros r _ p. by apply staysTimed_same.
Qed.

Lemma staysTimed_step w e : staysTimed (page w) (page (step w e)).
Proof.
  apply (frame_step staysTimed staysTimed_dom staysTimed_showAlert staysTimed_setTimeout).
  - intros r _ p. by apply staysTimed_same.
  - intros v p. by apply staysTimed_same.
  - intros v p. by apply staysTimed_same.
  - intros i t. apply staysTimed_fire.
Qed.

(** X22. On a page whose alert container starts out empty, every alert
    on display has its removal timer pending, whatever happens: no alert
    stays for good. *)
Theorem settings_alerts_expire d events :
  from_option alerts [] (d !! "alertContainer") = [] →
  timed (page (run (init d) events)).
Proof.
  intros Hd. apply (run_invariant timed).
  - intros w e. apply staysTimed_step.
  - apply (init_invariant staysTimed d).
    + apply (frame_loadSettings staysTimed); [apply staysTimed_showAlert|].
      intros r _ p. by apply staysTimed_same.
    + apply (frame_setupEventListeners staysTimed).
      intros; by apply staysTimed_same.
    + unfold timed, displayed. simpl. rewrite Hd. by apply Forall_nil.
Qed.

Lemma settings_alerts_expire_witness :
  from_option alerts [] (sampleDocument !! "alertContainer") = []
  ∧ timed (page (run (init sampleDocument) [ClickTest])).
Proof.
  split; [by vm_compute|]. apply (settings_alerts_expire sampleDocument [ClickTest]).
  by vm_compute.
Defined.

End SettingsRuns.

(** ** Handlers on a part of the state *)

Section LiftLemmas.
Context {P Q : Type} (get : Q → P) (set : P → Q → Q).
Context (R : relation P) (R' : relation Q).

Lemma keeps_lift {A} (m : Eff P A) :
  (∀ q p', R (get q) p' → R' q (set p' q)) → keeps R m → keeps R' (lift get set m).
Proof.
  intros Hset Hm q. unfold lift. specialize (Hm (get q)).
  destruct (m (get q)) as [r p']. by apply Hset.
Qed.

End LiftLemmas.

Section Weaken.
Context {S : Type} (R R' : relation S).

Lemma keeps_weaken {A} (m : Eff S A) : (∀ s s', R s s' → R' s s') → keeps R m → keeps R' m.
Proof. intros HR Hm s. apply HR, Hm. Qed.

End Weaken.

(** ** The whole planning-detail page *)

Module DetailPageProps.
Import DetailControls DetailPage.

(** *** The fields of the low-rise zone *)

(** What a handler does keeps the fields in line with the box. *)
Abbreviation follows :=
  (λ p p' : Page, lowriseShown (detail p) → lowriseShown (detail p')).

(** The box and the fields are as they were. *)
Abbreviation untouched := (unchanged (λ _ : Page, tt) lowrise).
Abbreviation untouchedDetail := (unchanged (λ _ : Detail.Page, tt) lowrise).

#[local] Instance follows_preorder : PreOrder follows.
Proof. split; [by intros p Hp | intros p1 p2 p3 H12 H23 Hp; apply H23, H12, Hp]. Qed.

#[local] Instance untouchedDetail_preorder : PreOrder untouchedDetail.
Proof. apply unchanged_preorder. Qed.

Lemma untouched_follows p p' : untouched p p' → follows p p'.
Proof.
  intros [_ Hsee]. apply (DetailInvariants.shown_view (detail p) (detail p')).
  by split.
Qed.

Lemma follows_write id prop f : unseen lowrise id f → keeps follows (write id prop f).
Proof.
  intros Hf. eapply keeps_weaken; [apply untouched_follows|].
  apply unchanged_write; [by intros [] | by intros [] | done].
Qed.

Lemma follows_onDetail {A} (m : Eff Detail.Page A) :
  keeps untouchedDetail m → keeps follows (onDetail m).
Proof.
  apply keeps_lift. intros p d Hd. by apply DetailInvariants.shown_view.
Qed.

Lemma follows_modify (f : Page → Page) : (∀ p, detail (f p) = detail p) → keeps follows (modify f).
Proof. intros Hf. apply keeps_modify. intros p. by rewrite Hf. Qed.

Lemma untouchedDetail_helpers :
  (∀ id msg, id ≠ "has_lowrise" → id ≠ "lowrise_fields" →
     keeps untouchedDetail (Detail.showError id msg)) ∧
  (∀ id, id ≠ "has_lowrise" → id ≠ "lowrise_fields" →
     keeps untouchedDetail (Detail.hideError id)) ∧
  (∀ id msg, id ≠ "has_lowrise" → id ≠ "lowrise_fields" →
     keeps untouchedDetail (Detail.showSuccess id msg)) ∧
  (∀ id, id ≠ "has_lowrise" → id ≠ "lowrise_fields" →
     keeps untouchedDetail (Detail.hideSuccess id)) ∧
  (∀ id b, id ≠ "has_lowrise" → id ≠ "lowrise_fields" →
     keeps untouchedDetail (Detail.showSpinner id b)).
Proof.
  unfold Detail.showError, Detail.hideError, Detail.showSuccess, Detail.hideSuccess,
    Detail.showSpinner.
  split_and!; intros; apply unchanged_whenPresent; try done; unseen_tac; done.
Qed.

Lemma follows_whenPresent id f :
  unseen lowrise id f → keeps follows (onDetail (whenPresent id f)).
Proof.
  intros Hf. apply follows_onDetail. by apply unchanged_whenPresent.
Qed.

#[local] Hint Extern 1 (keeps _ (write _ _ _)) =>
  apply follows_write; unseen_tac; done : keeps.
#[local] Hint Extern 1 (keeps _ (onDetail (whenPresent _ _))) =>
  apply follows_whenPresent; unseen_tac; done : keeps.
#[local] Hint Extern 1 (keeps _ (modify _)) =>
  apply follows_modify; by intros [] : keeps.

(** [fillFormFromAnalysis] checks the box and displays the fields
    together. *)
Lemma follows_lowrise (rest : Eff Page unit) :
  keeps follows rest →
  keeps follows (write "has_lowrise" "checked" (set_checked true) ;;
                 write "lowrise_fields" "classList" (classList_remove "hidden") ;;
                 rest).
Proof.
  intros Hrest p Hp. unfold mbind, Eff_bind, bind, write. simpl.
  destruct (Detail.dom (detail p) !! "has_lowrise") as [box|] eqn:Hbox; simpl; [|done].
  rewrite lookup_insert_ne by done.
  destruct (Detail.dom (detail p) !! "lowrise_fields") as [fields|] eqn:Hfields; simpl.
  - apply Hrest. unfold lowriseShown. simpl.
    rewrite lookup_insert_ne, lookup_insert_eq by done. rewrite lookup_insert_eq. simpl.
    apply hidden_remove.
  - unfold lowriseShown. simpl. by rewrite lookup_insert_eq, lookup_insert_ne, Hfields.
Qed.

Section Controls.
Context (assignValue : string → Element → Element).

Lemma follows_fillFormFromAnalysis analysis_ :
  keeps follows (fillFormFromAnalysis assignValue analysis_).
Proof.
  unfold fillFormFromAnalysis, fill. destruct analysis_ as [a|]; [|apply keeps_throw; apply _].
  repeat first
    [ apply follows_lowrise
    | solve [eauto with keeps typeclass_instances]
    | apply keeps_bind; [apply _ | | intros _]
    | apply keeps_if
    | match goal with |- keeps _ (match ?x with _ => _ end) => destruct x end ].
Qed.

Lemma follows_handlers :
  keeps follows analyzeSketch
  ∧ (∀ r, keeps follows (afterAnalyzeFetch r))
  ∧ (∀ r, keeps follows (afterAnalyzeErrorJson r))
  ∧ (∀ r, keeps follows (afterAnalyzeJson assignValue r))
  ∧ (∀ now, keeps follows (finish (handleDownloadImage now)))
  ∧ (∀ n, keeps follows
            (finish (modify (set_timers n) ;; onDetail (Detail.hideSuccess "renderSuccess")))).
Proof.
  pose proof follows_fillFormFromAnalysis.
  unfold analyzeSketch, afterAnalyzeFetch, afterAnalyzeErrorJson, afterAnalyzeJson,
    handleDownloadImage, finish, inAnalyze, catchAnalyze, finallyAnalyze, fetch,
    Detail.showError, Detail.hideError, Detail.showSuccess, Detail.hideSuccess,
    Detail.showSpinner.
  split_and!; intros; keeps_tac.
Qed.

Lemma follows_step w e :
  lowriseShown (detail (state w)) → lowriseShown (detail (state (step assignValue w e))).
Proof.
  intros Hw.
  destruct follows_handlers as (Hanalyze & Hfetch & Herror & Hjson & Hdownload & Htimer).
  destruct e; cbn [step].
  - by apply (DetailInvariants.lowriseShown_step (renders w)).
  - destruct (Detail.clickable _ _); [|done].
    by apply (dispatch_keeps follows analyzeSketch (analyzes w)).
  - by apply (dispatch_keeps follows _ (analyzes w)).
  - apply (resume_keeps follows i _ (analyzes w)); [|done]. by intros [] h [= <-].
  - apply (resume_keeps follows i _ (analyzes w)); [|done]. by intros [] h [= <-].
  - apply (resume_keeps follows i _ (analyzes w)); [|done]. by intros [] h [= <-].
  - destruct (timers (state w)) as [|n]; [done|].
    by apply (dispatch_keeps follows _ (analyzes w)).
Qed.


End Controls.


(** *** The requests of the page *)

(** The sketch, the renders asked for and the analyses asked for are as
    they were. *)
Abbreviation silent :=
  (unchanged
     (λ p : Page, (Detail.currentSketchImage (detail p), Detail.network (detail p),
                   analyses p))
     (@nil (string * (Element → unit)))).
Abbreviation silentDetail :=
  (unchanged (λ p : Detail.Page, (Detail.currentSketchImage p, Detail.network p))
     (@nil (string * (Element → unit)))).

(** On a page whose sketch is [u], the sketch and the renders asked for
    stay and the analyses asked for are for [u], which is a sketch. *)
Abbreviation asksFor :=
  (λ (u : option Url) (p p' : Page),
     Detail.currentSketchImage (detail p) = u →
     Detail.currentSketchImage (detail p') = u
     ∧ Detail.network (detail p') = Detail.network (detail p)
     ∧ ∃ new, analyses p' = (analyses p ++ new)%list
              ∧ Forall (λ r, url r = "http://localhost:5001/api/planning/analyze-sketch"
                             ∧ method r = "POST" ∧ image_base64 r = u ∧ is_Some u) new).

#[local] Instance silent_preorder : PreOrder silent.
Proof. apply unchanged_preorder. Qed.

#[local] Instance silentDetail_preorder : PreOrder silentDetail.
Proof. apply unchanged_preorder. Qed.

#[local] Instance asksFor_preorder u : PreOrder (asksFor u).
Proof.
  split.
  - intros p Hp. split_and!; [done | done |]. exists []. by rewrite app_nil_r.
  - intros p1 p2 p3 H12 H23 Hp.
    destruct (H12 Hp) as (Hu2 & Hn2 & new2 & Ha2 & Hnew2).
    destruct (H23 Hu2) as (Hu3 & Hn3 & new3 & Ha3 & Hnew3).
    split_and!; [done | congruence |]. exists (new2 ++ new3)%list.
    split; [by rewrite Ha3, Ha2, app_assoc | by apply Forall_app].
Qed.

Lemma silent_asksFor u p p' : silent p p' → asksFor u p p'.
Proof.
  intros [[= Hsketch Hnetwork Hanalyses] _] Hu. split_and!; [congruence | done |].
  exists []. by rewrite app_nil_r.
Qed.

Lemma silent_write id prop f : keeps silent (write id prop f).
Proof. apply unchanged_write; [by intros [] | by intros [] | by apply Forall_nil]. Qed.

Lemma silent_whenPresent id f : keeps silent (onDetail (whenPresent id f)).
Proof.
  apply (keeps_lift detail set_detail silentDetail).
  - intros p d [[= Hsketch Hnetwork] _]. split; [|done]. simpl. congruence.
  - apply unchanged_whenPresent; [by intros [] | by intros [] | by apply Forall_nil].
Qed.

Section Requests.
Context (assignValue : string → Element → Element).

Lemma silent_handlers :
  (∀ message_, keeps silent
     (onDetail (Detail.showError "renderError" message_) ;; mret Finished
        : Eff Page (Step Task)))
  ∧ (∀ r, keeps silent (afterAnalyzeFetch r))
  ∧ (∀ r, keeps silent (afterAnalyzeErrorJson r))
  ∧ (∀ r, keeps silent (afterAnalyzeJson assignValue r))
  ∧ (∀ now, keeps silent (finish (handleDownloadImage now)))
  ∧ (∀ n, keeps silent
            (finish (modify (set_timers n) ;; onDetail (Detail.hideSuccess "renderSuccess")))).
Proof.
  pose proof silent_write. pose proof silent_whenPresent.
  assert (∀ f : Page → Page,
            (∀ p, (Detail.currentSketchImage (detail (f p)), Detail.network (detail (f p)),
                   analyses (f p))
                  = (Detail.currentSketchImage (detail p), Detail.network (detail p),
                     analyses p)) →
            (∀ p, detail (f p) = detail p) → keeps silent (modify f)) as Hmodify.
  { intros f Hglobals Hdetail. apply unchanged_modify; [done|].
    intros p. simpl. by rewrite Hdetail. }
  unfold afterAnalyzeFetch, afterAnalyzeErrorJson, afterAnalyzeJson, fillFormFromAnalysis,
    fill, handleDownloadImage, finish, inAnalyze, catchAnalyze, finallyAnalyze,
    Detail.showError, Detail.hideError, Detail.showSuccess, Detail.hideSuccess,
    Detail.showSpinner.
  split_and!; intros; keeps_tac; apply Hmodify; by intros [].
Qed.

(** The request of [analyzeSketch], and what the handler does once it
    has found a sketch. *)
Abbreviation asking :=
  ((image ← gets (λ p, Detail.currentSketchImage (detail p));
    fetch {| url := Detail.API_BASE_URL +:+ "/planning/analyze-sketch";
             method := "POST"; image_base64 := image |} ;;
    mret (Await AnalyzeFetch)) : Eff Page (Step Task)).
Abbreviation analysing :=
  ((write "analyzeSketchButton" "disabled" (set_disabled true) ;;
    write "analyzeButtonText" "textContent" (set_textContent "Đang phân tích...") ;;
    onDetail (Detail.showSpinner "analyzeSpinner" true) ;;
    onDetail (Detail.hideError "renderError") ;;
    inAnalyze asking) : Eff Page (Step Task)).

Lemma analyzeSketch_guard p :
  analyzeSketch p
  = if negb (bool_decide (is_Some (Detail.currentSketchImage (detail p)))) then
      (onDetail (Detail.showError "renderError" "Vui lòng upload sketch trước!") ;;
       mret Finished) p
    else analysing p.
Proof. unfold analyzeSketch, mbind at 1, Eff_bind at 1, bind at 1. simpl. by case_match. Qed.

Lemma asksFor_request v : keeps (asksFor (Some v)) asking.
Proof.
  intros p Hp. simpl. split_and!; [done | done |]. eexists. split; [done|].
  apply Forall_singleton. simpl. by rewrite Hp.
Qed.

Lemma asksFor_analyzeSketch u : keeps (asksFor u) analyzeSketch.
Proof.
  destruct silent_handlers as (Hmissing & _).
  intros p. rewrite analyzeSketch_guard.
  destruct (bool_decide (is_Some (Detail.currentSketchImage (detail p)))) eqn:Hguard;
    simpl; [|apply (silent_asksFor u p _ (Hmissing "Vui lòng upload sketch trước!" p))].
  apply bool_decide_eq_true in Hguard as [v Hv]. intros Hu.
  assert (u = Some v) as -> by congruence.
  assert (keeps (asksFor (Some v)) analysing) as Hrest; [|by apply Hrest].
  {
    assert (∀ {A} (m : Eff Page A), keeps silent m → keeps (asksFor (Some v)) m) as Hweaken
      by (intros A m; apply keeps_weaken, silent_asksFor).
    unfold inAnalyze, catchAnalyze, finallyAnalyze, Detail.showError, Detail.hideError,
      Detail.showSpinner.
    repeat first
      [ apply asksFor_request
      | apply Hweaken; first [apply silent_write | apply silent_whenPresent]
      | apply keeps_bind; [apply _ | | intros _]
      | apply keeps_protect; [apply _ | | intros | ]
      | apply keeps_try_finally; [apply _ | |] ]. }
Qed.

(** What a turn of the event loop other than a turn of the renders
    leaves. *)
Lemma sketchFirst_asksFor w p' ts :
  sketchFirst w →
  asksFor (Detail.currentSketchImage (detail (state w))) (state w) p' →
  sketchFirst {| state := p'; rendering := rendering w; analyzing := ts |}.
Proof.
  intros ((Hnone & Hsome & Hsent) & Hasked & Hnothing) Hp'.
  destruct (Hp' eq_refl) as (Hsketch & Hnetwork & new & Hanalyses & Hnew).
  unfold sketchFirst, DetailControls.sketchFirst, renders, Detail.inFlight in *.
  simpl in *. rewrite Hsketch, Hnetwork, Hanalyses. split_and!; try done.
  - apply Forall_app. split; [done|]. eapply Forall_impl; [exact Hnew|].
    intros r (Hurl & Hmethod & Himage & Hu). split_and!; [done | done |].
    rewrite Himage. by apply Hsome.
  - intros Hno. rewrite (Hnothing Hno). destruct new as [|r new]; [done|].
    apply Forall_cons in Hnew as [(_ & _ & _ & [? Hu]) _]. congruence.
Qed.

Lemma page_sketchFirst_step w e : sketchFirst w → sketchFirst (step assignValue w e).
Proof.
  intros Hw.
  destruct silent_handlers as (_ & Hfetch & Herror & Hjson & Hdownload & Htimer).
  set (u := Detail.currentSketchImage (detail (state w))).
  destruct e; cbn [step].
  - destruct Hw as (Hrenders & Hasked & Hnothing).
    pose proof (DetailInvariants.sketchFirst_step (renders w) e Hrenders) as Hstep.
    pose proof (DetailInvariants.sketch_step (renders w) e) as Hsketch.
    unfold sketchFirst, withRenders, renders in *. simpl in *.
    destruct (Detail.step _ e) as [p' ts']. simpl in *. split_and!; [done | done |].
    intros Hno. apply Hnothing. destruct Hsketch as [<- | [file Hfile]]; [done|].
    congruence.
  - destruct (Detail.clickable _ _); [|done]. apply sketchFirst_asksFor; [done|].
    apply (dispatch_keeps (asksFor u) analyzeSketch (analyzes w)), asksFor_analyzeSketch.
  - apply sketchFirst_asksFor; [done|]. apply silent_asksFor.
    apply (dispatch_keeps silent _ (analyzes w)), Hdownload.
  - apply sketchFirst_asksFor; [done|]. apply silent_asksFor.
    apply (resume_keeps silent i _ (analyzes w)). by intros [] h [= <-].
  - apply sketchFirst_asksFor; [done|]. apply silent_asksFor.
    apply (resume_keeps silent i _ (analyzes w)). by intros [] h [= <-].
  - apply sketchFirst_asksFor; [done|]. apply silent_asksFor.
    apply (resume_keeps silent i _ (analyzes w)). by intros [] h [= <-].
  - destruct (timers (state w)) as [|n]; [done|].
    apply sketchFirst_asksFor; [done|]. apply silent_asksFor.
    apply (dispatch_keeps silent _ (analyzes w)), Htimer.
Qed.

(** X19. No request before a sketch. Every request the planning-detail
    page sends is a POST, to the endpoint of the detail render or to the one
    of the analysis, that carries the data URL of an uploaded file; while
    the page has no sketch, it has sent nothing and no render is in
    flight. *)
Theorem sketch_before_request (d : gmap string Element) (events : list Event) :
  sketchFirst (run assignValue (init d) events).
Proof.
  assert (sketchFirst (init d)) as Hinit.
  { split_and!; [|by apply Forall_nil|done].
    split_and!; [done| |by apply Forall_nil]. by intros [? [=]]. }
  revert Hinit. generalize (init d). intros w Hw. revert w Hw. unfold run.
  induction events as [|e events IH]; intros w Hw; [done|].
  simpl. by apply IH, page_sketchFirst_step.
Qed.

End Requests.

(** *** An analysis that fails *)

Lemma inAnalyze_throws (segment : Eff Page (Step Task)) e p :
  segment p = (Throw e, p) → reportable p →
  ∃ p', inAnalyze segment p = (Normal Finished, p') ∧ reported (Js.message e) p p'.
Proof.
  intros Hsegment ([err Herr] & [btn Hbtn] & [txt Htxt]). simpl in Herr, Hbtn, Htxt.
  unfold inAnalyze, protect. rewrite Hsegment.
  unfold catchAnalyze, finallyAnalyze, Detail.showError, Detail.showSpinner, onDetail,
    lift, whenPresent, modify, write, try_finally, mbind, Eff_bind, bind, mret, Eff_ret,
    ret.
  simpl. rewrite lookup_alter_ne, Hbtn by done. simpl.
  rewrite lookup_insert_ne, lookup_alter_ne, Htxt by done. simpl.
  eexists. split; [done|]. unfold reported. simpl. split_and!; try done.
  - eexists. split.
    + by rewrite lookup_alter_ne, !lookup_insert_ne, lookup_alter_eq, Herr.
    + split; [done | apply hidden_remove].
  - eexists. split; [|shelve].
    by rewrite lookup_alter_ne, lookup_insert_ne, lookup_insert_eq.
    Unshelve. done.
  - eexists. split; [|shelve]. by rewrite lookup_alter_ne, lookup_insert_eq.
    Unshelve. done.
  - intros id Hid.
    rewrite lookup_alter_ne, !lookup_insert_ne, lookup_alter_ne; [done|..];
      intros <-; apply Hid; repeat constructor.
Qed.

Section Failures.
Context (assignValue : string → Element → Element).

(** X24. An analysis that fails is over: however the request fails once
    it is out (the fetch is rejected, the response is not ok, a body cannot
    be read or holds no analysis), on a page with the elements an analysis
    reports to the handler ends, the message of the failure is displayed
    after a fixed prefix, the analyze control is enabled again with its label,
    and nothing is sent or filled in. *)
Theorem analysis_error_is_terminal (w : World) (i : nat) (t : Task)
    (event : nat → Event) (msg : string) :
  Failure t event msg → analyzing w !! i = Some t → reportable (state w) →
  let w' := step assignValue w (event i) in
  analyzing w' = delete i (analyzing w) ∧ rendering w' = rendering w
  ∧ reported msg (state w) (state w').
Proof.
  intros Hfail Htask Hpage.
  assert (∀ e (segment : Eff Page (Step Task))
            (k : Task → option (Eff Page (Step Task))),
            k t = Some (inAnalyze segment) → segment (state w) = (Throw e, state w) →
            let w' := withAnalyzes w (resume i k (analyzes w)) in
            analyzing w' = delete i (analyzing w) ∧ rendering w' = rendering w
            ∧ reported (Js.message e) (state w) (state w')) as Hends.
  { intros e segment k Hk Hsegment.
    destruct (inAnalyze_throws segment e (state w) Hsegment Hpage) as (p' & Hrun & Hp').
    unfold resume, withAnalyzes, analyzes. simpl. rewrite Htask, Hk. simpl.
    by rewrite Hrun. }
  destruct Hfail; cbn [step].
  - by apply (Hends e (throw e)).
  - set (err := Js.mkError (Js.or_else (default "" (error errorData)) "Analyze failed")).
    by apply (Hends err (throw err)).
  - by apply (Hends e (throw e)).
  - by apply (Hends e (throw e)).
  - by apply (Hends (Js.undefinedRead "scale")
                (fillFormFromAnalysis assignValue None ;;
                 onDetail (Detail.showSuccess "renderSuccess"
                    "✅ Đã phân tích sketch thành công! Vui lòng kiểm tra và điều chỉnh các trường nếu cần.") ;;
                 modify (λ p, set_timers (S (timers p)) p) ;;
                 mret Finished)).
Qed.

End Failures.

Lemma analysis_error_is_terminal_witness :
  let w := run set_value (init sampleDocument)
             [OfRender (Detail.Change (Some Samples.photo)); OfRender (Detail.ReaderLoad 0);
              ClickAnalyze; AnalyzeFetchSettles 0 (Fulfilled Samples.serverError)] in
  let w' := step set_value w (AnalyzeErrorJsonSettles 0 (Fulfilled {| error := None |})) in
  analyzing w = [AnalyzeErrorJson]
  ∧ analyzing w' = [] ∧ rendering w' = rendering w
  ∧ reported "Analyze failed" (state w) (state w').
Proof.
  intros w w'. split; [by vm_compute|].
  apply (analysis_error_is_terminal set_value w 0 AnalyzeErrorJson
           (λ i, AnalyzeErrorJsonSettles i (Fulfilled {| error := None |}))
           "Analyze failed" (ErrorResponse {| error := None |})).
  - by vm_compute.
  - split_and!; vm_compute; by eexists.
Defined.

End DetailPageProps.

(** ** The whole planning page *)

Module PlanningPageProps.
Import LotCards PlanningPage.

Lemma same_messages :
  (∀ message_, keeps LotMapFirst.same (Planning.showSuccess "planningSuccess" message_))
  ∧ (∀ message_, keeps LotMapFirst.same (Planning.showError "planningError" message_)).
Proof.
  assert (PreOrder LotMapFirst.same) by apply unchanged_preorder.
  unfold Planning.showSuccess, Planning.showError.
  split; intros; keeps_tac;
    first [ apply unchanged_whenPresent; [done | done | unseen_tac; done]
          | apply unchanged_modify; by intros [] ].
Qed.

(** A download leaves the lot map, the cards and the add control as they
    are. *)
Lemma same_download base64Data now p :
  LotMapFirst.same (planning p) (planning (exec (downloadPlanningImage base64Data now) p)).
Proof.
  destruct same_messages as [Hsuccess Herror].
  assert (PreOrder LotMapFirst.same) as Hpre by apply unchanged_preorder.
  unfold exec, downloadPlanningImage, try_catch, onPlanning, lift, mbind, Eff_bind, bind,
    modify.
  destruct (Base64.atob base64Data) as [bytes|e]; simpl.
  - pose proof (Hsuccess "✅ Ảnh đã được tải xuống!" (planning p)) as H.
    destruct (Planning.showSuccess _ _ _) as [[[]|e] p']; simpl in *; [done|].
    etrans; [exact H|]. apply (Herror "Lỗi khi tải ảnh. Vui lòng thử lại." p').
  - pose proof (Herror "Lỗi khi tải ảnh. Vui lòng thử lại." (planning p)) as H.
    exact H.
Qed.

Lemma page_lotMapFirst_step optimizer w e :
  lotMapFirst (planning (state w)) → lotMapFirst (planning (state (step optimizer w e))).
Proof.
  intros Hw. destruct e as [e|now]; cbn [step].
  - by apply (LotMapFirst.lotMapFirst_step optimizer (plans w)).
  - destruct (Planning.dom (planning (state w)) !! "downloadPlanningBtn") as [btn|];
      [|done].
    destruct (onclick btn) as [base64Data|]; [|done]. simpl.
    eapply LotMapFirst.lotMapFirst_same; [apply same_download | done].
Qed.

(** X14. Lot cards come after the lot map. On a page that starts without
    lot cards and with its add control disabled, whatever the user does and
    however the uploads, the requests and the downloads end, as long as no
    lot map is stored there is no lot card and the add control cannot be
    clicked. *)
Theorem lot_cards_after_lot_map (optimizer : File → Promise (option Blob))
    (d : gmap string Element) (events : list Event) :
  lotMapFirst (planning (state (init d))) →
  lotMapFirst (planning (state (run optimizer (init d) events))).
Proof.
  generalize (init d). intros w Hw. revert w Hw. unfold run.
  induction events as [|e events IH]; intros w Hw; [done|].
  simpl. by apply IH, page_lotMapFirst_step.
Qed.

Lemma lot_cards_after_lot_map_witness :
  let w := run Planning.optimizeImageForUpload (init Samples.planningDocument)
             [OfPlanning Planning.ClickAddLot;
              OfPlanning (Planning.ChangeSitePlan (Some Samples.photo));
              OfPlanning (Planning.OptimizerSettles 0); OfPlanning (Planning.ReaderLoad 0);
              OfPlanning Planning.ClickAddLot; ClickDownload 0;
              OfPlanning Planning.ClickGenerate] in
  Planning.currentLotMapImage (planning (state w)) = None
  ∧ cardsOn (planning (state w)) = []
  ∧ Planning.clickable "addLotBtn" (planning (state w)) = false.
Proof.
  intros w. split; [by vm_compute|].
  apply (lot_cards_after_lot_map Planning.optimizeImageForUpload Samples.planningDocument).
  - intros _. split; by vm_compute.
  - by vm_compute.
Defined.

(** X23. The download control saves the render that is displayed: once
    [displayPlanningRender] has displayed an image on a page with a gallery
    and a download control, a click on the control saves the bytes the image
    is the base64 text of, as a PNG named after the time of the click; when
    the text is not base64 nothing is saved and the error message of the
    download is displayed. The click sends nothing and leaves the tasks as
    they are. *)
Theorem download_saves_render (optimizer : File → Promise (option Blob)) (w : World)
    (gallery downloadBtn : Element) (base64Data : string) (mimeType : option string)
    (now : Z) :
  Planning.dom (planning (state w)) !! "planningGallery" = Some gallery →
  Planning.dom (planning (state w)) !! "downloadPlanningBtn" = Some downloadBtn →
  let displayed :=
    withPlans w
      {| page := exec (Planning.displayPlanningRender (Some base64Data) mimeType)
                   (planning (state w));
         tasks := pending w |} in
  let w' := step optimizer displayed (ClickDownload now) in
  pending w' = pending w
  ∧ Planning.network (planning (state w')) = Planning.network (planning (state w))
  ∧ match Base64.atob base64Data with
    | Normal bytes =>
        saved (state w')
        = Js.push (saved (state w))
            {| Download.filename := "planning-render-" +:+ pretty now +:+ ".png";
               Download.mime := "image/png"; Download.content := bytes |}
    | Throw _ =>
        saved (state w') = saved (state w)
        ∧ ∀ err, Planning.dom (planning (state w)) !! "planningError" = Some err →
                 ∃ el, Planning.dom (planning (state w')) !! "planningError" = Some el
                       ∧ shows "Lỗi khi tải ảnh. Vui lòng thử lại." el
    end.
Proof.
  intros Hgallery Hbtn displayed w'. subst w' displayed.
  unfold step, withPlans, exec, Planning.displayPlanningRender, getElementById,
    whenPresent, gets, modify, mbind, Eff_bind, bind. simpl. rewrite Hgallery. simpl.
  rewrite lookup_alter_ne, lookup_alter_eq, !lookup_alter_ne, Hbtn by done. simpl.
  unfold exec, downloadPlanningImage, try_catch, onPlanning, lift, Planning.showSuccess,
    Planning.showError, getElementById, whenPresent, gets, modify, mbind, Eff_bind, bind.
  destruct (Base64.atob base64Data) as [bytes|e]; simpl.
  - match goal with
    | |- context [?m !! "planningSuccess"] => destruct (m !! "planningSuccess")
    end; by simpl.
  - split_and!; try done. intros err Herr. eexists. split.
    + rewrite lookup_alter_eq, !lookup_alter_ne, Herr by done. done.
    + split; [done | apply hidden_remove].
Qed.

Lemma download_saves_render_witness :
  let w := {| state := {| planning := page Samples.planningSubmitted; saved := [] |};
              pending := tasks Samples.planningSubmitted |} in
  let displayed :=
    withPlans w
      {| page := exec (Planning.displayPlanningRender (Some "iVBORw0KGgo=")
                         (Some "image/png")) (planning (state w));
         tasks := pending w |} in
  saved (state (step Planning.optimizeImageForUpload displayed
                  (ClickDownload 1700000000000)))
  = [{| Download.filename := "planning-render-1700000000000.png";
        Download.mime := "image/png";
        Download.content := [137; 80; 78; 71; 13; 10; 26; 10]%N |}].
Proof.
  intros w displayed.
  destruct (download_saves_render Planning.optimizeImageForUpload w blank
              Samples.invisible "iVBORw0KGgo=" (Some "image/png") 1700000000000)
    as (_ & _ & Hsaved); [by vm_compute | by vm_compute |].
  vm_compute in Hsaved. exact Hsaved.
Defined.

End PlanningPageProps.
